(** * Batch screenshot generator for n8n workflows: a shallow embedding

    Source: [scripts/generate-all-screenshots.js].

    The script walks a list of workflow files; for every file it derives a
    category and a screenshot file name, asks the content store whether the
    screenshot is already there, and otherwise imports the workflow into n8n,
    captures it, publishes the image and deletes the imported workflow again.

    Modelling conventions.
    - A JavaScript string is a [string]: a sequence of 8-bit code units.  On
      such strings [toLowerCase] only ever produces a character of
      [[a-z0-9]] from an ASCII letter or digit, which is all the naming
      transform observes.
    - JavaScript values that travel through the script (JSON documents,
      identifiers, response bodies) are values of [jsval]; numbers are
      the integers that JavaScript prints in decimal, without an exponent.
      A template literal throws for a value without text, such as an
      object with a field [toString] of its own.
    - Everything the script asks of the outside world (HTTP through axios,
      the file system, puppeteer, the console, timers) is a [call]; a
      program is a tree of calls, and a [handler] plays the outside world.
      Request headers are not part of a call.  The script is followed as
      it runs outside debug mode, [CONFIG.debug] being false unless the
      environment sets [DEBUG=true]: the diagnostics of debug mode are left
      out.  So are the pictographs that decorate the console output: a
      [Log] carries the level of the line and its text.
    - [JSON.stringify] and [Buffer.toString('base64')] are library functions
      and are taken as parameters of the script.
    - For the script the browser work of [takeScreenshot] and of the login
      is one call each; module [Browser] follows [takeScreenshot] and
      [loginToN8n] step by step on the page, the diagnostics of debug mode
      and the files they write included. *)

From Stdlib Require Import List Ascii String ZArith Lia Bool Arith DecimalString.
Import ListNotations.
Open Scope string_scope.
Open Scope bool_scope.

(** ** Strings *)

Module Str.

(** Code of a character. *)
Definition code (c : ascii) : nat := nat_of_ascii c.

Definition between (lo hi : nat) (c : ascii) : bool :=
  Nat.leb lo (code c) && Nat.leb (code c) hi.

Definition is_lower (c : ascii) : bool := between 97 122 c.
Definition is_upper (c : ascii) : bool := between 65 90 c.
Definition is_digit (c : ascii) : bool := between 48 57 c.

(** The character class [[a-z0-9]]. *)
Definition is_alnum (c : ascii) : bool := is_lower c || is_digit c.

Definition is_hyphen (c : ascii) : bool := Ascii.eqb c "-".

(** Upper-case letters of the Latin-1 block other than the ASCII ones
    (U+00C0..U+00DE without the multiplication sign). *)
Definition is_upper_latin1 (c : ascii) : bool :=
  between 192 222 c && negb (Nat.eqb (code c) 215).

Definition lower_char (c : ascii) : ascii :=
  if is_upper c || is_upper_latin1 c then ascii_of_nat (code c + 32) else c.

(** [s.toLowerCase()] *)
Fixpoint toLowerCase (s : string) : string :=
  match s with
  | EmptyString => EmptyString
  | String c r => String (lower_char c) (toLowerCase r)
  end.

(** [s.replace(/[^a-z0-9]+/g, '-')]: every maximal run of characters
    outside [[a-z0-9]] becomes one hyphen.  [in_run] tells that the
    previous character already belongs to the run being replaced. *)
Fixpoint replace_runs (in_run : bool) (s : string) : string :=
  match s with
  | EmptyString => EmptyString
  | String c r =>
      if is_alnum c then String c (replace_runs false r)
      else if in_run then replace_runs true r
      else String "-" (replace_runs true r)
  end.

(** The alternative [^-+] of the trimming pattern. *)
Fixpoint drop_leading_hyphens (s : string) : string :=
  match s with
  | EmptyString => EmptyString
  | String c r => if is_hyphen c then drop_leading_hyphens r else s
  end.

(** The alternative [-+$] of the trimming pattern. *)
Fixpoint drop_trailing_hyphens (s : string) : string :=
  match s with
  | EmptyString => EmptyString
  | String c r =>
      match drop_trailing_hyphens r with
      | EmptyString => if is_hyphen c then EmptyString else String c EmptyString
      | r' => String c r'
      end
  end.

(** [s.replace(/^-+|-+$/g, '')] *)
Definition trim_hyphens (s : string) : string :=
  drop_trailing_hyphens (drop_leading_hyphens s).

(** [s.includes(c)] for a one-character needle. *)
Fixpoint includes_char (c : ascii) (s : string) : bool :=
  match s with
  | EmptyString => false
  | String d r => Ascii.eqb d c || includes_char c r
  end.

(** [s.includes(t)] *)
Fixpoint includes (t s : string) : bool :=
  String.prefix t s ||
  match s with
  | EmptyString => false
  | String _ r => includes t r
  end.

(** [s.endsWith(t)] *)
Fixpoint endsWith (t s : string) : bool :=
  String.eqb s t ||
  match s with
  | EmptyString => false
  | String _ r => endsWith t r
  end.

(** [s.split(sep)] for a one-character separator: never empty, one more
    segment than there are separators. *)
Fixpoint split (sep : ascii) (s : string) : list string :=
  match s with
  | EmptyString => [EmptyString]
  | String c r =>
      if Ascii.eqb c sep then EmptyString :: split sep r
      else match split sep r with
           | seg :: segs => String c seg :: segs
           | [] => [String c EmptyString]
           end
  end.

(** The line feed. *)
Definition nl : string := String (ascii_of_nat 10) EmptyString.

(** ['='.repeat(60)] *)
Definition rule : string :=
  "============================================================".

(** Decimal rendering of an integer, as a template literal prints it. *)
Definition of_Z (z : Z) : string := NilEmpty.string_of_int (Z.to_int z).

End Str.

(** [items.join(sep)] *)
Fixpoint join_with (sep : string) (l : list string) : string :=
  match l with
  | [] => ""
  | [x] => x
  | x :: rest => x ++ sep ++ join_with sep rest
  end.

(** ** Node's [path] module (POSIX flavour) *)

Module Path.

(** [path.sep] *)
Definition sep : ascii := "/"%char.

Definition nonempty (s : string) : bool := negb (String.eqb s "").

(** [path.basename(p)]: the last portion of the path, trailing separators
    ignored. *)
Definition basename1 (p : string) : string :=
  last (filter nonempty (Str.split sep p)) "".

(** [path.basename(p, ext)] for a non-empty [ext]: the last portion with
    [ext] removed from its end, unless the portion is [ext] itself; the
    empty string when the whole path is [ext].  After Node's documentation,
    for paths as [glob] yields them: paths of files, without trailing
    separators. *)
Definition basename (p ext : string) : string :=
  if String.eqb p ext then ""
  else
    let seg := basename1 p in
    if Str.endsWith ext seg && negb (String.eqb seg ext)
    then String.substring 0 (String.length seg - String.length ext) seg
    else seg.

(** The segments of a normalized path, after [normalizeString] of Node:
    empty segments and [.] are dropped; [..] takes the segment before it
    away, unless that is a [..] itself or there is none, and then it stays
    when the path is relative ([allowAboveRoot]) and is dropped when it is
    absolute.  [kept] holds the segments so far, the last one first. *)
Fixpoint normalizeSegments (allowAboveRoot : bool) (kept segments : list string)
  : list string :=
  match segments with
  | [] => rev kept
  | segment :: rest =>
      if String.eqb segment "" || String.eqb segment "."
      then normalizeSegments allowAboveRoot kept rest
      else if String.eqb segment ".."
      then
        match kept with
        | before :: others =>
            if String.eqb before ".."
            then normalizeSegments allowAboveRoot
                   (if allowAboveRoot then ".." :: kept else kept) rest
            else normalizeSegments allowAboveRoot others rest
        | [] =>
            normalizeSegments allowAboveRoot
              (if allowAboveRoot then [".."] else []) rest
        end
      else normalizeSegments allowAboveRoot (segment :: kept) rest
  end.

(** [path.normalize(p)] *)
Definition normalize (p : string) : string :=
  if String.eqb p "" then "."
  else
    let isAbsolute := String.prefix "/" p in
    let trailingSeparator := Str.endsWith "/" p in
    let body :=
      join_with "/" (normalizeSegments (negb isAbsolute) [] (Str.split sep p)) in
    if String.eqb body ""
    then (if isAbsolute then "/" else if trailingSeparator then "./" else ".")
    else (if isAbsolute then "/" else "") ++ body
         ++ (if trailingSeparator then "/" else "").

(** [path.join(a, b)]: the arguments that are not empty, joined by the
    separator and normalized. *)
Definition join (a b : string) : string :=
  if String.eqb a "" then (if String.eqb b "" then "." else normalize b)
  else if String.eqb b "" then normalize a
  else normalize (a ++ "/" ++ b).

End Path.

(** ** Naming transform *)

(** The canonical name, before the extension is appended. *)
Definition canonicalName (workflowPath : string) : string :=
  let basename := Path.basename workflowPath ".json" in
  String.substring 0 50
    (Str.trim_hyphens (Str.replace_runs false (Str.toLowerCase basename))).

(** The canonical name before [substring(0, 50)] cuts it. *)
Definition untruncatedName (workflowPath : string) : string :=
  Str.trim_hyphens
    (Str.replace_runs false
       (Str.toLowerCase (Path.basename workflowPath ".json"))).

Definition getScreenshotFilename (workflowPath : string) : string :=
  canonicalName workflowPath ++ ".png".

(** ** Category *)

Definition looksLikeCategory (dir : string) : bool :=
  Str.includes_char "_" dir || String.eqb dir "devops".

(** The loop [for (let i = parts.length - 2; i >= 0; i--)]: [scanParts parts k]
    looks at the indices [k-1], [k-2], ..., [0] in this order. *)
Fixpoint scanParts (parts : list string) (k : nat) : option string :=
  match k with
  | O => None
  | S i =>
      let dir := nth i parts "" in
      if looksLikeCategory dir then Some dir else scanParts parts i
  end.

Definition defaultCategory : string := "Other_Integrations_and_Use_Cases".

Definition getCategory (workflowPath : string) : string :=
  let parts := Str.split Path.sep workflowPath in
  match scanParts parts (List.length parts - 1) with
  | Some dir => dir
  | None => defaultCategory
  end.

(** ** JavaScript values *)

Set Warnings "-register-all".

Inductive jsval : Type :=
| JUndefined
| JNull
| JBool (b : bool)
| JNum (z : Z)
| JStr (s : string)
| JArr (items : list jsval)
| JObj (fields : list (string * jsval)).

(** What an [if], [!], [||] or [&&] makes of a value. *)
Definition truthy (v : jsval) : bool :=
  match v with
  | JUndefined | JNull => false
  | JBool b => b
  | JNum z => negb (Z.eqb z 0)
  | JStr s => negb (String.eqb s "")
  | JArr _ | JObj _ => true
  end.

(** [a || b] *)
Definition js_or (a b : jsval) : jsval := if truthy a then a else b.

(** [a && b] *)
Definition js_and (a b : jsval) : jsval := if truthy a then b else a.

Fixpoint lookup (fields : list (string * jsval)) (key : string) : jsval :=
  match fields with
  | [] => JUndefined
  | (k, v) :: rest => if String.eqb k key then v else lookup rest key
  end.

(** A template literal converts a value to text.  An object is asked for
    its [toString]: that is [Object.prototype.toString], unless the object
    has a field of this name of its own, which in a JSON document is never
    a function; [valueOf] then gives the object back and the conversion
    throws a [TypeError].  An array joins the texts of its items, those of
    [null] and [undefined] being empty.  [has_text v] tells that the
    conversion of [v] returns. *)
Fixpoint has_text (v : jsval) : bool :=
  match v with
  | JArr items =>
      forallb (fun x => has_text x) items
  | JObj fields =>
      negb (existsb (fun field => String.eqb (fst field) "toString") fields)
  | _ => true
  end.

(** The message of the [TypeError] of a conversion that fails (V8
    wording). *)
Definition cannot_convert : string := "Cannot convert object to primitive value".

(** The text a template literal puts for a value that has one. *)
Fixpoint to_string (v : jsval) : string :=
  match v with
  | JUndefined => "undefined"
  | JNull => "null"
  | JBool true => "true"
  | JBool false => "false"
  | JNum z => Str.of_Z z
  | JStr s => s
  | JArr items =>
      join_with ","
        (map (fun x => match x with
                       | JUndefined | JNull => ""
                       | _ => to_string x
                       end) items)
  | JObj _ => "[object Object]"
  end.

(** Environment variables are strings or absent. *)
Definition env_truthy (v : option string) : bool :=
  match v with
  | Some s => negb (String.eqb s "")
  | None => false
  end.

(** ** Errors *)

(** A thrown [Error]: its message and, for an axios error that carries a
    response, the status and body of that response. *)
Record jserror : Type := mkError {
  message : string;
  response : option (Z * jsval)
}.

(** [new Error(msg)] *)
Definition Error_ (msg : string) : jserror := mkError msg None.

(** The message of the [TypeError] of reading a property of [null] or
    [undefined] (V8 wording). *)
Definition cannot_read (v : jsval) (key : string) : string :=
  "Cannot read properties of " ++ to_string v ++ " (reading '" ++ key ++ "')".

(** ** The outside world *)

Definition Buffer : Type := list ascii.

Inductive level : Type := Info | Success | Error | Warn | Out.

Inductive method : Type := GET | POST | PUT | DELETE.

Inductive filedata : Type :=
| Bytes (b : Buffer)
| Pretty (v : jsval).              (* JSON.stringify(v, null, 2) *)

Inductive reply : Type :=
| Reply (status : Z) (data : jsval)   (* a response arrived *)
| NoReply (msg : string).             (* transport failure, no response *)

Inductive call : Type :=
| Log (l : level) (msg : string)               (* log.* and console.log *)
| Glob (pattern : string) (ignore : list string)
| ReadJson (file : string)                     (* JSON.parse(fs.readFileSync(file, 'utf8')) *)
| Http (m : method) (url : string) (body : jsval)  (* the request axios sends *)
| Sleep (ms : Z)                               (* await new Promise(r => setTimeout(r, ms)) *)
| Screenshot (workflowId : jsval)              (* the browser work of takeScreenshot *)
| ExistsSync (dir : string)
| MkdirSync (dir : string)
| WriteFileSync (file : string) (data : filedata)
| Launch                                       (* puppeteer.launch *)
| Login                                        (* newPage, loginToN8n, close *)
| CloseBrowser
| Now.                                         (* new Date().toISOString() *)

Definition answer (c : call) : Type :=
  match c with
  | Log _ _ => unit
  | Glob _ _ => (jserror + list string)%type
  | ReadJson _ => (jserror + jsval)%type
  | Http _ _ _ => reply
  | Sleep _ => unit
  | Screenshot _ => (jserror + Buffer)%type
  | ExistsSync _ => bool
  | MkdirSync _ => (jserror + unit)%type
  | WriteFileSync _ _ => (jserror + unit)%type
  | Launch => (jserror + unit)%type
  | Login => (jserror + unit)%type
  | CloseBrowser => (jserror + unit)%type
  | Now => string
  end.

(** A program: a tree of calls. *)
Inductive prog (A : Type) : Type :=
| Ret (a : A)
| Vis (c : call) (k : answer c -> prog A).

Arguments Ret {A} a.
Arguments Vis {A} c k.

Fixpoint pbind {A B : Type} (p : prog A) (f : A -> prog B) : prog B :=
  match p with
  | Ret a => f a
  | Vis c k => Vis c (fun r => pbind (k r) f)
  end.

(** One call together with the answer it got. *)
Record event : Type := Ev { ev_call : call; ev_answer : answer ev_call }.

(** The outside world: it answers a call, knowing what happened before. *)
Definition handler : Type := list event -> forall c : call, answer c.

(** Running a program against a handler; [past] is what happened before,
    the result comes with the events of this run. *)
Fixpoint run {A : Type} (h : handler) (past : list event) (p : prog A)
  : A * list event :=
  match p with
  | Ret a => (a, [])
  | Vis c k =>
      let r := h past c in
      let (a, evs) := run h (past ++ [Ev c r]) (k r) in
      (a, Ev c r :: evs)
  end.

(** ** Script monad: state, exceptions, calls *)

(** How a piece of script ends: normally, by an exception, or by
    [process.exit]. *)
Inductive outcome (A : Type) : Type :=
| Normal (a : A)
| Thrown (e : jserror)
| Exited (code : Z).

Arguments Normal {A} a.
Arguments Thrown {A} e.
Arguments Exited {A} code.

Definition js (S A : Type) : Type := S -> prog (outcome A * S).

Definition ret {S A : Type} (a : A) : js S A := fun s => Ret (Normal a, s).

Definition throw {S A : Type} (e : jserror) : js S A :=
  fun s => Ret (Thrown e, s).

(** [process.exit(code)] *)
Definition process_exit {S A : Type} (code : Z) : js S A :=
  fun s => Ret (Exited code, s).

Definition bind {S A B : Type} (m : js S A) (f : A -> js S B) : js S B :=
  fun s =>
    pbind (m s) (fun r =>
      match r with
      | (Normal a, s') => f a s'
      | (Thrown e, s') => Ret (Thrown e, s')
      | (Exited c, s') => Ret (Exited c, s')
      end).

Declare Scope js_scope.
Delimit Scope js_scope with js.
Notation "x <- m ;; k" := (bind m (fun x => k))
  (at level 61, m at next level, right associativity) : js_scope.
Notation "m ;; k" := (bind m (fun _ => k))
  (at level 61, right associativity) : js_scope.

(** [try { body } catch (error) { handle error }]; [process.exit] is not an
    exception. *)
Definition try_catch {S A : Type} (body : js S A) (handle : jserror -> js S A)
  : js S A :=
  fun s =>
    pbind (body s) (fun r =>
      match r with
      | (Thrown e, s') => handle e s'
      | other => Ret other
      end).

(** [try { body } finally { fin }]: [fin] runs after [body] however it
    ended and the ending of [body] stands, unless [fin] itself throws. *)
Definition try_finally {S A : Type} (body : js S A) (fin : js S unit)
  : js S A :=
  fun s =>
    pbind (body s) (fun r =>
      match r with
      | (Exited c, s') => Ret (Exited c, s')
      | (o, s') =>
          pbind (fin s') (fun r' =>
            match r' with
            | (Normal _, s'') => Ret (o, s'')
            | (Thrown e, s'') => Ret (Thrown e, s'')
            | (Exited c, s'') => Ret (Exited c, s'')
            end)
      end).

(** A call whose answer is used as it is. *)
Definition perform {S : Type} (c : call) : js S (answer c) :=
  fun s => Vis c (fun r => Ret (Normal r, s)).

(** Library calls that return or throw. *)
Definition or_throw {S A : Type} (m : js S (jserror + A)) : js S A :=
  bind m (fun r => match r with inl e => throw e | inr a => ret a end).

Definition gets {S A : Type} (f : S -> A) : js S A :=
  fun s => Ret (Normal (f s), s).

Definition modify {S : Type} (f : S -> S) : js S unit :=
  fun s => Ret (Normal tt, f s).

(** A block with a local variable [let x = init]. *)
Definition with_local {S L A : Type} (init : L) (body : js (S * L) A)
  : js S A :=
  fun s => pbind (body (s, init)) (fun r => Ret (fst r, fst (snd r))).

Definition log {S : Type} (l : level) (msg : string) : js S unit :=
  perform (Log l msg).

Definition sleep {S : Type} (ms : Z) : js S unit := perform (Sleep ms).

(** A template literal in which the value [v] stands: the conversion of
    [v] throws when [v] has no text, and otherwise the literal is [text]. *)
Definition template {S : Type} (v : jsval) (text : string) : js S string :=
  if has_text v then ret text else throw (Error_ cannot_convert).

(** Reading a property [v.key], for the keys the script reads ([id],
    [data], [sha], [name], [nodes], ...): a [TypeError] on [null] and
    [undefined], [undefined] on the other values that are not objects. *)
Definition prop {S : Type} (v : jsval) (key : string) : js S jsval :=
  match v with
  | JUndefined | JNull => throw (Error_ (cannot_read v key))
  | JObj fields => ret (lookup fields key)
  | _ => ret JUndefined
  end.

(** [v?.key] *)
Definition prop_opt {S : Type} (v : jsval) (key : string) : js S jsval :=
  match v with
  | JUndefined | JNull => ret JUndefined
  | _ => prop v key
  end.

(** axios: the request resolves with the response when one arrives and
    [validateStatus] accepts its status, and rejects otherwise; the error
    of a refused status carries the response. *)
Definition axios {S : Type} (m : method) (url : string) (body : jsval)
    (validateStatus : Z -> bool) : js S (Z * jsval) :=
  bind (perform (Http m url body)) (fun r =>
    match r with
    | NoReply msg => throw (mkError msg None)
    | Reply status data =>
        if validateStatus status then ret (status, data)
        else throw (mkError ("Request failed with status code " ++ Str.of_Z status)
                            (Some (status, data)))
    end).

(** The default [validateStatus] of axios. *)
Definition status_2xx (status : Z) : bool :=
  Z.leb 200 status && Z.ltb status 300.

(** ** Configuration and run state *)

Record Config : Type := {
  n8nUrl : string;
  n8nApiKey : option string;
  githubToken : option string;
  githubRepo : string;
  screenshotsDir : string;
  workflowsDir : string;
  n8nEmail : option string;
  n8nPassword : option string;
  delayAfterImport : Z;
  delayBetweenWorkflows : Z;
  skipExisting : bool
}.

Record State : Type := mkState {
  total : nat;
  processed : nat;
  succeeded : nat;
  failed : nat;
  skipped : nat;
  errors : list (string * string)      (* { workflow, error } *)
}.

(** The [state] object as the script creates it. *)
Definition state0 : State := mkState 0 0 0 0 0 [].

(** An entry of [results]. *)
Record shot : Type := mkShot {
  shot_workflow : string;
  shot_category : string;
  shot_filename : string;
  shot_url : string
}.

Definition set_total (n : nat) (s : State) : State :=
  mkState n (processed s) (succeeded s) (failed s) (skipped s) (errors s).
Definition inc_processed (s : State) : State :=
  mkState (total s) (S (processed s)) (succeeded s) (failed s) (skipped s) (errors s).
Definition inc_succeeded (s : State) : State :=
  mkState (total s) (processed s) (S (succeeded s)) (failed s) (skipped s) (errors s).
Definition inc_failed (s : State) : State :=
  mkState (total s) (processed s) (succeeded s) (S (failed s)) (skipped s) (errors s).
Definition inc_skipped (s : State) : State :=
  mkState (total s) (processed s) (succeeded s) (failed s) (S (skipped s)) (errors s).
Definition push_error (w e : string) (s : State) : State :=
  mkState (total s) (processed s) (succeeded s) (failed s) (skipped s)
          (errors s ++ [(w, e)])%list.

(** ** The script *)

Section Script.

(** The text of [JSON.stringify(v)] inside a template literal. *)
Variable JSON_stringify : jsval -> string.

(** [buffer.toString('base64')] *)
Variable toBase64 : Buffer -> string.

Variable CONFIG : Config.

Local Open Scope js_scope.

(** [log.progress()]; the pictographs of the line are written as words. *)
Definition log_progress {S : Type} (st : State) : js S unit :=
  log Out ("Progress: " ++ Str.of_Z (Z.of_nat (processed st)) ++ "/"
           ++ Str.of_Z (Z.of_nat (total st)) ++ " ("
           ++ Str.of_Z (Z.of_nat (succeeded st)) ++ " ok, "
           ++ Str.of_Z (Z.of_nat (failed st)) ++ " failed, "
           ++ Str.of_Z (Z.of_nat (skipped st)) ++ " skipped)").

(** The callback of [files.filter] in [getWorkflowFiles]. *)
Definition isWorkflowFile {S : Type} (file : string) : js S bool :=
  try_catch
    (content <- or_throw (perform (ReadJson file)) ;;
     nodes <- prop content "nodes" ;;
     name <- prop content "name" ;;
     ret (truthy (js_and nodes name)))
    (fun _ => ret false).

Fixpoint filterFiles {S : Type} (files : list string) : js S (list string) :=
  match files with
  | [] => ret []
  | file :: rest =>
      keep <- isWorkflowFile file ;;
      kept <- filterFiles rest ;;
      ret (if keep then file :: kept else kept)
  end.

Definition getWorkflowFiles {S : Type} : js S (list string) :=
  let pattern := Path.join (workflowsDir CONFIG) "**/*.json" in
  files <- or_throw (perform
             (Glob pattern ["**/node_modules/**"; "**/.git/**"; "**/package*.json"])) ;;
  filterFiles files.

Definition contentsUrl (filePath : string) : string :=
  "https://api.github.com/repos/" ++ githubRepo CONFIG ++ "/contents/" ++ filePath.

Definition screenshotExists {S : Type} (category filename : string) : js S bool :=
  if negb (skipExisting CONFIG) then ret false
  else
    try_catch
      (let url := contentsUrl ("screenshots/" ++ category ++ "/" ++ filename) in
       response <- axios GET url JUndefined
                     (fun status => Z.eqb status 200 || Z.eqb status 404) ;;
       ret (Z.eqb (fst response) 200))
      (fun _ => ret false).

Definition workflowsUrl : string := n8nUrl CONFIG ++ "/api/v1/workflows".

Definition importWorkflow {S : Type} (workflowJson : jsval) : js S jsval :=
  try_catch
    (name <- prop workflowJson "name" ;;
     nodes <- prop workflowJson "nodes" ;;
     connections <- prop workflowJson "connections" ;;
     settings <- prop workflowJson "settings" ;;
     let cleanWorkflow :=
       [("name", name); ("nodes", nodes); ("connections", connections);
        ("settings", js_or settings (JObj []))] in
     staticData <- prop workflowJson "staticData" ;;
     let cleanWorkflow :=
       if truthy staticData
       then (cleanWorkflow ++ [("staticData", staticData)])%list
       else cleanWorkflow in
     response <- axios POST workflowsUrl (JObj cleanWorkflow)
                   (fun status => Z.ltb status 500) ;;
     let (status, data) := response in
     if Z.leb 400 status
     then throw (Error_ ("API returned " ++ Str.of_Z status ++ ": "
                         ++ JSON_stringify data))
     else
       id <- prop data "id" ;;
       workflowId <- (if truthy id then ret id
                      else inner <- prop data "data" ;; prop_opt inner "id") ;;
       if negb (truthy workflowId)
       then throw (Error_ ("No workflow ID in response: " ++ JSON_stringify data))
       else ret workflowId)
    (fun error =>
       match response error with
       | Some (status, data) =>
           throw (Error_ ("Failed to import workflow: " ++ Str.of_Z status
                          ++ " - " ++ JSON_stringify data))
       | None =>
           throw (Error_ ("Failed to import workflow: " ++ message error))
       end).

Definition deleteUrl (workflowId : jsval) : string :=
  workflowsUrl ++ "/" ++ to_string workflowId.

(** The URL of the request and the warning of the [catch] block are
    template literals that hold the identifier: for an identifier without
    text the first throws inside [try] and the second inside [catch], so
    that the function throws. *)
Definition deleteWorkflow {S : Type} (workflowId : jsval) : js S unit :=
  try_catch
    (url <- template workflowId (deleteUrl workflowId) ;;
     axios DELETE url JUndefined status_2xx ;;
     ret tt)
    (fun error =>
       warning <- template workflowId
                    ("Failed to delete workflow " ++ to_string workflowId ++ ": "
                     ++ message error) ;;
       log Warn warning).

(** [takeScreenshot]: the page is opened, driven to the canvas and closed
    again inside the browser; the script sees the image or an exception.
    The URL of the canvas is a template literal that holds the identifier
    (line 328): for an identifier without text the page is closed again
    before it is sent anywhere, the browser gives no image, and the function
    throws the error of the page, if one failed, or of the conversion.
    The files that debug mode writes during the capture are part of
    [Browser.takeScreenshot]. *)
Definition takeScreenshot {S : Type} (workflowId : jsval) : js S Buffer :=
  screenshot <- or_throw (perform (Screenshot workflowId)) ;;
  if has_text workflowId then ret screenshot
  else throw (Error_ cannot_convert).

Definition publicUrl (filePath : string) : string :=
  "https://raw.githubusercontent.com/" ++ githubRepo CONFIG ++ "/main/" ++ filePath.

Definition uploadToGitHub {S : Type} (category filename : string)
    (imageBuffer : Buffer) : js S string :=
  let base64Content := toBase64 imageBuffer in
  let filePath := "screenshots/" ++ category ++ "/" ++ filename in
  try_catch
    (sha <- try_catch
              (existingFile <- axios GET (contentsUrl filePath) JUndefined status_2xx ;;
               prop (snd existingFile) "sha")
              (fun _ => ret JNull) ;;
     let payload :=
       if truthy sha
       then [("message", JStr ("Update screenshot: " ++ filename));
             ("content", JStr base64Content);
             ("branch", JStr "main");
             ("sha", sha)]
       else [("message", JStr ("Add screenshot: " ++ filename));
             ("content", JStr base64Content);
             ("branch", JStr "main")] in
     axios PUT (contentsUrl filePath) (JObj payload) status_2xx ;;
     ret (publicUrl filePath))
    (fun error => throw (Error_ ("GitHub upload failed: " ++ message error))).

(** Inside [processWorkflow] the state is the global [state] together with
    the local [workflowId]. *)
Definition on_state (f : State -> State) (s : State * jsval) : State * jsval :=
  (f (fst s), snd s).

Definition set_workflowId (v : jsval) (s : State * jsval) : State * jsval :=
  (fst s, v).

(** The [try] block of [processWorkflow]. *)
Definition processWorkflow_try (workflowPath workflowName category filename : string)
  : js (State * jsval) (option shot) :=
  workflowJson <- or_throw (perform (ReadJson workflowPath)) ;;
  log Info "  Importing to n8n..." ;;
  id <- importWorkflow workflowJson ;;
  modify (set_workflowId id) ;;
  sleep (delayAfterImport CONFIG) ;;
  log Info "  Taking screenshot..." ;;
  workflowId <- gets snd ;;
  screenshot <- takeScreenshot workflowId ;;
  let localDir := Path.join (screenshotsDir CONFIG) category in
  present <- perform (ExistsSync localDir) ;;
  (if negb present then or_throw (perform (MkdirSync localDir)) else ret tt) ;;
  let localPath := Path.join localDir filename in
  or_throw (perform (WriteFileSync localPath (Bytes screenshot))) ;;
  log Info "  Uploading to GitHub..." ;;
  url <- uploadToGitHub category filename screenshot ;;
  log Success ("  Success! " ++ url) ;;
  modify (on_state inc_succeeded) ;;
  ret (Some (mkShot workflowName category filename url)).

(** The [catch] block of [processWorkflow]. *)
Definition processWorkflow_catch (workflowName : string) (error : jserror)
  : js (State * jsval) (option shot) :=
  log Error ("  Failed: " ++ message error) ;;
  modify (on_state inc_failed) ;;
  modify (on_state (push_error workflowName (message error))) ;;
  ret None.

(** The [finally] block of [processWorkflow]. *)
Definition processWorkflow_finally : js (State * jsval) unit :=
  workflowId <- gets snd ;;
  (if truthy workflowId then deleteWorkflow workflowId else ret tt) ;;
  modify (on_state inc_processed) ;;
  st <- gets fst ;;
  log_progress st.

Definition processWorkflow (workflowPath : string) : js State (option shot) :=
  let workflowName := Path.basename1 workflowPath in
  let category := getCategory workflowPath in
  let filename := getScreenshotFilename workflowPath in
  log Info ("Processing: " ++ workflowName) ;;
  log Info ("  Category: " ++ category) ;;
  log Info ("  Output: " ++ filename) ;;
  present <- screenshotExists category filename ;;
  if present
  then
    log Warn "  Skipping: Screenshot already exists" ;;
    modify inc_skipped ;;
    ret None
  else
    with_local JNull
      (try_finally
         (try_catch
            (processWorkflow_try workflowPath workflowName category filename)
            (processWorkflow_catch workflowName))
         processWorkflow_finally).

(** The loop [for (let i = 0; i < workflowFiles.length; i++)] of [main],
    started on the files that are left, with the [results] so far. *)
Fixpoint main_loop (workflowFiles : list string) (results : list shot)
  : js State (list shot) :=
  match workflowFiles with
  | [] => ret results
  | workflowPath :: rest =>
      result <- processWorkflow workflowPath ;;
      let results :=
        match result with
        | Some r => (results ++ [r])%list
        | None => results
        end in
      (match rest with
       | [] => ret tt
       | _ :: _ => sleep (delayBetweenWorkflows CONFIG)
       end) ;;
      main_loop rest results
  end.

Fixpoint log_errors {S : Type} (errs : list (string * string)) : js S unit :=
  match errs with
  | [] => ret tt
  | (workflow, error) :: rest =>
      log Out ("  - " ++ workflow ++ ": " ++ error) ;;
      log_errors rest
  end.

Definition json_of_nat (n : nat) : jsval := JNum (Z.of_nat n).

Definition json_of_shot (r : shot) : jsval :=
  JObj [("workflow", JStr (shot_workflow r));
        ("category", JStr (shot_category r));
        ("filename", JStr (shot_filename r));
        ("url", JStr (shot_url r))].

Definition json_of_error (e : string * string) : jsval :=
  JObj [("workflow", JStr (fst e)); ("error", JStr (snd e))].

Definition resultsFile : string := "screenshot-results.json".

(** The object that [main] serialises into the results file. *)
Definition report (timestamp : string) (st : State) (results : list shot) : jsval :=
  JObj [("timestamp", JStr timestamp);
        ("stats", JObj [("total", json_of_nat (total st));
                        ("succeeded", json_of_nat (succeeded st));
                        ("failed", json_of_nat (failed st));
                        ("skipped", json_of_nat (skipped st))]);
        ("screenshots", JArr (map json_of_shot results));
        ("errors", JArr (map json_of_error (errors st)))].

(** The [try] block of [main]. *)
Definition main_try (workflowFiles : list string) : js State unit :=
  (if env_truthy (n8nEmail CONFIG) && env_truthy (n8nPassword CONFIG)
   then or_throw (perform Login) ;; log Out ""
   else ret tt) ;;
  results <- main_loop workflowFiles [] ;;
  log Out (Str.nl ++ Str.rule) ;;
  log Out "SUMMARY" ;;
  log Out Str.rule ;;
  st <- gets (fun s => s) ;;
  log Info ("Total workflows: " ++ Str.of_Z (Z.of_nat (total st))) ;;
  log Success ("Successfully processed: " ++ Str.of_Z (Z.of_nat (succeeded st))) ;;
  log Error ("Failed: " ++ Str.of_Z (Z.of_nat (failed st))) ;;
  log Warn ("Skipped (already exist): " ++ Str.of_Z (Z.of_nat (skipped st))) ;;
  (match errors st with
   | [] => ret tt
   | _ :: _ => log Out (Str.nl ++ "Errors:") ;; log_errors (errors st)
   end) ;;
  timestamp <- perform Now ;;
  or_throw (perform (WriteFileSync resultsFile (Pretty (report timestamp st results)))) ;;
  log Success (Str.nl ++ "Results saved to " ++ resultsFile).

Definition main : js State unit :=
  log Out ("n8n Workflow Screenshot Generator" ++ Str.nl) ;;
  if negb (env_truthy (n8nApiKey CONFIG))
  then log Error "Missing N8N_API_KEY environment variable" ;; process_exit 1
  else if negb (env_truthy (githubToken CONFIG))
  then log Error "Missing GITHUB_TOKEN environment variable" ;; process_exit 1
  else if String.eqb (githubRepo CONFIG) ""
          || String.eqb (githubRepo CONFIG) "your-org/your-screenshots-repo"
  then
    log Error "Missing or invalid GITHUB_SCREENSHOTS_REPO environment variable" ;;
    log Error "Please set it to your target repository in format: owner/repo" ;;
    process_exit 1
  else
    log Info ("n8n URL: " ++ n8nUrl CONFIG) ;;
    log Info ("GitHub Repo: " ++ githubRepo CONFIG) ;;
    log Info ("Workflows Dir: " ++ workflowsDir CONFIG) ;;
    log Info ("Screenshots Dir: " ++ screenshotsDir CONFIG) ;;
    log Out "" ;;
    log Info "Finding workflow files..." ;;
    workflowFiles <- getWorkflowFiles ;;
    modify (set_total (List.length workflowFiles)) ;;
    log Info ("Found " ++ Str.of_Z (Z.of_nat (List.length workflowFiles))
              ++ " workflows" ++ Str.nl) ;;
    if Nat.eqb (List.length workflowFiles) 0
    then log Warn "No workflow files found!"
    else
      log Info "Launching browser..." ;;
      or_throw (perform Launch) ;;
      try_finally
        (main_try workflowFiles)
        (or_throw (perform CloseBrowser) ;; log Info "Browser closed").

(** The last statement of the script: [main().catch(...)];
    [console.error(error)] prints the error, of which the stack is not
    modelled. *)
Definition script : js State unit :=
  try_catch main
    (fun error =>
       log Error ("Fatal error: " ++ message error) ;;
       log Out ("Error: " ++ message error) ;;
       process_exit 1).

End Script.

(** ** Vocabulary of the properties *)

(** *** Names *)

Fixpoint forall_chars (P : ascii -> bool) (s : string) : bool :=
  match s with
  | EmptyString => true
  | String c r => P c && forall_chars P r
  end.

(** A lowercase letter, a digit or a hyphen. *)
Definition name_char (c : ascii) : bool := Str.is_alnum c || Str.is_hyphen c.

Definition starts_with_hyphen (s : string) : bool :=
  match s with
  | String c _ => Str.is_hyphen c
  | EmptyString => false
  end.

Fixpoint ends_with_hyphen (s : string) : bool :=
  match s with
  | EmptyString => false
  | String c EmptyString => Str.is_hyphen c
  | String _ r => ends_with_hyphen r
  end.

Fixpoint no_double_hyphen (s : string) : bool :=
  match s with
  | EmptyString => true
  | String c r =>
      negb (Str.is_hyphen c && starts_with_hyphen r) && no_double_hyphen r
  end.

(** Only name characters, no two hyphens in a row, no hyphen in front. *)
Definition canonical (s : string) : Prop :=
  forall_chars name_char s = true /\ no_double_hyphen s = true /\
  starts_with_hyphen s = false.

(** The directory segments of a path: all segments but the final one. *)
Definition dirSegments (workflowPath : string) : list string :=
  removelast (Str.split Path.sep workflowPath).

(** *** Runs *)

Definition ending {A S : Type} (r : outcome A * S * list event) : outcome A :=
  fst (fst r).
Definition final {A S : Type} (r : outcome A * S * list event) : S :=
  snd (fst r).
Definition events {A S : Type} (r : outcome A * S * list event) : list event :=
  snd r.

Definition method_eqb (a b : method) : bool :=
  match a, b with
  | GET, GET | POST, POST | PUT, PUT | DELETE, DELETE => true
  | _, _ => false
  end.

(** The URLs of the requests with method [m] among the events. *)
Definition requests (m : method) (evs : list event) : list string :=
  flat_map (fun e => match ev_call e with
                     | Http m' url _ => if method_eqb m m' then [url] else []
                     | _ => []
                     end) evs.

(** The replies that arrived to the requests. *)
Definition replies (evs : list event) : list reply :=
  flat_map (fun e => match e with
                     | Ev (Http _ _ _) r => [r]
                     | _ => []
                     end) evs.

(** The workflows that the browser was sent to. *)
Definition screenshots (evs : list event) : list jsval :=
  flat_map (fun e => match ev_call e with
                     | Screenshot id => [id]
                     | _ => []
                     end) evs.

(** The messages of the log lines that announce a file. *)
Definition started (evs : list event) : list string :=
  flat_map (fun e => match ev_call e with
                     | Log Info msg =>
                         if String.prefix "Processing: " msg then [msg] else []
                     | _ => []
                     end) evs.

Definition announce (workflowPath : string) : string :=
  "Processing: " ++ Path.basename1 workflowPath.

(** The calls that only [main] itself makes. *)
Definition main_call (c : call) : bool :=
  match c with
  | Launch | Login | CloseBrowser => true
  | WriteFileSync _ (Pretty _) => true
  | _ => false
  end.

Definition main_calls (evs : list event) : list event :=
  filter (fun e => main_call (ev_call e)) evs.

(** The browser was launched. *)
Definition launched (evs : list event) : bool :=
  existsb (fun e => match e with
                    | Ev Launch (inr _) => true
                    | _ => false
                    end) evs.

(** The login was tried and failed. *)
Definition login_failed (evs : list event) : bool :=
  existsb (fun e => match e with
                    | Ev Login (inl _) => true
                    | _ => false
                    end) evs.

(** What was written to the results file. *)
Definition report_writes (evs : list event) : list jsval :=
  flat_map (fun e => match ev_call e with
                     | WriteFileSync file (Pretty v) =>
                         if String.eqb file resultsFile then [v] else []
                     | _ => []
                     end) evs.

(** The items that ended in one of the three counters. *)
Definition counted (st : State) : nat := succeeded st + failed st + skipped st.

(** The three log lines that open the processing of a file. *)
Definition banner (workflowPath : string) : list event :=
  [Ev (Log Info ("Processing: " ++ Path.basename1 workflowPath)) tt;
   Ev (Log Info ("  Category: " ++ getCategory workflowPath)) tt;
   Ev (Log Info ("  Output: " ++ getScreenshotFilename workflowPath)) tt].

(** The events up to the call of [importWorkflow], when the existence check
    took the events [ex] and the file was read as [json]. *)
Definition beforeImport (workflowPath : string) (ex : list event) (json : jsval)
  : list event :=
  (banner workflowPath ++ ex
   ++ [Ev (ReadJson workflowPath) (inr json);
       Ev (Log Info "  Importing to n8n...") tt])%list.

(** [response.data.id || response.data.data?.id] for a body that is not
    [null]. *)
Definition responseId (data : jsval) : jsval :=
  match data with
  | JObj fields =>
      js_or (lookup fields "id")
            (match lookup fields "data" with
             | JObj inner => lookup inner "id"
             | _ => JUndefined
             end)
  | _ => JUndefined
  end.

(** The version token that the content store reports for a path: the
    [sha] of a 2xx reply, when there is one. *)
Definition versionToken (found : reply) : option jsval :=
  match found with
  | Reply status (JObj fields) =>
      if status_2xx status && truthy (lookup fields "sha")
      then Some (lookup fields "sha")
      else None
  | _ => None
  end.

(** The URL that the existence check asks for. *)
Definition existsUrl (CONFIG : Config) (category filename : string) : string :=
  contentsUrl CONFIG ("screenshots/" ++ category ++ "/" ++ filename).

(** The messages of the two import failures. *)
Definition rejectedMessage (JSON_stringify : jsval -> string)
    (status : Z) (data : jsval) : string :=
  "Failed to import workflow: API returned " ++ Str.of_Z status ++ ": "
  ++ JSON_stringify data.

Definition missingIdMessage (JSON_stringify : jsval -> string) (data : jsval)
  : string :=
  "Failed to import workflow: No workflow ID in response: "
  ++ JSON_stringify data.

(** The log lines of [main] before it looks for the workflow files. *)
Definition main_intro (CONFIG : Config) : list event :=
  [Ev (Log Out ("n8n Workflow Screenshot Generator" ++ Str.nl)) tt;
   Ev (Log Info ("n8n URL: " ++ n8nUrl CONFIG)) tt;
   Ev (Log Info ("GitHub Repo: " ++ githubRepo CONFIG)) tt;
   Ev (Log Info ("Workflows Dir: " ++ workflowsDir CONFIG)) tt;
   Ev (Log Info ("Screenshots Dir: " ++ screenshotsDir CONFIG)) tt;
   Ev (Log Out "") tt;
   Ev (Log Info "Finding workflow files...") tt].

(** The required configuration is there. *)
Definition configured (CONFIG : Config) : bool :=
  env_truthy (n8nApiKey CONFIG) && env_truthy (githubToken CONFIG)
  && negb (String.eqb (githubRepo CONFIG) ""
           || String.eqb (githubRepo CONFIG) "your-org/your-screenshots-repo").

(** ** Sample worlds *)

Module Sample.

Definition quote : string := String (ascii_of_nat 34) EmptyString.

(** [JSON.stringify] on values whose strings need no escaping. *)
Fixpoint stringify (v : jsval) : string :=
  match v with
  | JUndefined => "undefined"
  | JNull => "null"
  | JBool true => "true"
  | JBool false => "false"
  | JNum z => Str.of_Z z
  | JStr s => quote ++ s ++ quote
  | JArr items =>
      "[" ++ join_with ","
               (map (fun x => match x with
                              | JUndefined => "null"
                              | _ => stringify x
                              end) items) ++ "]"
  | JObj fields =>
      "{" ++ join_with ","
               (flat_map (fun kv : string * jsval =>
                                    let (k, x) := kv in
                                    match x return list string with
                                    | JUndefined => []
                                    | _ => [quote ++ k ++ quote ++ ":"
                                            ++ stringify x]
                                    end) fields) ++ "}"
  end.

(** Base64 of the empty buffer, the only image of the sample worlds. *)
Definition base64 (b : Buffer) : string := "".

Definition config : Config :=
  {| n8nUrl := "http://localhost:5678";
     n8nApiKey := Some "n8n-key";
     githubToken := Some "gh-token";
     githubRepo := "acme/shots";
     screenshotsDir := "./screenshots";
     workflowsDir := ".";
     n8nEmail := None;
     n8nPassword := None;
     delayAfterImport := 2000;
     delayBetweenWorkflows := 1000;
     skipExisting := true |}.

Definition path : string := "templates/Slack_and_Chat/Notify team.json".

Definition workflow : jsval :=
  JObj [("name", JStr "Notify team"); ("nodes", JArr []);
        ("connections", JObj [])].

(** A world given by the files that [glob] finds, the document in every
    file, the reply to every request by method, and what the browser makes
    of a workflow. *)
Definition world (files : list string) (doc : jsval) (http : method -> reply)
    (shot : jserror + Buffer) : handler :=
  fun _ c =>
    match c return answer c with
    | Log _ _ => tt
    | Glob _ _ => inr files
    | ReadJson _ => inr doc
    | Http m _ _ => http m
    | Sleep _ => tt
    | Screenshot _ => shot
    | ExistsSync _ => true
    | MkdirSync _ => inr tt
    | WriteFileSync _ _ => inr tt
    | Launch => inr tt
    | Login => inr tt
    | CloseBrowser => inr tt
    | Now => "2026-01-01T00:00:00.000Z"
    end.

(** The store has every screenshot already. *)
Definition everything_there (m : method) : reply := Reply 200 (JObj []).

(** The store has nothing yet and the engine accepts the workflow as "42". *)
Definition nothing_there (m : method) : reply :=
  match m with
  | GET => Reply 404 (JObj [("message", JStr "Not Found")])
  | POST => Reply 200 (JObj [("id", JStr "42")])
  | PUT => Reply 201 (JObj [])
  | DELETE => Reply 200 (JObj [])
  end.

(** The engine answers the import with a body that has no identifier. *)
Definition no_identifier (m : method) : reply :=
  match m with
  | GET => Reply 404 (JObj [])
  | _ => Reply 200 (JObj [])
  end.

(** The engine names the workflow by an object with a field [toString]. *)
Definition no_text : jsval := JObj [("toString", JNum 1)].

Definition odd_name (m : method) : reply :=
  match m with
  | GET => Reply 404 (JObj [("message", JStr "Not Found")])
  | POST => Reply 200 (JObj [("id", no_text)])
  | PUT => Reply 201 (JObj [])
  | DELETE => Reply 200 (JObj [])
  end.

Definition no_canvas : jserror := Error_ "Could not find workflow canvas element".

Definition all_present : handler := world [path] workflow everything_there (inr []).
Definition fresh : handler := world [path] workflow nothing_there (inr []).
Definition capture_fails : handler := world [path] workflow nothing_there (inl no_canvas).
Definition anonymous : handler := world [path] workflow no_identifier (inr []).
Definition no_files : handler := world [] workflow nothing_there (inr []).

Definition other : string := "templates/Slack_and_Chat/Greet guests.json".

(** Two files, and an engine that names workflows by [no_text]: the page of
    the capture is closed before it is sent anywhere. *)
Definition odd_identifier : handler :=
  world [path; other] workflow odd_name (inl (Error_ cannot_convert)).

Definition a49 : string := "aaaaaaaaaaaaaaaaaaaaaaaaaaaaaaaaaaaaaaaaaaaaaaaaa".

(** A file whose name has 61 characters before the extension. *)
Definition long : string := a49 ++ "bbbbbbbbbbbb.json".

End Sample.

(** The script in the sample configuration, and the processing of the
    sample file. *)
Module Runs.

Import Sample.

Definition script_main : js State unit := main stringify base64 config.

Definition item : js State (option shot) :=
  processWorkflow stringify base64 config path.

Definition check {S : Type} : js S bool :=
  screenshotExists config (getCategory path) (getScreenshotFilename path).

Definition attempt : js (State * jsval) (option shot) :=
  processWorkflow_try stringify base64 config path (Path.basename1 path)
    (getCategory path) (getScreenshotFilename path).

End Runs.

(** ** More vocabulary *)

(** A property [v.key] of a value that is not [null]. *)
Definition field (v : jsval) (key : string) : jsval :=
  match v with
  | JObj fields => lookup fields key
  | _ => JUndefined
  end.

(** The document of a file passes the filter of [getWorkflowFiles]. *)
Definition accepts (content : jsval) : bool :=
  match content with
  | JUndefined | JNull => false
  | _ => truthy (js_and (field content "nodes") (field content "name"))
  end.

(** The file of a read, when the read gave a document that passes. *)
Definition accepted (e : event) : list string :=
  match e with
  | Ev (ReadJson file) (inr content) => if accepts content then [file] else []
  | _ => []
  end.

(** What axios complains of in a reply, if anything. *)
Definition failure (validateStatus : Z -> bool) (r : reply) : option string :=
  match r with
  | NoReply msg => Some msg
  | Reply status _ =>
      if validateStatus status then None
      else Some ("Request failed with status code " ++ Str.of_Z status)
  end.

Definition is_log (c : call) : bool :=
  match c with
  | Log _ _ => true
  | _ => false
  end.

(** How often the browser was closed. *)
Definition closings (evs : list event) : nat :=
  List.length (filter (fun e => match ev_call e with
                                | CloseBrowser => true
                                | _ => false
                                end) evs).

(** The body that [importWorkflow] sends for a workflow document. *)
Definition cleanWorkflowOf (workflowJson : jsval) : list (string * jsval) :=
  ([("name", field workflowJson "name");
    ("nodes", field workflowJson "nodes");
    ("connections", field workflowJson "connections");
    ("settings", js_or (field workflowJson "settings") (JObj []))]
   ++ (if truthy (field workflowJson "staticData")
       then [("staticData", field workflowJson "staticData")]
       else []))%list.

(** What the reply of the engine to the import request comes to: a
    transport failure and a status from 500 on fail with the error of the
    request, a status from 400 on is a rejection, and an accepted request
    gives the identifier of its body, when there is one. *)
Definition importOutcome (JSON_stringify : jsval -> string) (r : reply)
  : outcome jsval :=
  match r with
  | NoReply msg => Thrown (Error_ ("Failed to import workflow: " ++ msg))
  | Reply status data =>
      if Z.leb 500 status
      then Thrown (Error_ ("Failed to import workflow: " ++ Str.of_Z status
                           ++ " - " ++ JSON_stringify data))
      else if Z.leb 400 status
      then Thrown (Error_ (rejectedMessage JSON_stringify status data))
      else
        match data with
        | JUndefined | JNull =>
            Thrown (Error_ ("Failed to import workflow: " ++ cannot_read data "id"))
        | _ =>
            if truthy (responseId data)
            then Normal (responseId data)
            else Thrown (Error_ (missingIdMessage JSON_stringify data))
        end
  end.

(** The identifiers that the engine issued: what [importWorkflow] reads in
    the body of a reply to a POST whose status is below 400. *)
Fixpoint issued (evs : list event) : list jsval :=
  match evs with
  | [] => []
  | Ev (Http POST _ _) (Reply status data) :: rest =>
      if Z.leb 400 status then issued rest else responseId data :: issued rest
  | _ :: rest => issued rest
  end.

(** [requests] and [screenshots], event by event. *)
Fixpoint sent (m : method) (evs : list event) : list string :=
  match evs with
  | [] => []
  | Ev (Http m' url _) _ :: rest =>
      if method_eqb m m' then url :: sent m rest else sent m rest
  | _ :: rest => sent m rest
  end.

Fixpoint visited (evs : list event) : list jsval :=
  match evs with
  | [] => []
  | Ev (Screenshot id) _ :: rest => id :: visited rest
  | _ :: rest => visited rest
  end.

(** The images that were written to local files, with the files. *)
Fixpoint saved (evs : list event) : list (string * Buffer) :=
  match evs with
  | [] => []
  | Ev (WriteFileSync file (Bytes image)) _ :: rest => (file, image) :: saved rest
  | _ :: rest => saved rest
  end.

(** The directories that were asked for. *)
Fixpoint made (evs : list event) : list string :=
  match evs with
  | [] => []
  | Ev (MkdirSync dir) _ :: rest => dir :: made rest
  | _ :: rest => made rest
  end.

(** The images that the browser gave. *)
Fixpoint images (evs : list event) : list Buffer :=
  match evs with
  | [] => []
  | Ev (Screenshot _) (inr image) :: rest => image :: images rest
  | _ :: rest => images rest
  end.

(** A string without the separator of paths. *)
Definition no_sep (s : string) : bool :=
  forall_chars (fun c => negb (Ascii.eqb c Path.sep)) s.

(** The destination of the screenshot of a workflow file. *)
Definition destination (workflowPath : string) : string :=
  "screenshots/" ++ getCategory workflowPath ++ "/"
  ++ getScreenshotFilename workflowPath.

(** The search for the files of the workflows directory. *)
Definition globbing (CONFIG : Config) : call :=
  Glob (Path.join (workflowsDir CONFIG) "**/*.json")
       ["**/node_modules/**"; "**/.git/**"; "**/package*.json"].

(** ** The pages of the browser

    [takeScreenshot] and [loginToN8n] drive a page of the browser.  The
    script above sees them as one call each; here they are followed step by
    step, every method of the page being a call of its own. *)

Module Browser.

Definition quote : string := String (ascii_of_nat 34) EmptyString.

(** The fields of [CONFIG] that only the browser code reads. *)
Record Settings : Type := {
  n8nBasicAuthUser : option string;
  n8nBasicAuthPassword : option string;
  viewport : Z * Z;                      (* width, height *)
  delayAfterPageLoad : Z;
  debug : bool
}.

(** What [loginToN8n] reports of a button of the page. *)
Record button : Type := {
  text : jsval;
  type : string;
  disabled : bool;
  visible : bool
}.

Inductive saved : Type :=
| Html (html : string)
| Image (b : Buffer).

(** The calls on the browser and its page; [goto] and [waitForNavigation]
    always wait for [networkidle2]. *)
Inductive action : Type :=
| NewPage                                        (* browser.newPage() *)
| SetViewport (width height : Z)
| Goto (url : string) (timeout : Z)
| WaitForSelector (selector : string) (timeout : Z)
| Content                                        (* page.content() *)
| SaveFile (file : string) (data : saved)        (* fs.writeFileSync *)
| Say (l : level) (msg : string)                 (* log.* *)
| Pause (ms : Z)
| ClickFit                                       (* evaluate: click the fit button, if any *)
| Capture (fullPage : option bool)               (* page.screenshot({ type: 'png', fullPage }) *)
| ClosePage
| TypeInto (selector text : string)              (* page.type *)
| ClickSignIn                                    (* evaluate: click the sign-in button, if any *)
| ListButtons                                    (* evaluate: describe the buttons *)
| WaitForNavigation (timeout : Z)
| Authenticate (username password : string).

Definition result (c : action) : Type :=
  match c with
  | NewPage => (jserror + unit)%type
  | SetViewport _ _ => (jserror + unit)%type
  | Goto _ _ => (jserror + unit)%type
  | WaitForSelector _ _ => (jserror + unit)%type
  | Content => (jserror + string)%type
  | SaveFile _ _ => (jserror + unit)%type
  | Say _ _ => unit
  | Pause _ => unit
  | ClickFit => (jserror + unit)%type
  | Capture _ => (jserror + Buffer)%type
  | ClosePage => (jserror + unit)%type
  | TypeInto _ _ => (jserror + unit)%type
  | ClickSignIn => (jserror + bool)%type
  | ListButtons => (jserror + list button)%type
  | WaitForNavigation _ => (jserror + unit)%type
  | Authenticate _ _ => (jserror + unit)%type
  end.

Inductive steps (A : Type) : Type :=
| Done (a : A)
| Do (c : action) (k : result c -> steps A).

Arguments Done {A} a.
Arguments Do {A} c k.

Fixpoint sbind {A B : Type} (p : steps A) (f : A -> steps B) : steps B :=
  match p with
  | Done a => f a
  | Do c k => Do c (fun r => sbind (k r) f)
  end.

(** One call on the page with what came of it. *)
Record did : Type := Did { did_action : action; did_result : result did_action }.

(** The browser: it answers a call, knowing what happened before. *)
Definition browser : Type := list did -> forall c : action, result c.

Fixpoint exec {A : Type} (w : browser) (past : list did) (p : steps A)
  : A * list did :=
  match p with
  | Done a => (a, [])
  | Do c k =>
      let r := w past c in
      let (a, tr) := exec w (past ++ [Did c r]) (k r) in
      (a, Did c r :: tr)
  end.

(** A piece of browser code: it ends normally or by an exception. *)
Definition task (A : Type) : Type := steps (outcome A).

Definition ret {A : Type} (a : A) : task A := Done (Normal a).

Definition throw {A : Type} (e : jserror) : task A := Done (Thrown e).

Definition bind {A B : Type} (m : task A) (f : A -> task B) : task B :=
  sbind m (fun r =>
    match r with
    | Normal a => f a
    | Thrown e => Done (Thrown e)
    | Exited c => Done (Exited c)
    end).

Declare Scope task_scope.
Delimit Scope task_scope with task.
Notation "x <- m ;; k" := (bind m (fun x => k))
  (at level 61, m at next level, right associativity) : task_scope.
Notation "m ;; k" := (bind m (fun _ => k))
  (at level 61, right associativity) : task_scope.

Definition try_catch {A : Type} (body : task A) (handle : jserror -> task A)
  : task A :=
  sbind body (fun r =>
    match r with
    | Thrown e => handle e
    | other => Done other
    end).

Definition try_finally {A : Type} (body : task A) (fin : task unit) : task A :=
  sbind body (fun r =>
    match r with
    | Exited c => Done (Exited c)
    | o =>
        sbind fin (fun r' =>
          match r' with
          | Normal _ => Done o
          | Thrown e => Done (Thrown e)
          | Exited c => Done (Exited c)
          end)
    end).

Definition perform (c : action) : task (result c) :=
  Do c (fun r => Done (Normal r)).

Definition or_throw {A : Type} (m : task (jserror + A)) : task A :=
  bind m (fun r => match r with inl e => throw e | inr a => ret a end).

Definition log (l : level) (msg : string) : task unit := perform (Say l msg).

Definition sleep (ms : Z) : task unit := perform (Pause ms).

(** A template literal in which the value [v] stands. *)
Definition template (v : jsval) (text : string) : task string :=
  if has_text v then ret text else throw (Error_ cannot_convert).

(** The value of an environment variable inside a branch that has tested
    it. *)
Definition env_text (v : option string) : string :=
  match v with
  | Some s => s
  | None => "undefined"
  end.

Section Pages.

Variable CONFIG : Config.
Variable SETTINGS : Settings.

Local Open Scope task_scope.

(** [if (CONFIG.debug) { ... }] *)
Definition when_debug (m : task unit) : task unit :=
  if debug SETTINGS then m else ret tt.

Definition selectors : list string :=
  [".node-view";
   "[data-test-id=" ++ quote ++ "canvas" ++ quote ++ "]";
   ".canvas-container";
   "#canvas";
   "canvas"].

(** The loop [for (const selector of selectors)] of [takeScreenshot]: it
    gives the value of [selectorFound]. *)
Fixpoint findSelector (selectors : list string) : task (option string) :=
  match selectors with
  | [] => ret None
  | selector :: rest =>
      found <- try_catch
                 (or_throw (perform (WaitForSelector selector 5000)) ;;
                  when_debug (log Info ("  Found selector: " ++ selector)) ;;
                  ret true)
                 (fun _ => ret false) ;;
      if found then ret (Some selector) else findSelector rest
  end.

Definition noCanvas : jserror := Error_ "Could not find workflow canvas element".

Definition takeScreenshot (workflowId : jsval) : task Buffer :=
  or_throw (perform NewPage) ;;
  try_finally
    (or_throw (perform (SetViewport (fst (viewport SETTINGS))
                                    (snd (viewport SETTINGS)))) ;;
     url <- template workflowId
              (n8nUrl CONFIG ++ "/workflow/" ++ to_string workflowId) ;;
     when_debug (log Info ("  Navigating to: " ++ url)) ;;
     or_throw (perform (Goto url 30000)) ;;
     when_debug
       (html <- or_throw (perform Content) ;;
        let file := "debug-page-" ++ to_string workflowId ++ ".html" in
        or_throw (perform (SaveFile file (Html html))) ;;
        log Info ("  Debug HTML saved to " ++ file)) ;;
     selectorFound <- findSelector selectors ;;
     match selectorFound with
     | None =>
         when_debug
           (debugScreenshot <- or_throw (perform (Capture None)) ;;
            let file := "debug-screenshot-" ++ to_string workflowId ++ ".png" in
            or_throw (perform (SaveFile file (Image debugScreenshot))) ;;
            log Info ("  Debug screenshot saved to " ++ file)) ;;
         throw noCanvas
     | Some _ =>
         sleep (delayAfterPageLoad SETTINGS) ;;
         try_catch
           (or_throw (perform ClickFit) ;;
            sleep 500)
           (fun _ => ret tt) ;;
         or_throw (perform (Capture (Some false)))
     end)
    (or_throw (perform ClosePage)).

Definition emailInput : string :=
  "input[type=" ++ quote ++ "email" ++ quote ++ "]".

Definition passwordInput : string :=
  "input[type=" ++ quote ++ "password" ++ quote ++ "]".

Definition noSignIn : jserror :=
  Error_ ("Could not find " ++ quote ++ "Sign in" ++ quote ++ " submit button").

(** [buttons.forEach(btn => log.error(...))] *)
Fixpoint log_buttons (buttons : list button) : task unit :=
  match buttons with
  | [] => ret tt
  | btn :: rest =>
      log Error ("    - " ++ quote ++ to_string (text btn) ++ quote
                 ++ " type=" ++ type btn
                 ++ " disabled=" ++ to_string (JBool (disabled btn))
                 ++ " visible=" ++ to_string (JBool (visible btn))) ;;
      log_buttons rest
  end.

(** [loginToN8n(page)]; the check mark of the last line is left out. *)
Definition loginToN8n : task unit :=
  if env_truthy (n8nEmail CONFIG) && env_truthy (n8nPassword CONFIG)
  then
    try_catch
      (log Info "Logging in to n8n..." ;;
       or_throw (perform (Goto (n8nUrl CONFIG ++ "/signin") 15000)) ;;
       or_throw (perform (WaitForSelector emailInput 5000)) ;;
       when_debug
         (html <- or_throw (perform Content) ;;
          or_throw (perform (SaveFile "debug-login-page.html" (Html html))) ;;
          log Info "  Debug: Login page HTML saved to debug-login-page.html") ;;
       or_throw (perform (TypeInto emailInput (env_text (n8nEmail CONFIG)))) ;;
       or_throw (perform (TypeInto passwordInput (env_text (n8nPassword CONFIG)))) ;;
       sleep 500 ;;
       clicked <- or_throw (perform ClickSignIn) ;;
       (if negb clicked
        then
          buttons <- or_throw (perform ListButtons) ;;
          log Error "  Available buttons:" ;;
          log_buttons buttons ;;
          throw noSignIn
        else ret tt) ;;
       when_debug (log Info ("  Clicked " ++ quote ++ "Sign in" ++ quote ++ " button")) ;;
       or_throw (perform (WaitForNavigation 10000)) ;;
       log Info "Logged in successfully")
      (fun e =>
         log Warn ("Login attempt failed: " ++ message e) ;;
         throw e)
  else if env_truthy (n8nBasicAuthUser SETTINGS)
          && env_truthy (n8nBasicAuthPassword SETTINGS)
  then
    or_throw (perform (Authenticate (env_text (n8nBasicAuthUser SETTINGS))
                                    (env_text (n8nBasicAuthPassword SETTINGS)))) ;;
    log Info "Using HTTP Basic Auth"
  else
    log Warn "No n8n credentials provided - screenshots may fail if auth is required".

(** The login of [main]: with an e-mail address and a password, a page for
    [loginToN8n], closed afterwards, and an empty line. *)
Definition main_login : task unit :=
  if env_truthy (n8nEmail CONFIG) && env_truthy (n8nPassword CONFIG)
  then
    or_throw (perform NewPage) ;;
    loginToN8n ;;
    or_throw (perform ClosePage) ;;
    log Out ""
  else ret tt.

End Pages.

(** *** What a trace shows *)

Definition actions (tr : list did) : list action := map did_action tr.

(** How often a page was opened. *)
Fixpoint opened (tr : list did) : nat :=
  match tr with
  | [] => 0
  | Did NewPage (inr _) :: rest => S (opened rest)
  | _ :: rest => opened rest
  end.

(** How often closing a page was asked for. *)
Fixpoint closes (tr : list did) : nat :=
  match tr with
  | [] => 0
  | Did ClosePage _ :: rest => S (closes rest)
  | _ :: rest => closes rest
  end.

(** Closing a page failed. *)
Fixpoint close_failed (tr : list did) : bool :=
  match tr with
  | [] => false
  | Did ClosePage (inl _) :: _ => true
  | _ :: rest => close_failed rest
  end.

(** The selectors that were waited for, with the time allowed. *)
Fixpoint waits (tr : list did) : list (string * Z) :=
  match tr with
  | [] => []
  | Did (WaitForSelector selector timeout) _ :: rest =>
      (selector, timeout) :: waits rest
  | _ :: rest => waits rest
  end.

(** The selectors that appeared. *)
Fixpoint appeared (tr : list did) : list string :=
  match tr with
  | [] => []
  | Did (WaitForSelector selector _) (inr _) :: rest => selector :: appeared rest
  | _ :: rest => appeared rest
  end.

(** The capture of the workflow was asked for. *)
Fixpoint capture_tried (tr : list did) : bool :=
  match tr with
  | [] => false
  | Did (Capture (Some false)) _ :: _ => true
  | _ :: rest => capture_tried rest
  end.

(** The images of the workflow that the page gave. *)
Fixpoint captured (tr : list did) : list Buffer :=
  match tr with
  | [] => []
  | Did (Capture (Some false)) (inr image) :: rest => image :: captured rest
  | _ :: rest => captured rest
  end.

(** The click on the fit button failed. *)
Fixpoint fit_failed (tr : list did) : bool :=
  match tr with
  | [] => false
  | Did ClickFit (inl _) :: _ => true
  | _ :: rest => fit_failed rest
  end.

(** The search for the sign-in button found none. *)
Fixpoint no_button (tr : list did) : bool :=
  match tr with
  | [] => false
  | Did ClickSignIn (inr false) :: _ => true
  | _ :: rest => no_button rest
  end.

(** The buttons of the page were listed. *)
Fixpoint buttons_listed (tr : list did) : bool :=
  match tr with
  | [] => false
  | Did ListButtons (inr _) :: _ => true
  | _ :: rest => buttons_listed rest
  end.

Fixpoint navigation_awaited (tr : list did) : bool :=
  match tr with
  | [] => false
  | Did (WaitForNavigation _) _ :: _ => true
  | _ :: rest => navigation_awaited rest
  end.

(** The files that were written, with what was written. *)
Fixpoint files (tr : list did) : list (string * saved) :=
  match tr with
  | [] => []
  | Did (SaveFile file data) _ :: rest => (file, data) :: files rest
  | _ :: rest => files rest
  end.

(** The pages that the browser was sent to. *)
Fixpoint visits (tr : list did) : list string :=
  match tr with
  | [] => []
  | Did (Goto url _) _ :: rest => url :: visits rest
  | _ :: rest => visits rest
  end.

(** The warnings among the log lines. *)
Fixpoint warnings (tr : list did) : list string :=
  match tr with
  | [] => []
  | Did (Say Warn msg) _ :: rest => msg :: warnings rest
  | _ :: rest => warnings rest
  end.

End Browser.

(** ** More sample worlds *)

Module Scenes.

(** The sample configuration without the key of the engine. *)
Definition unconfigured : Config :=
  {| n8nUrl := "http://localhost:5678";
     n8nApiKey := None;
     githubToken := Some "gh-token";
     githubRepo := "acme/shots";
     screenshotsDir := "./screenshots";
     workflowsDir := ".";
     n8nEmail := None;
     n8nPassword := None;
     delayAfterImport := 2000;
     delayBetweenWorkflows := 1000;
     skipExisting := true |}.

(** The sample configuration with an account of the engine. *)
Definition with_account : Config :=
  {| n8nUrl := "http://localhost:5678";
     n8nApiKey := Some "n8n-key";
     githubToken := Some "gh-token";
     githubRepo := "acme/shots";
     screenshotsDir := "./screenshots";
     workflowsDir := ".";
     n8nEmail := Some "me@example.org";
     n8nPassword := Some "secret";
     delayAfterImport := 2000;
     delayBetweenWorkflows := 1000;
     skipExisting := true |}.

(** The world of the sample file where no browser can be launched. *)
Definition no_browser : handler :=
  fun past c =>
    match c return answer c with
    | Launch => inl (Error_ "Failed to launch the browser process")
    | other => Sample.fresh past other
    end.

(** The settings of the script, outside debug mode. *)
Definition settings : Browser.Settings :=
  {| Browser.n8nBasicAuthUser := None;
     Browser.n8nBasicAuthPassword := None;
     Browser.viewport := (1920, 1080)%Z;
     Browser.delayAfterPageLoad := 5000;
     Browser.debug := false |}.

(** The same settings in debug mode. *)
Definition debugging : Browser.Settings :=
  {| Browser.n8nBasicAuthUser := None;
     Browser.n8nBasicAuthPassword := None;
     Browser.viewport := (1920, 1080)%Z;
     Browser.delayAfterPageLoad := 5000;
     Browser.debug := true |}.

Definition timed_out : jserror := Error_ "Waiting for selector failed".

(** A browser whose pages show none of the selectors that are waited for,
    and no button. *)
Definition blank_page : Browser.browser :=
  fun _ c =>
    match c return Browser.result c with
    | Browser.NewPage => inr tt
    | Browser.SetViewport _ _ => inr tt
    | Browser.Goto _ _ => inr tt
    | Browser.WaitForSelector _ _ => inl timed_out
    | Browser.Content => inr ""
    | Browser.SaveFile _ _ => inr tt
    | Browser.Say _ _ => tt
    | Browser.Pause _ => tt
    | Browser.ClickFit => inr tt
    | Browser.Capture _ => inr []
    | Browser.ClosePage => inr tt
    | Browser.TypeInto _ _ => inr tt
    | Browser.ClickSignIn => inr false
    | Browser.ListButtons => inr []
    | Browser.WaitForNavigation _ => inr tt
    | Browser.Authenticate _ _ => inr tt
    end.

End Scenes.

(** * Properties *)

(** ** The naming transform *)

Lemma hyphen_not_alnum c : Str.is_hyphen c = true -> Str.is_alnum c = false.
Proof.
  unfold Str.is_hyphen. intros H. apply Ascii.eqb_eq in H. subst. reflexivity.
Qed.

Lemma name_char_lower c : name_char c = true -> Str.lower_char c = c.
Proof.
  destruct c as [[] [] [] [] [] [] [] []]; vm_compute; intros H;
    first [reflexivity | discriminate H].
Qed.

Lemma name_char_not_sep c : name_char c = true -> Ascii.eqb c Path.sep = false.
Proof.
  destruct c as [[] [] [] [] [] [] [] []]; vm_compute; intros H;
    first [reflexivity | discriminate H].
Qed.

Lemma name_char_not_dot c : name_char c = true -> Ascii.eqb c "." = false.
Proof.
  destruct c as [[] [] [] [] [] [] [] []]; vm_compute; intros H;
    first [reflexivity | discriminate H].
Qed.

Lemma replace_runs_chars b s : forall_chars name_char (Str.replace_runs b s) = true.
Proof.
  revert b. induction s as [|c r IH]; intros b; simpl; [reflexivity|].
  destruct (Str.is_alnum c) eqn:A.
  - simpl. unfold name_char at 1. rewrite A. simpl. apply IH.
  - destruct b; [apply IH|]. simpl. apply IH.
Qed.

Lemma replace_runs_in_run s : starts_with_hyphen (Str.replace_runs true s) = false.
Proof.
  induction s as [|c r IH]; simpl; [reflexivity|].
  destruct (Str.is_alnum c) eqn:A; [|exact IH].
  simpl. destruct (Str.is_hyphen c) eqn:Hy; [|reflexivity].
  apply hyphen_not_alnum in Hy. congruence.
Qed.

Lemma replace_runs_no_double b s : no_double_hyphen (Str.replace_runs b s) = true.
Proof.
  revert b. induction s as [|c r IH]; intros b; simpl; [reflexivity|].
  destruct (Str.is_alnum c) eqn:A.
  - simpl. rewrite IH.
    destruct (Str.is_hyphen c) eqn:Hy; [|reflexivity].
    apply hyphen_not_alnum in Hy. congruence.
  - destruct b; [apply IH|].
    simpl. rewrite replace_runs_in_run, IH. reflexivity.
Qed.

Lemma drop_leading_chars P s :
  forall_chars P s = true -> forall_chars P (Str.drop_leading_hyphens s) = true.
Proof.
  induction s as [|c r IH]; simpl; [easy|].
  intros H. apply andb_true_iff in H as [Hc Hr].
  destruct (Str.is_hyphen c); [auto|]. simpl. now rewrite Hc, Hr.
Qed.

Lemma drop_leading_no_double s :
  no_double_hyphen s = true -> no_double_hyphen (Str.drop_leading_hyphens s) = true.
Proof.
  induction s as [|c r IH]; simpl; [easy|].
  intros H. apply andb_true_iff in H as [Hc Hr].
  destruct (Str.is_hyphen c) eqn:Hy; [auto|]. simpl. now rewrite Hy, Hr.
Qed.

Lemma drop_leading_start s : starts_with_hyphen (Str.drop_leading_hyphens s) = false.
Proof.
  induction s as [|c r IH]; simpl; [easy|].
  destruct (Str.is_hyphen c) eqn:Hy; [auto|]. simpl. exact Hy.
Qed.

Lemma drop_trailing_cons c r :
  Str.drop_trailing_hyphens (String c r) =
  match Str.drop_trailing_hyphens r with
  | EmptyString => if Str.is_hyphen c then EmptyString else String c EmptyString
  | r' => String c r'
  end.
Proof. reflexivity. Qed.

Lemma drop_trailing_chars P s :
  forall_chars P s = true -> forall_chars P (Str.drop_trailing_hyphens s) = true.
Proof.
  induction s as [|c r IH]; [easy|].
  intros H. simpl in H. apply andb_true_iff in H as [Hc Hr].
  rewrite drop_trailing_cons. specialize (IH Hr).
  destruct (Str.drop_trailing_hyphens r) as [|d r'].
  - destruct (Str.is_hyphen c); simpl; [reflexivity|now rewrite Hc].
  - simpl in *. now rewrite Hc.
Qed.

Lemma drop_trailing_start s :
  starts_with_hyphen s = false ->
  starts_with_hyphen (Str.drop_trailing_hyphens s) = false.
Proof.
  destruct s as [|c r]; [easy|]. intros H. simpl in H.
  rewrite drop_trailing_cons.
  destruct (Str.drop_trailing_hyphens r); [rewrite H|]; simpl; auto.
Qed.

Lemma drop_trailing_head_hyphen s :
  starts_with_hyphen (Str.drop_trailing_hyphens s) = true ->
  starts_with_hyphen s = true.
Proof.
  intros H. destruct (starts_with_hyphen s) eqn:E; [reflexivity|].
  rewrite (drop_trailing_start _ E) in H. discriminate.
Qed.

Lemma drop_trailing_no_double s :
  no_double_hyphen s = true -> no_double_hyphen (Str.drop_trailing_hyphens s) = true.
Proof.
  induction s as [|c r IH]; [easy|].
  intros H. simpl in H. apply andb_true_iff in H as [Hc Hr].
  rewrite drop_trailing_cons. specialize (IH Hr).
  destruct (Str.drop_trailing_hyphens r) as [|d r'] eqn:E.
  - destruct (Str.is_hyphen c) eqn:Hy; simpl; rewrite ?Hy; reflexivity.
  - change (no_double_hyphen (String c (String d r')))
      with (negb (Str.is_hyphen c && starts_with_hyphen (String d r'))
            && no_double_hyphen (String d r')).
    rewrite IH, andb_true_r.
    destruct (Str.is_hyphen c) eqn:Hy; [|reflexivity].
    destruct (starts_with_hyphen (String d r')) eqn:Hd; [|reflexivity].
    rewrite <- E in Hd. apply drop_trailing_head_hyphen in Hd.
    rewrite Hd in Hc. discriminate.
Qed.

Lemma drop_trailing_end s : ends_with_hyphen (Str.drop_trailing_hyphens s) = false.
Proof.
  induction s as [|c r IH]; [easy|].
  rewrite drop_trailing_cons.
  destruct (Str.drop_trailing_hyphens r) as [|d r'].
  - destruct (Str.is_hyphen c) eqn:Hy; simpl; auto.
  - exact IH.
Qed.

Lemma substring_chars P n s :
  forall_chars P s = true -> forall_chars P (String.substring 0 n s) = true.
Proof.
  revert n. induction s as [|c r IH]; intros [|n] H; simpl; try easy.
  simpl in H. apply andb_true_iff in H as [Hc Hr]. now rewrite Hc, IH.
Qed.

Lemma substring_start n s :
  starts_with_hyphen s = false -> starts_with_hyphen (String.substring 0 n s) = false.
Proof. destruct s, n; simpl; auto. Qed.

Lemma substring_no_double n s :
  no_double_hyphen s = true -> no_double_hyphen (String.substring 0 n s) = true.
Proof.
  revert n. induction s as [|c r IH]; intros [|n] H; simpl; try easy.
  simpl in H. apply andb_true_iff in H as [Hc Hr]. rewrite IH by assumption.
  rewrite andb_true_r.
  destruct (Str.is_hyphen c); [|reflexivity]. simpl in *.
  destruct (starts_with_hyphen r) eqn:E; [discriminate|].
  now rewrite substring_start.
Qed.

Lemma substring_length n s : String.length (String.substring 0 n s) <= n.
Proof.
  revert n. induction s as [|c r IH]; intros [|n]; simpl; try lia.
  specialize (IH n). lia.
Qed.

Lemma substring_all n s : String.length s <= n -> String.substring 0 n s = s.
Proof.
  revert n. induction s as [|c r IH]; intros [|n] H; simpl in *; try easy; try lia.
  f_equal. apply IH. lia.
Qed.

(** Canonical names are left as they are by every step of the transform. *)

Lemma toLowerCase_name s : forall_chars name_char s = true -> Str.toLowerCase s = s.
Proof.
  induction s as [|c r IH]; simpl; [easy|].
  intros H. apply andb_true_iff in H as [Hc Hr].
  now rewrite (name_char_lower _ Hc), IH.
Qed.

Lemma replace_runs_name s : forall b,
  forall_chars name_char s = true ->
  no_double_hyphen s = true ->
  (b = true -> starts_with_hyphen s = false) ->
  Str.replace_runs b s = s.
Proof.
  induction s as [|c r IH]; intros b Hch Hnd Hb; simpl; [easy|].
  simpl in Hch, Hnd.
  apply andb_true_iff in Hch as [Hc Hr]. apply andb_true_iff in Hnd as [Hd Hn].
  destruct (Str.is_alnum c) eqn:A.
  - f_equal. apply IH; auto. discriminate.
  - unfold name_char in Hc. rewrite A in Hc. simpl in Hc.
    destruct b.
    + simpl in Hb. rewrite Hb in Hc by reflexivity. discriminate.
    + rewrite Hc in Hd. simpl in Hd.
      apply Ascii.eqb_eq in Hc. subst c. f_equal.
      apply IH; auto. intros _. now destruct (starts_with_hyphen r).
Qed.

Lemma drop_leading_id s :
  starts_with_hyphen s = false -> Str.drop_leading_hyphens s = s.
Proof. destruct s; simpl; [easy|]. now intros ->. Qed.

Lemma drop_trailing_id s :
  ends_with_hyphen s = false -> Str.drop_trailing_hyphens s = s.
Proof.
  induction s as [|c r IH]; [easy|].
  intros H. rewrite drop_trailing_cons.
  destruct r as [|d r2].
  - simpl in *. now rewrite H.
  - rewrite IH by exact H. reflexivity.
Qed.

Lemma split_no_sep s :
  forall_chars (fun c => negb (Ascii.eqb c Path.sep)) s = true ->
  Str.split Path.sep s = [s].
Proof.
  induction s as [|c r IH]; simpl; [easy|].
  intros H. apply andb_true_iff in H as [Hc Hr].
  apply negb_true_iff in Hc. rewrite Hc, IH by assumption. reflexivity.
Qed.

Lemma forall_chars_impl (P Q : ascii -> bool) s :
  (forall c, P c = true -> Q c = true) ->
  forall_chars P s = true -> forall_chars Q s = true.
Proof.
  intros PQ. induction s as [|c r IH]; simpl; [easy|].
  intros H. apply andb_true_iff in H as [Hc Hr]. now rewrite PQ, IH.
Qed.

Lemma basename1_name s : forall_chars name_char s = true -> Path.basename1 s = s.
Proof.
  intros H. unfold Path.basename1. rewrite split_no_sep.
  - destruct s; reflexivity.
  - revert H. apply forall_chars_impl. intros c Hc.
    now rewrite name_char_not_sep.
Qed.

Lemma name_no_dot u :
  forall_chars name_char u = true -> Str.includes_char "." u = false.
Proof.
  induction u as [|d u IHu]; simpl; [easy|]. intros K.
  apply andb_true_iff in K as [Kd Ku]. now rewrite name_char_not_dot, IHu.
Qed.

Lemma endsWith_dot t s :
  Str.includes_char "." t = true ->
  forall_chars name_char s = true -> Str.endsWith t s = false.
Proof.
  intros Ht. induction s as [|c r IH]; intros H.
  - destruct t; [discriminate Ht|reflexivity].
  - pose proof H as H0. simpl in H.
    change (Str.endsWith t (String c r))
      with (String.eqb (String c r) t || Str.endsWith t r).
    apply andb_true_iff in H as [Hc Hr]. rewrite IH by assumption.
    rewrite orb_false_r. destruct (String.eqb_spec (String c r) t) as [E|]; [|reflexivity].
    subst t. rewrite (name_no_dot (String c r)) in Ht; [discriminate|exact H0].
Qed.

Lemma basename_name s :
  forall_chars name_char s = true -> Path.basename s ".json" = s.
Proof.
  intros H. unfold Path.basename.
  rewrite (basename1_name _ H), (endsWith_dot ".json" s eq_refl H). simpl.
  destruct (String.eqb_spec s ".json") as [E|]; [|reflexivity].
  subst. discriminate H.
Qed.

Lemma untruncated_canonical p :
  canonical (untruncatedName p) /\ ends_with_hyphen (untruncatedName p) = false.
Proof.
  unfold untruncatedName, Str.trim_hyphens, canonical.
  set (r := Str.replace_runs false _).
  repeat split.
  - apply drop_trailing_chars, drop_leading_chars, replace_runs_chars.
  - apply drop_trailing_no_double, drop_leading_no_double, replace_runs_no_double.
  - apply drop_trailing_start, drop_leading_start.
  - apply drop_trailing_end.
Qed.

Lemma canonicalName_cut p :
  canonicalName p = String.substring 0 50 (untruncatedName p).
Proof. reflexivity. Qed.

Lemma canonicalName_canonical p : canonical (canonicalName p).
Proof.
  rewrite canonicalName_cut.
  destruct (untruncated_canonical p) as [(H1 & H2 & H3) _].
  repeat split.
  - now apply substring_chars.
  - now apply substring_no_double.
  - now apply substring_start.
Qed.

Lemma canonicalName_fixed s :
  canonical s -> ends_with_hyphen s = false -> String.length s <= 50 ->
  canonicalName s = s.
Proof.
  intros (H1 & H2 & H3) H4 H5. unfold canonicalName, Str.trim_hyphens.
  rewrite basename_name, toLowerCase_name, replace_runs_name by (auto; discriminate).
  rewrite drop_leading_id, drop_trailing_id by auto.
  now apply substring_all.
Qed.

(** ** The category *)

Lemma split_not_nil sep s : Str.split sep s <> [].
Proof.
  destruct s as [|c r]; simpl; [discriminate|].
  destruct (Ascii.eqb c sep); [discriminate|].
  destruct (Str.split sep r); discriminate.
Qed.

Lemma removelast_length {A} (l : list A) : List.length (removelast l) = List.length l - 1.
Proof.
  induction l as [|a [|b l] IH]; simpl in *; try reflexivity. rewrite IH. lia.
Qed.

Lemma removelast_nth {A} (l : list A) d i :
  i < List.length l - 1 -> nth i (removelast l) d = nth i l d.
Proof.
  revert i. induction l as [|a [|b l] IH]; intros i H; simpl in *; try lia.
  destruct i; [reflexivity|]. apply IH. lia.
Qed.

Lemma scanParts_ext (l1 l2 : list string) k :
  (forall i, i < k -> nth i l1 "" = nth i l2 "") ->
  scanParts l1 k = scanParts l2 k.
Proof.
  induction k as [|k IH]; intros H; simpl; [reflexivity|].
  rewrite (H k) by lia. rewrite IH; [reflexivity|]. intros i Hi. apply H. lia.
Qed.

Lemma scanParts_spec (l : list string) k :
  match scanParts l k with
  | Some dir =>
      exists i, i < k /\ dir = nth i l "" /\ looksLikeCategory dir = true /\
                forall j, i < j < k -> looksLikeCategory (nth j l "") = false
  | None => forall j, j < k -> looksLikeCategory (nth j l "") = false
  end.
Proof.
  induction k as [|k IH]; simpl; [intros; lia|].
  destruct (looksLikeCategory (nth k l "")) eqn:E.
  - exists k. repeat split; auto. intros; lia.
  - destruct (scanParts l k) as [dir|].
    + destruct IH as (i & Hi & Hd & Hl & Hj). exists i. repeat split; auto.
      intros j Hjk. destruct (Nat.eq_dec j k) as [->|]; [exact E|]. apply Hj. lia.
    + intros j Hjk. destruct (Nat.eq_dec j k) as [->|]; [exact E|]. apply IH. lia.
Qed.

Lemma getCategory_dirs workflowPath :
  getCategory workflowPath =
  match scanParts (dirSegments workflowPath) (List.length (dirSegments workflowPath)) with
  | Some dir => dir
  | None => defaultCategory
  end.
Proof.
  unfold getCategory, dirSegments. rewrite removelast_length.
  rewrite (scanParts_ext (removelast (Str.split Path.sep workflowPath))
             (Str.split Path.sep workflowPath)); [reflexivity|].
  intros i Hi. now apply removelast_nth.
Qed.

(** ** Runs of programs *)

Lemma run_pbind {A B : Type} (h : handler) (p : prog A) (f : A -> prog B) :
  forall past,
    run h past (pbind p f) =
    let (a, e1) := run h past p in
    let (b, e2) := run h (past ++ e1) (f a) in
    (b, e1 ++ e2)%list.
Proof.
  induction p as [a|c k IH]; intros past; simpl.
  - rewrite app_nil_r. now destruct (run h past (f a)).
  - rewrite IH. destruct (run h (past ++ [Ev c (h past c)]) (k (h past c))) as [a e1].
    rewrite <- app_assoc. simpl.
    now destruct (run h (past ++ Ev c (h past c) :: e1) (f a)).
Qed.

Lemma run_bind {S A B : Type} (h : handler) (m : js S A) (f : A -> js S B) past s :
  run h past (bind m f s) =
  let '((o, s1), e1) := run h past (m s) in
  match o with
  | Normal a => let (r, e2) := run h (past ++ e1) (f a s1) in (r, e1 ++ e2)%list
  | Thrown e => ((Thrown e, s1), e1)
  | Exited c => ((Exited c, s1), e1)
  end.
Proof.
  unfold bind. rewrite run_pbind.
  destruct (run h past (m s)) as [[[a|e|c] s1] e1]; simpl; now rewrite ?app_nil_r.
Qed.

Lemma run_try_catch {S A : Type} (h : handler) (body : js S A) handle past s :
  run h past (try_catch body handle s) =
  let '((o, s1), e1) := run h past (body s) in
  match o with
  | Thrown e => let (r, e2) := run h (past ++ e1) (handle e s1) in (r, e1 ++ e2)%list
  | _ => ((o, s1), e1)
  end.
Proof.
  unfold try_catch. rewrite run_pbind.
  destruct (run h past (body s)) as [[[a|e|c] s1] e1]; simpl; now rewrite ?app_nil_r.
Qed.

Lemma run_try_finally {S A : Type} (h : handler) (body : js S A) fin past s :
  run h past (try_finally body fin s) =
  let '((o, s1), e1) := run h past (body s) in
  match o with
  | Exited c => ((Exited c, s1), e1)
  | _ =>
      let '((o2, s2), e2) := run h (past ++ e1) (fin s1) in
      (match o2 with
       | Normal _ => (o, s2)
       | Thrown e => (Thrown e, s2)
       | Exited c => (Exited c, s2)
       end, e1 ++ e2)%list
  end.
Proof.
  unfold try_finally. rewrite run_pbind.
  destruct (run h past (body s)) as [[[a|e|c] s1] e1]; simpl;
    rewrite ?run_pbind; rewrite ?app_nil_r; try reflexivity;
    destruct (run h (past ++ e1) (fin s1)) as [[[u|e'|c'] s2] e2]; simpl;
    now rewrite ?app_nil_r.
Qed.

Lemma run_with_local {S L A : Type} (h : handler) (init : L) (body : js (S * L) A) past s :
  run h past (with_local init body s) =
  let '((o, s1), e1) := run h past (body (s, init)) in ((o, fst s1), e1).
Proof.
  unfold with_local. rewrite run_pbind.
  destruct (run h past (body (s, init))) as [[o s1] e1]; simpl; now rewrite ?app_nil_r.
Qed.

(** ** Counting events *)

Lemma requests_app m e1 e2 : requests m (e1 ++ e2) = (requests m e1 ++ requests m e2)%list.
Proof. unfold requests. now rewrite flat_map_app. Qed.

Lemma requests_cons m e l :
  requests m (e :: l) =
  (match ev_call e with
   | Http m' url _ => if method_eqb m m' then [url] else []
   | _ => []
   end ++ requests m l)%list.
Proof. reflexivity. Qed.

Lemma requests_nil m : requests m [] = [].
Proof. reflexivity. Qed.

Lemma screenshots_app e1 e2 : screenshots (e1 ++ e2) = (screenshots e1 ++ screenshots e2)%list.
Proof. unfold screenshots. now rewrite flat_map_app. Qed.

Lemma screenshots_cons e l :
  screenshots (e :: l) =
  (match ev_call e with Screenshot id => [id] | _ => [] end ++ screenshots l)%list.
Proof. reflexivity. Qed.

Lemma started_app e1 e2 : started (e1 ++ e2) = (started e1 ++ started e2)%list.
Proof. unfold started. now rewrite flat_map_app. Qed.

Lemma started_cons e l :
  started (e :: l) =
  (match ev_call e with
   | Log Info msg => if String.prefix "Processing: " msg then [msg] else []
   | _ => []
   end ++ started l)%list.
Proof. reflexivity. Qed.

Lemma main_calls_cons e l :
  main_calls (e :: l) =
  if main_call (ev_call e) then e :: main_calls l else main_calls l.
Proof. reflexivity. Qed.

Lemma main_calls_app e1 e2 :
  main_calls (e1 ++ e2) = (main_calls e1 ++ main_calls e2)%list.
Proof. unfold main_calls. now rewrite filter_app. Qed.

Lemma launched_app e1 e2 : launched (e1 ++ e2) = launched e1 || launched e2.
Proof. apply existsb_app. Qed.

Lemma login_failed_app e1 e2 : login_failed (e1 ++ e2) = login_failed e1 || login_failed e2.
Proof. apply existsb_app. Qed.

Lemma report_writes_app e1 e2 :
  report_writes (e1 ++ e2) = (report_writes e1 ++ report_writes e2)%list.
Proof. unfold report_writes. now rewrite flat_map_app. Qed.

Lemma launched_cons e l :
  launched (e :: l) =
  match e with Ev Launch (inr _) => true | _ => false end || launched l.
Proof. reflexivity. Qed.

Lemma login_failed_cons e l :
  login_failed (e :: l) =
  match e with Ev Login (inl _) => true | _ => false end || login_failed l.
Proof. reflexivity. Qed.

Lemma report_writes_cons e l :
  report_writes (e :: l) =
  (match ev_call e with
   | WriteFileSync file (Pretty v) =>
       if String.eqb file resultsFile then [v] else []
   | _ => []
   end ++ report_writes l)%list.
Proof. reflexivity. Qed.

Lemma main_calls_none l :
  main_calls l = [] ->
  launched l = false /\ login_failed l = false /\ report_writes l = [].
Proof.
  induction l as [|[c a] l IH]; [now repeat split|].
  rewrite main_calls_cons, launched_cons, login_failed_cons, report_writes_cons.
  intros H. cbn [ev_call] in H. destruct (main_call c) eqn:E; [discriminate H|].
  destruct (IH H) as (-> & -> & ->).
  destruct c; try discriminate E; try (now repeat split).
  destruct data; [now repeat split|discriminate E].
Qed.

Lemma issued_app e1 e2 : issued (e1 ++ e2) = (issued e1 ++ issued e2)%list.
Proof.
  induction e1 as [|[c a] e1 IH]; [reflexivity|].
  destruct c as [| | |m url body| | | | | | | | |]; cbn; try exact IH.
  destruct m; cbn; try exact IH.
  destruct a as [status data|msg]; cbn; [|exact IH].
  destruct (Z.leb 400 status); cbn; now rewrite IH.
Qed.

Lemma prefix_announce s : String.prefix "Processing: " ("Processing: " ++ s) = true.
Proof. cbn. now destruct s. Qed.

(** ** Symbolic execution

    The proofs below run the script against an arbitrary handler: every call
    is answered by a case analysis on the answer, and a call of a function of
    the script that was analysed before is replaced by what is known of it. *)

Arguments String.append : simpl never.
Arguments Str.of_Z : simpl never.
Arguments getCategory : simpl never.
Arguments getScreenshotFilename : simpl never.
Arguments Path.basename1 : simpl never.
Arguments Path.join : simpl never.
Arguments requests : simpl never.
Arguments screenshots : simpl never.
Arguments started : simpl never.
Arguments main_calls : simpl never.
Arguments launched : simpl never.
Arguments login_failed : simpl never.
Arguments report_writes : simpl never.

Ltac calm := cbn -[workflowsUrl contentsUrl deleteUrl publicUrl].

Ltac flat := rewrite <- ?app_assoc; cbn [app].

Ltac flatten := cbn [app]; repeat (rewrite <- app_assoc; cbn [app]).

Ltac flat_in H := rewrite <- ?app_assoc in H; cbn [app] in H.

Ltac push :=
  progress (repeat first
    [ rewrite run_pbind | rewrite run_bind | rewrite run_try_catch
    | rewrite run_try_finally | rewrite run_with_local ]).

(* what the hypotheses say of a run or of an answer *)
Ltac told h :=
  match goal with
  | H : run h ?p ?m = _ |- context [run h ?p ?m] => rewrite H
  | H : h ?p ?c = _ |- context [h ?p ?c] => rewrite H
  end.

(* the answer to a call *)
Ltac asked h :=
  first
    [ match goal with
      | |- context [match h ?p ?c with _ => _ end] => destruct (h p c) eqn:?
      end
    | match goal with
      | |- context [h ?p (Log ?l ?m)] => destruct (h p (Log l m))
      | |- context [h ?p (Sleep ?ms)] => destruct (h p (Sleep ms))
      | |- context [negb (h ?p ?c)] => destruct (h p c) eqn:?
      end ].

(* a property access or a test that is stuck *)
Ltac branch h :=
  first
    [ match goal with
      | |- context [prop ?v _] => destruct v eqn:?
      | |- context [prop_opt ?v _] => destruct v eqn:?
      end
    | match goal with
      | |- context [match ?x with _ => _ end] =>
          lazymatch x with
          | context [run] => fail
          | context [h] => fail
          | context [match _ with _ => _ end] => fail
          | _ => destruct x eqn:?
          end
      end ].

Ltac crunch h :=
  calm; repeat (first [asked h | branch h]; calm).

Ltac split_shape X :=
  repeat match type of X with
         | _ /\ _ => let Y := fresh "K" in destruct X as [Y X]
         end.

Ltac open_shape X r :=
  unfold ending, final, events in X; cbn zeta in X;
  destruct r as [[? ?] ?] eqn:?;
  cbn [fst snd] in X;
  split_shape X;
  try match type of X with
      | _ \/ _ => destruct X as [X|X]
      end;
  repeat match goal with
         | Y : exists _, _ |- _ => destruct Y
         | Y : _ /\ _ |- _ => destruct Y
         end;
  subst.

Ltac decide_prefix :=
  rewrite ?prefix_announce;
  repeat match goal with
         | |- context [String.prefix "Processing: " (String ?c ?m)] =>
             change (String.prefix "Processing: " (String c m)) with false
         | |- context [String.prefix "Processing: " (String ?c ?m ++ ?n)] =>
             change (String.prefix "Processing: " (String c m ++ n)) with false
         end.

Ltac count_requests :=
  repeat (progress
    (rewrite ?requests_app, ?requests_cons, ?requests_nil,
             ?screenshots_app, ?screenshots_cons,
             ?started_app, ?started_cons, ?main_calls_app, ?main_calls_cons;
     cbn [ev_call method_eqb main_call app];
     decide_prefix;
     repeat match goal with
            | H : requests _ _ = _ |- _ => rewrite H
            | H : screenshots _ = _ |- _ => rewrite H
            | H : started _ = _ |- _ => rewrite H
            | H : main_calls _ = _ |- _ => rewrite H
            end;
     cbn [app])).

Ltac facts :=
  repeat match goal with
         | H : main_calls ?l = [] |- _ =>
             let A := fresh "A" in let B := fresh "B" in let C := fresh "C" in
             destruct (main_calls_none l H) as (A & B & C); clear H
         end.

Ltac observe :=
  facts;
  repeat (progress
    (rewrite ?launched_app, ?launched_cons, ?login_failed_app, ?login_failed_cons,
             ?report_writes_app, ?report_writes_cons;
     cbn [ev_call app orb];
     repeat match goal with
            | H : launched _ = _ |- _ => rewrite H
            | H : login_failed _ = _ |- _ => rewrite H
            | H : report_writes _ = _ |- _ => rewrite H
            end;
     cbn [app orb])).

(* the property of a run is put aside while the run is executed *)
Ltac hide r :=
  pattern r;
  match goal with
  | |- ?F r => let P := fresh "Claim" in set (P := F)
  end;
  subst r.

Ltac unhide :=
  match goal with
  | P := _ |- ?Q _ => constr_eq P Q; subst P
  end;
  cbv beta; unfold ending, final, events; cbn [fst snd].

(* the answers that were given, put back *)
Ltac answers :=
  repeat match goal with
         | H : ?f _ _ = _ |- _ =>
             match type of f with handler => rewrite H end
         end.

(* an identifier that was issued is among those of a longer run *)
Ltac among :=
  repeat (rewrite ?issued_app; cbn [issued app]);
  repeat match goal with
         | H : issued _ = _ |- _ => rewrite H
         end;
  cbn [app];
  repeat first
    [ eassumption
    | apply in_eq
    | apply in_or_app; left; eassumption
    | apply in_or_app; right ].

(* what a function that returned says of its result *)
Ltac instances :=
  repeat match goal with
         | H : forall _, Normal ?x = Normal _ -> _ |- _ => specialize (H x eq_refl)
         | H : forall _, Thrown _ = Normal _ -> _ |- _ => clear H
         | H : _ /\ _ |- _ => destruct H
         end.

Ltac impossible :=
  match goal with
  | H : forall c, Exited ?x <> Exited c |- _ => now destruct (H x)
  end.

Section Properties.

Variable JSON_stringify : jsval -> string.
Variable toBase64 : Buffer -> string.
Variable CONFIG : Config.

(** ** The functions that talk to the engine and to the store *)

(** What [importWorkflow] makes of a reply to its request. *)
Lemma importWorkflow_detail (S : Type) (h : handler) past (s : S) json :
  let request := Http POST (workflowsUrl CONFIG) (JObj (cleanWorkflowOf json)) in
  let r := run h past (importWorkflow JSON_stringify CONFIG json s) in
  match json with
  | JUndefined | JNull =>
      r = ((Thrown (Error_ ("Failed to import workflow: " ++ cannot_read json "name")), s),
           [])
  | _ =>
      final r = s /\
      events r = [Ev request (h past request)] /\
      ending r = importOutcome JSON_stringify (h past request)
  end.
Proof.
  intros request r. subst request. hide r.
  unfold importWorkflow.
  destruct json; crunch h.
  all: unhide; unfold cleanWorkflowOf; cbn [field js_or truthy app].
  all: try reflexivity.
  all: repeat match goal with
              | H : truthy (lookup _ "staticData") = _ |- _ => rewrite H
              end; cbn [app]; answers.
  all: split; [reflexivity|split; [reflexivity|]].
  all: unfold importOutcome, rejectedMessage, missingIdMessage;
       cbn [responseId]; unfold js_or.
  all: repeat match goal with
              | H : negb ?b = _ |- _ => destruct b eqn:?; try discriminate H; clear H
              | H : Z.ltb ?a ?b = true |- _ =>
                  rewrite (proj2 (Z.leb_gt b a) (proj1 (Z.ltb_lt a b) H)); clear H
              | H : Z.ltb ?a ?b = false |- _ =>
                  rewrite (proj2 (Z.leb_le b a) (proj1 (Z.ltb_ge a b) H)); clear H
              end.
  all: repeat match goal with
              | H : Z.leb _ _ = _ |- _ => rewrite H
              | H : lookup _ _ = _ |- _ => rewrite H
              | H : truthy _ = _ |- _ => rewrite H
              end.
  all: cbn [truthy]; try reflexivity.
  all: match goal with
       | H : false = true |- _ => discriminate H
       | H : true = false |- _ => discriminate H
       end.
Qed.

(** An identifier that [importWorkflow] returns is truthy, and it is the
    one that the engine issued. *)
Lemma importWorkflow_issues (S : Type) (h : handler) past (s : S) json id :
  let r := run h past (importWorkflow JSON_stringify CONFIG json s) in
  ending r = Normal id -> truthy id = true /\ issued (events r) = [id].
Proof.
  intros r E.
  pose proof (importWorkflow_detail S h past s json) as X. cbn zeta in X. fold r in X.
  assert (G : final r = s /\
              events r = [Ev (Http POST (workflowsUrl CONFIG) (JObj (cleanWorkflowOf json)))
                            (h past (Http POST (workflowsUrl CONFIG)
                                       (JObj (cleanWorkflowOf json))))] /\
              ending r = importOutcome JSON_stringify
                           (h past (Http POST (workflowsUrl CONFIG)
                                      (JObj (cleanWorkflowOf json))))).
  { destruct json; try exact X; rewrite X in E; discriminate E. }
  destruct G as (_ & -> & G). rewrite G in E. clear G X.
  destruct (h past _) as [status data|msg]; [|discriminate E].
  unfold importOutcome in E. cbn [issued].
  destruct (Z.leb 500 status); [discriminate E|].
  destruct (Z.leb 400 status); [discriminate E|].
  destruct data; try discriminate E.
  all: destruct (truthy (responseId _)) eqn:T; [|discriminate E].
  all: injection E as <-; split; [exact T|reflexivity].
Qed.

Lemma importWorkflow_shape (S : Type) (h : handler) past (s : S) json :
  let r := run h past (importWorkflow JSON_stringify CONFIG json s) in
  final r = s /\ requests DELETE (events r) = [] /\
  started (events r) = [] /\ main_calls (events r) = [] /\
  (forall id, ending r = Normal id -> truthy id = true /\ issued (events r) = [id]) /\
  (forall c, ending r <> Exited c).
Proof.
  intros r.
  assert (G : final r = s /\ requests DELETE (events r) = [] /\
              started (events r) = [] /\ main_calls (events r) = [] /\
              (forall c, ending r <> Exited c)).
  { subst r. unfold importWorkflow, ending, final, events.
    destruct json; crunch h.
    all: repeat split; congruence. }
  destruct G as (G1 & G2 & G3 & G4 & G5).
  split; [exact G1|]. split; [exact G2|]. split; [exact G3|]. split; [exact G4|].
  split; [|exact G5].
  intros id E. now apply (importWorkflow_issues S h past s json id).
Qed.

(** [deleteWorkflow] on an identifier with text sends its request and
    returns; on an identifier without text it throws before anything is
    sent. *)
Lemma deleteWorkflow_shape (S : Type) (h : handler) past (s : S) id :
  let r := run h past (deleteWorkflow CONFIG id s) in
  final r = s /\ started (events r) = [] /\ main_calls (events r) = [] /\
  ((has_text id = true /\ ending r = Normal tt /\
    requests DELETE (events r) = [deleteUrl CONFIG id])
   \/
   (has_text id = false /\ ending r = Thrown (Error_ cannot_convert) /\
    events r = [])).
Proof.
  unfold deleteWorkflow, template, ending, final, events.
  destruct (has_text id); crunch h; repeat split; auto.
Qed.

Lemma takeScreenshot_shape (S : Type) (h : handler) past (s : S) id :
  let r := run h past (takeScreenshot id s) in
  final r = s /\ requests DELETE (events r) = [] /\
  started (events r) = [] /\ main_calls (events r) = [] /\
  issued (events r) = [] /\
  (forall image, ending r = Normal image -> has_text id = true) /\
  (forall c, ending r <> Exited c).
Proof.
  unfold takeScreenshot, ending, final, events.
  destruct (has_text id); crunch h; repeat split; congruence.
Qed.

Lemma screenshotExists_shape (S : Type) (h : handler) past (s : S) category filename :
  let r := run h past (screenshotExists CONFIG category filename s) in
  (exists b, ending r = Normal b) /\ final r = s /\
  requests DELETE (events r) = [] /\
  requests POST (events r) = [] /\ requests PUT (events r) = [] /\
  screenshots (events r) = [] /\
  started (events r) = [] /\ main_calls (events r) = [].
Proof.
  unfold screenshotExists, ending, final, events.
  crunch h; repeat split; eauto.
Qed.

Lemma uploadToGitHub_shape (S : Type) (h : handler) past (s : S) category filename image :
  let r := run h past (uploadToGitHub toBase64 CONFIG category filename image s) in
  final r = s /\ requests DELETE (events r) = [] /\
  started (events r) = [] /\ main_calls (events r) = [] /\
  (forall c, ending r <> Exited c).
Proof.
  unfold uploadToGitHub, ending, final, events.
  crunch h; repeat split; congruence.
Qed.

Arguments importWorkflow : simpl never.
Arguments screenshotExists : simpl never.
Arguments deleteWorkflow : simpl never.
Arguments takeScreenshot : simpl never.
Arguments uploadToGitHub : simpl never.

Ltac known h :=
  match goal with
  | |- context [run h ?p (screenshotExists ?C ?c ?f ?s)] =>
      let X := fresh "X" in
      pose proof (screenshotExists_shape _ h p s c f) as X;
      open_shape X (run h p (screenshotExists C c f s))
  | |- context [run h ?p (importWorkflow ?J ?C ?j ?s)] =>
      let X := fresh "X" in
      pose proof (importWorkflow_shape _ h p s j) as X;
      open_shape X (run h p (importWorkflow J C j s))
  | |- context [run h ?p (takeScreenshot ?i ?s)] =>
      let X := fresh "X" in
      pose proof (takeScreenshot_shape _ h p s i) as X;
      open_shape X (run h p (takeScreenshot i s))
  | |- context [run h ?p (uploadToGitHub ?B ?C ?c ?f ?i ?s)] =>
      let X := fresh "X" in
      pose proof (uploadToGitHub_shape _ h p s c f i) as X;
      open_shape X (run h p (uploadToGitHub B C c f i s))
  | |- context [run h ?p (deleteWorkflow ?C ?i ?s)] =>
      let X := fresh "X" in
      pose proof (deleteWorkflow_shape _ h p s i) as X;
      open_shape X (run h p (deleteWorkflow C i s))
  end.

Ltac crunch_item h :=
  calm; flat;
  repeat (first [told h | asked h | known h | push | branch h]; calm; flat).

(** ** One item *)

Lemma processWorkflow_cases (h : handler) past st workflowPath :
  let r := run h past (processWorkflow JSON_stringify toBase64 CONFIG workflowPath st) in
  let name := Path.basename1 workflowPath in
  ((exists res, ending r = Normal res /\
      ((res = None /\ final r = inc_skipped st) \/
       (exists sh, res = Some sh /\ final r = inc_processed (inc_succeeded st)) \/
       (exists msg, res = None /\
          final r = inc_processed (push_error name msg (inc_failed st)))))
   \/
   (ending r = Thrown (Error_ cannot_convert) /\
    (exists msg, final r = push_error name msg (inc_failed st)) /\
    exists id, In id (issued (events r)) /\ has_text id = false)) /\
  started (events r) = ["Processing: " ++ name] /\
  main_calls (events r) = [].
Proof.
  intros r name. subst name. hide r.
  unfold processWorkflow, processWorkflow_try, processWorkflow_catch,
    processWorkflow_finally, log_progress.
  crunch_item h.
  all: try impossible.
  all: instances; try congruence.
  all: unhide.
  all: (split; [|split; count_requests; reflexivity]).
  all: try (left; eexists; split; [reflexivity|]; eauto 7; fail).
  all: right; (split; [reflexivity|]).
  all: (split; [eexists; reflexivity|]).
  all: eexists; (split; [|eassumption]); among.
Qed.

Local Open Scope list_scope.

(** ** The loop and the discovery *)

Lemma main_loop_shape (h : handler) workflowFiles :
  forall past results st,
    let r := run h past (main_loop JSON_stringify toBase64 CONFIG workflowFiles results st) in
    main_calls (events r) = [] /\
    total (final r) = total st /\
    (exists new, errors (final r) = errors st ++ new /\
                 failed (final r) = failed st + List.length new) /\
    ((exists results',
        ending r = Normal results' /\
        started (events r) = map announce workflowFiles /\
        counted (final r) = counted st + List.length workflowFiles)
     \/
     (ending r = Thrown (Error_ cannot_convert) /\
      exists id, In id (issued (events r)) /\ has_text id = false)).
Proof.
  induction workflowFiles as [|workflowPath rest IH]; intros past results st r.
  - subst r. cbn. repeat split.
    + exists []. rewrite app_nil_r. split; [reflexivity|cbn; lia].
    + left. eexists. repeat split. unfold counted. lia.
  - subst r. cbn [main_loop]. rewrite run_bind.
    pose proof (processWorkflow_cases h past st workflowPath) as X.
    unfold ending, final, events in *. cbn zeta in X.
    destruct (run h past (processWorkflow JSON_stringify toBase64 CONFIG workflowPath st)) as [[o s1] e1].
    cbn [fst snd] in X. destruct X as (Hcase & Hs & Hm).
    destruct Hcase as [(res & -> & Hcase)|(-> & (msg & ->) & (id & Hin & Hno))].
    2: { cbn [fst snd]. split; [exact Hm|]. split; [reflexivity|].
         split; [exists [(Path.basename1 workflowPath, msg)]; split; [reflexivity|cbn; lia]|].
         right. split; [reflexivity|]. exists id. split; assumption. }
    rewrite run_bind.
    set (results' := match res with Some r => results ++ [r] | None => results end).
    assert (Hstep : exists e2,
      run h (past ++ e1)
        (match rest with [] => ret tt | _ :: _ => sleep (delayBetweenWorkflows CONFIG) end s1)
      = ((Normal tt, s1), e2) /\ started e2 = [] /\ main_calls e2 = []).
    { destruct rest; cbn.
      - eexists. repeat split.
      - destruct (h (past ++ e1) (Sleep (delayBetweenWorkflows CONFIG))).
        eexists. repeat split. }
    destruct Hstep as (e2 & -> & Hs2 & Hm2).
    specialize (IH ((past ++ e1) ++ e2) results' s1). cbn zeta in IH.
    destruct (run h ((past ++ e1) ++ e2) (main_loop JSON_stringify toBase64 CONFIG rest results' s1)) as [[o3 s3] e3].
    cbn [fst snd] in *.
    destruct IH as (Hm3 & Ht3 & (new3 & He3 & Hl3) & Hend).
    assert (Hstate : total s1 = total st /\
                     counted s1 = S (counted st) /\
                     exists new, errors s1 = errors st ++ new /\
                                 failed s1 = failed st + List.length new).
    { destruct Hcase as [[_ ->]|[(sh & _ & ->)|(msg & _ & ->)]];
        unfold counted; cbn.
      - repeat split; try lia. exists []. rewrite app_nil_r. split; [reflexivity|cbn; lia].
      - repeat split; try lia. exists []. rewrite app_nil_r. split; [reflexivity|cbn; lia].
      - repeat split; try lia. eexists. split; [reflexivity|cbn; lia]. }
    destruct Hstate as (Ht1 & Hc1 & (new1 & He1 & Hl1)).
    assert (Hparts : main_calls (e1 ++ e2 ++ e3) = [] /\
                     total s3 = total st /\
                     exists new, errors s3 = errors st ++ new /\
                                 failed s3 = failed st + List.length new).
    { split; [rewrite !main_calls_app, Hm, Hm2, Hm3; reflexivity|].
      split; [congruence|].
      exists (new1 ++ new3). rewrite He3, He1, <- app_assoc, length_app.
      split; [reflexivity|lia]. }
    destruct Hparts as (P1 & P2 & P3).
    destruct Hend as [(results3 & -> & Hs3 & Hc3)|(-> & (id & Hin & Hno))];
      cbn [fst snd].
    + split; [exact P1|]. split; [exact P2|]. split; [exact P3|].
      left. exists results3. split; [reflexivity|].
      split; [rewrite !started_app, Hs, Hs2, Hs3; reflexivity|].
      cbn [List.length]. lia.
    + split; [exact P1|]. split; [exact P2|]. split; [exact P3|].
      right. split; [reflexivity|]. exists id. split; [|exact Hno].
      rewrite !issued_app. apply in_or_app. right. apply in_or_app. now right.
Qed.

Lemma isWorkflowFile_shape (S : Type) (h : handler) past (s : S) file :
  let r := run h past (isWorkflowFile file s) in
  (exists b, ending r = Normal b) /\ final r = s /\
  started (events r) = [] /\ main_calls (events r) = [].
Proof.
  unfold isWorkflowFile, ending, final, events.
  crunch h; repeat split; eauto.
Qed.

Lemma filterFiles_shape (S : Type) (h : handler) files :
  forall past (s : S),
    let r := run h past (filterFiles files s) in
    (exists kept, ending r = Normal kept) /\ final r = s /\
    started (events r) = [] /\ main_calls (events r) = [].
Proof.
  induction files as [|file rest IH]; intros past s r; subst r.
  - cbn. repeat split; eauto.
  - cbn [filterFiles]. rewrite run_bind.
    pose proof (isWorkflowFile_shape S h past s file) as X.
    unfold ending, final, events in *. cbn zeta in X.
    destruct (run h past (isWorkflowFile file s)) as [[o s1] e1].
    cbn [fst snd] in X. destruct X as ((b & ->) & -> & Hs & Hm).
    rewrite run_bind. specialize (IH (past ++ e1) s). cbn zeta in IH.
    destruct (run h (past ++ e1) (filterFiles rest s)) as [[o2 s2] e2].
    cbn [fst snd] in IH. destruct IH as ((kept & ->) & -> & Hs2 & Hm2).
    cbn. rewrite !app_nil_r, started_app, main_calls_app, Hs, Hm, Hs2, Hm2.
    repeat split; eauto.
Qed.

Lemma getWorkflowFiles_shape (S : Type) (h : handler) past (s : S) :
  let r := run h past (getWorkflowFiles CONFIG s) in
  final r = s /\ started (events r) = [] /\ main_calls (events r) = [] /\
  (forall c, ending r <> Exited c).
Proof.
  unfold getWorkflowFiles, ending, final, events.
  rewrite run_bind. cbn.
  destruct (h past _) as [e|files]; cbn.
  - repeat split; congruence.
  - match goal with |- context [run h ?p (filterFiles files s)] =>
      pose proof (filterFiles_shape S h files p s) as X;
      unfold ending, final, events in X; cbn zeta in X;
      destruct (run h p (filterFiles files s)) as [[o2 s2] e2]
    end.
    cbn [fst snd] in *. destruct X as ((kept & ->) & -> & Hs & Hm).
    cbn. rewrite ?app_nil_r. rewrite started_cons, main_calls_cons. cbn.
    repeat split; auto; congruence.
Qed.

Lemma log_errors_shape (S : Type) (h : handler) errs :
  forall past (s : S),
    let r := run h past (log_errors errs s) in
    ending r = Normal tt /\ final r = s /\ main_calls (events r) = [].
Proof.
  induction errs as [|[w e] rest IH]; intros past s r; subst r.
  - cbn. repeat split.
  - cbn [log_errors]. rewrite run_bind. cbn.
    destruct (h past _). cbn.
    specialize (IH (past ++ [Ev (Log Out ("  - " ++ w ++ ": " ++ e)%string) tt]) s).
    cbn zeta in IH. unfold ending, final, events in *.
    destruct (run h _ (log_errors rest s)) as [[o2 s2] e2].
    cbn [fst snd] in *. destruct IH as (-> & -> & Hm).
    rewrite main_calls_cons. cbn. repeat split; auto.
Qed.

Arguments processWorkflow_try : simpl never.
Arguments main_loop : simpl never.
Arguments getWorkflowFiles : simpl never.
Arguments log_errors : simpl never.

Ltac known_loop h :=
  match goal with
  | |- context [run h ?p (log_errors ?e ?s)] =>
      let X := fresh "X" in
      pose proof (log_errors_shape _ h e p s) as X;
      open_shape X (run h p (log_errors e s))
  | |- context [run h ?p (main_loop ?J ?B ?C ?f ?r ?s)] =>
      let X := fresh "X" in
      pose proof (main_loop_shape h f p r s) as X;
      open_shape X (run h p (main_loop J B C f r s))
  end.

Ltac crunch_loop h :=
  calm; flat;
  repeat (first [asked h | known_loop h | push | branch h]; calm; flat).

Lemma main_try_shape (h : handler) past st files :
  let r := run h past (main_try JSON_stringify toBase64 CONFIG files st) in
  launched (events r) = false /\
  (forall c, ending r <> Exited c) /\
  (login_failed (events r) = false ->
   (exists timestamp results,
      report_writes (events r) = [report timestamp (final r) results])
   \/
   (ending r = Thrown (Error_ cannot_convert) /\
    report_writes (events r) = [] /\
    exists id, In id (issued (events r)) /\ has_text id = false)).
Proof.
  intros r. hide r. unfold main_try.
  crunch_loop h.
  all: unhide.
  all: (split; [observe; reflexivity|]); (split; [congruence|]).
  all: observe; try (intros K; discriminate K).
  all: intros _.
  all: first
         [ left; eexists _, _; reflexivity
         | right; (split; [reflexivity|]); (split; [reflexivity|]);
           eexists; (split; [|eassumption]); among ].
Qed.

Arguments main_try : simpl never.

Ltac known_top h :=
  match goal with
  | |- context [run h ?p (getWorkflowFiles ?C ?s)] =>
      let X := fresh "X" in
      pose proof (getWorkflowFiles_shape _ h p s) as X;
      open_shape X (run h p (getWorkflowFiles C s))
  | |- context [run h ?p (main_try ?J ?B ?C ?f ?s)] =>
      let X := fresh "X" in
      pose proof (main_try_shape h p s f) as X;
      open_shape X (run h p (main_try J B C f s))
  end.

Ltac crunch_main h :=
  calm; flat;
  repeat (first [told h | asked h | known_top h | push | branch h]; calm; flat).

Lemma main_report (h : handler) past st :
  let r := run h past (main JSON_stringify toBase64 CONFIG st) in
  launched (events r) = true ->
  login_failed (events r) = false ->
  (exists timestamp results,
     report_writes (events r) = [report timestamp (final r) results])
  \/
  (report_writes (events r) = [] /\
   exists id, In id (issued (events r)) /\ has_text id = false).
Proof.
  intros r. hide r. unfold main.
  crunch_main h.
  all: unhide.
  all: observe; rewrite ?orb_false_r; intros HL HF; try discriminate HL.
  all: match goal with
       | K : login_failed ?l = false -> _ |- _ =>
           destruct (K HF) as [(timestamp & results & W)|(_ & W & (id & Hin & Hno))];
           rewrite W
       end.
  all: first
         [ left; eexists _, _; reflexivity
         | right; (split; [reflexivity|]);
           exists id; (split; [|exact Hno]); among ].
Qed.

Lemma main_no_files (h : handler) past found :
  configured CONFIG = true ->
  run h (past ++ main_intro CONFIG) (getWorkflowFiles CONFIG state0)
    = ((Normal [], state0), found) ->
  let r := run h past (main JSON_stringify toBase64 CONFIG state0) in
  r = ((Normal tt, state0),
       main_intro CONFIG ++ found
       ++ [Ev (Log Info ("Found 0 workflows" ++ Str.nl)%string) tt;
           Ev (Log Warn "No workflow files found!") tt]) /\
  report_writes (events r) = [].
Proof.
  unfold configured. intros Hc Hf. set (r := run h past (main JSON_stringify toBase64 CONFIG state0)).
  apply andb_true_iff in Hc as [Hc Hrepo]. apply andb_true_iff in Hc as [Hkey Htoken].
  apply negb_true_iff in Hrepo.
  pose proof (getWorkflowFiles_shape _ h (past ++ main_intro CONFIG) state0) as X.
  unfold ending, final, events in X. cbn zeta in X. rewrite Hf in X.
  cbn [fst snd] in X. destruct X as (_ & _ & Hm & _).
  assert (E : r = ((Normal tt, state0),
       main_intro CONFIG ++ found
       ++ [Ev (Log Info ("Found 0 workflows" ++ Str.nl)%string) tt;
           Ev (Log Warn "No workflow files found!") tt])).
  { subst r. unfold main_intro in *. flat_in Hf.
    unfold main. rewrite Hkey, Htoken, Hrepo.
    crunch_main h. reflexivity. }
  split; [exact E|]. rewrite E. unfold events, main_intro. cbn [snd].
  observe. reflexivity.
Qed.

(** ** The claims about the script *)

(** C7. [screenshotExists] always returns, without touching the state.  When
    the skip-existing toggle is off it returns [false] and makes no call at
    all.  When the toggle is on it sends exactly one GET for the expected
    (category, name) path and returns [true] exactly when the store answers
    200: a 404, any other status and a transport failure all give [false]. *)
Theorem screenshotExists_spec (S : Type) (h : handler) (past : list event) (st : S)
    (category filename : string) :
  let request := Http GET (existsUrl CONFIG category filename) JUndefined in
  exists (b : bool) (evs : list event),
    run h past (screenshotExists CONFIG category filename st) = ((Normal b, st), evs) /\
    (skipExisting CONFIG = false -> b = false /\ evs = []) /\
    (skipExisting CONFIG = true ->
       evs = [Ev request (h past request)] /\
       (b = true <-> exists data, h past request = Reply 200 data)).
Proof.
  intros request. unfold screenshotExists.
  destruct (skipExisting CONFIG) eqn:E; cbn -[contentsUrl].
  - fold (existsUrl CONFIG category filename). fold request.
    assert (Neq : forall status data, status <> 200%Z ->
              ~ exists d, Reply status data = Reply 200 d).
    { intros status data N [d Hd]. congruence. }
    destruct (h past request) as [status data|msg] eqn:R; cbn.
    + destruct (Z.eqb status 200) eqn:B; cbn; rewrite ?B.
      * apply Z.eqb_eq in B. subst status.
        eexists _, _. split; [reflexivity|]. split; [intros K; discriminate K|].
        intros _. split; [reflexivity|]. split; eauto.
      * pose proof B as N. apply Z.eqb_neq in N. apply (Neq _ data) in N.
        destruct (Z.eqb status 404); cbn; rewrite ?B;
          eexists _, _; (split; [reflexivity|]);
          (split; [intros K; discriminate K|]);
          intros _; (split; [reflexivity|]);
          (split; [intros K; discriminate K|]); intros K; now destruct N.
    + eexists _, _. split; [reflexivity|]. split; [intros K; discriminate K|].
      intros _. split; [reflexivity|]. split; [intros K; discriminate K|].
      intros [d Hd]. discriminate Hd.
  - eexists _, _. split; [reflexivity|]. split; [auto|intros K; discriminate K].
Qed.

(** C4. When the existence check of an item reports [true], the item is
    recorded as skipped (only [skipped] grows) and its processing consists of
    the three log lines, the existence check and the skip notice: no POST
    (import), no PUT (publish), no DELETE and no screenshot is made. *)
Theorem processWorkflow_skips_existing (h : handler) past st workflowPath ex :
  let category := getCategory workflowPath in
  let filename := getScreenshotFilename workflowPath in
  run h (past ++ banner workflowPath) (screenshotExists CONFIG category filename st)
    = ((Normal true, st), ex) ->
  let r := run h past (processWorkflow JSON_stringify toBase64 CONFIG workflowPath st) in
  r = ((Normal None, inc_skipped st),
       banner workflowPath ++ ex
       ++ [Ev (Log Warn "  Skipping: Screenshot already exists") tt]) /\
  requests POST (events r) = [] /\
  requests PUT (events r) = [] /\
  requests DELETE (events r) = [] /\
  screenshots (events r) = [].
Proof.
  intros category filename H r. subst category filename.
  pose proof (screenshotExists_shape _ h (past ++ banner workflowPath) st
                (getCategory workflowPath) (getScreenshotFilename workflowPath)) as X.
  unfold ending, final, events in X. cbn zeta in X. rewrite H in X.
  cbn [fst snd] in X. destruct X as (_ & _ & D & P & U & C & _ & _).
  assert (E : r = ((Normal None, inc_skipped st),
       banner workflowPath ++ ex
       ++ [Ev (Log Warn "  Skipping: Screenshot already exists") tt])).
  { unfold r, banner in *. flat_in H.
    unfold processWorkflow. crunch_item h. reflexivity. }
  split; [exact E|]. rewrite E. unfold events, banner. cbn [snd].
  repeat split; count_requests; reflexivity.
Qed.

(** C1. Whenever, in the processing of an item, [importWorkflow] returns an
    identifier [id], the [finally] block of the item calls [deleteWorkflow]
    on [id], once: after the import the item's events are those up to the
    cleanup, without a DELETE, then the events of [deleteWorkflow id], then
    what follows the cleanup, without a DELETE either, whatever the capture,
    the local save and the upload answered.  When [deleteWorkflow] returns,
    so does [processWorkflow]: the delete is over before the loop goes on.
    An exception of [deleteWorkflow] leaves [processWorkflow].  For an
    identifier with a text [deleteWorkflow] returns after one DELETE for
    that identifier; for one without a text it throws before a request is
    sent. *)
Theorem processWorkflow_deletes_imported
    (h : handler) past st workflowPath ex json id imp :
  let category := getCategory workflowPath in
  let filename := getScreenshotFilename workflowPath in
  let before := beforeImport workflowPath ex json in
  run h (past ++ banner workflowPath) (screenshotExists CONFIG category filename st)
    = ((Normal false, st), ex) ->
  h (past ++ banner workflowPath ++ ex) (ReadJson workflowPath) = inr json ->
  run h (past ++ before) (importWorkflow JSON_stringify CONFIG json (st, JNull))
    = ((Normal id, (st, JNull)), imp) ->
  exists o st' mid (s : State * jsval) post,
    let cleanup := run h (past ++ before ++ imp ++ mid) (deleteWorkflow CONFIG id s) in
    run h past (processWorkflow JSON_stringify toBase64 CONFIG workflowPath st)
      = ((o, st'), before ++ imp ++ mid ++ events cleanup ++ post) /\
    requests DELETE (before ++ imp ++ mid) = [] /\
    requests DELETE post = [] /\
    match ending cleanup with
    | Normal _ => exists res, o = Normal res
    | Thrown e => o = Thrown e /\ post = []
    | Exited _ => False
    end /\
    (if has_text id
     then ending cleanup = Normal tt /\
          requests DELETE (events cleanup) = [deleteUrl CONFIG id]
     else ending cleanup = Thrown (Error_ cannot_convert) /\ events cleanup = []).
Proof.
  intros category filename before Hex Hread Himp.
  subst category filename before.
  pose proof (screenshotExists_shape _ h (past ++ banner workflowPath) st
                (getCategory workflowPath) (getScreenshotFilename workflowPath)) as X.
  unfold ending, final, events in X. cbn zeta in X. rewrite Hex in X.
  cbn [fst snd] in X. destruct X as (_ & _ & Dex & _).
  pose proof (importWorkflow_shape _ h
                (past ++ beforeImport workflowPath ex json) (st, JNull) json) as X.
  unfold ending, final, events in X. cbn zeta in X. rewrite Himp in X.
  cbn [fst snd] in X. destruct X as (_ & Dimp & _ & _ & T & _).
  destruct (T id eq_refl) as [T' _]. clear T.
  unfold beforeImport, banner in *. flat_in Hex. flat_in Hread. flat_in Himp.
  set (r := run h past (processWorkflow JSON_stringify toBase64 CONFIG workflowPath st)).
  hide r.
  unfold processWorkflow, processWorkflow_try, processWorkflow_catch,
    processWorkflow_finally, log_progress.
  crunch_item h.
  all: try impossible.
  all: instances; try congruence.
  all: unhide.
  all: match goal with
       | Heq : run _ (_ ++ _ :: _ :: _ :: _ ++ _ :: _ :: _ ++ ?M)
                 (deleteWorkflow _ _ ?s0) = _ |- _ =>
           first
             [ eexists _, _, M, s0, [_];
               cbn zeta; flatten; rewrite Heq; cbn [fst snd];
               (split; [flatten; reflexivity|])
             | eexists _, _, M, s0, [];
               cbn zeta; flatten; rewrite Heq; cbn [fst snd];
               (split; [flatten; rewrite ?app_nil_r; reflexivity|]) ]
       end.
  all: (split; [count_requests; reflexivity|]).
  all: (split; [count_requests; reflexivity|]).
  all: (split; [first [eexists; reflexivity | split; reflexivity]|]).
  all: match goal with
       | H : has_text _ = _ |- _ => rewrite H
       end; split; first [reflexivity | assumption].
Qed.

(** C5 (amended).  Once the browser is launched and the login does not
    fail, [main] writes the results file exactly once, with the final
    counters and error list, whatever happened to the items, as long as
    every identifier that the engine issued has a text.  When no workflow
    file is discovered, the run returns normally with all counters at zero
    and no error, and the results file is not written. *)
Theorem report_written_after_launch (h : handler) (past : list event) :
  (forall st,
     let r := run h past (main JSON_stringify toBase64 CONFIG st) in
     launched (events r) = true ->
     login_failed (events r) = false ->
     forallb has_text (issued (events r)) = true ->
     exists timestamp results,
       report_writes (events r) = [report timestamp (final r) results]) /\
  (forall found,
     configured CONFIG = true ->
     run h (past ++ main_intro CONFIG) (getWorkflowFiles CONFIG state0)
       = ((Normal [], state0), found) ->
     let r := run h past (main JSON_stringify toBase64 CONFIG state0) in
     r = ((Normal tt, state0),
          main_intro CONFIG ++ found
          ++ [Ev (Log Info ("Found 0 workflows" ++ Str.nl)%string) tt;
              Ev (Log Warn "No workflow files found!") tt]) /\
     report_writes (events r) = []).
Proof.
  split.
  - intros st r HL HF HI.
    destruct (main_report h past st HL HF) as [W|(_ & id & Hin & Hno)]; [exact W|].
    rewrite forallb_forall in HI. rewrite (HI id Hin) in Hno. discriminate Hno.
  - intros found. apply main_no_files.
Qed.

(** C8 (amended).  When the engine answers the import with a 4xx status,
    [importWorkflow] throws an error whose message holds the status and the
    body.  When it answers with a status below 400 and a body, other than
    [null], that holds no identifier, [importWorkflow] throws an error whose
    message holds the body.  The two messages are never the same. *)
Theorem importWorkflow_diagnoses (S : Type) (h : handler) past (s : S) json status data :
  let r := run h past (importWorkflow JSON_stringify CONFIG json s) in
  replies (events r) = [Reply status data] ->
  ((400 <= status < 500)%Z ->
     ending r = Thrown (Error_ (rejectedMessage JSON_stringify status data))) /\
  ((status < 400)%Z -> data <> JNull -> data <> JUndefined ->
   truthy (responseId data) = false ->
     ending r = Thrown (Error_ (missingIdMessage JSON_stringify data))) /\
  (forall status' data',
     rejectedMessage JSON_stringify status' data'
     <> missingIdMessage JSON_stringify data).
Proof.
  intros r Hr. split; [|split].
  3: { intros status' data' E. unfold rejectedMessage, missingIdMessage in E.
       cbn [String.append] in E. discriminate E. }
  all: revert Hr; subst r; unfold importWorkflow, ending, final, events,
         rejectedMessage, missingIdMessage.
  all: destruct json; crunch h.
  all: intros Hr; try discriminate Hr; injection Hr as Es Ed; subst.
  all: intros; try reflexivity; try lia; try congruence.
  all: exfalso;
       match goal with H : truthy (responseId _) = false |- _ =>
         cbn in H; unfold js_or in H;
         repeat match goal with
                | E : lookup ?f ?k = _ |- _ => rewrite E in H
                | E : truthy ?x = _ |- _ =>
                    tryif constr_eq E H then fail else rewrite E in H
                end;
         cbn in H
       end;
       repeat match goal with
              | E : negb _ = false |- _ => apply negb_false_iff in E
              end;
       congruence.
Qed.

(** C9. [uploadToGitHub] first asks the store for the destination path and
    then sends one PUT to the same path.  When the first answer carries a
    version token the payload of the PUT holds it as [sha] (an update),
    otherwise the payload has no [sha] (a create).  When the PUT is
    accepted the function returns the raw-content URL of the same path. *)
Theorem uploadToGitHub_create_or_update
    (S : Type) (h : handler) past (s : S) category filename image :
  let filePath := ("screenshots/" ++ category ++ "/" ++ filename)%string in
  let url := contentsUrl CONFIG filePath in
  let found := h past (Http GET url JUndefined) in
  let r := run h past (uploadToGitHub toBase64 CONFIG category filename image s) in
  exists payload sent,
    events r = [Ev (Http GET url JUndefined) found;
                Ev (Http PUT url (JObj payload)) sent] /\
    final r = s /\
    match versionToken found with
    | Some sha =>
        payload = [("message", JStr ("Update screenshot: " ++ filename)%string);
                   ("content", JStr (toBase64 image));
                   ("branch", JStr "main");
                   ("sha", sha)]
    | None =>
        payload = [("message", JStr ("Add screenshot: " ++ filename)%string);
                   ("content", JStr (toBase64 image));
                   ("branch", JStr "main")]
    end /\
    (forall status data, sent = Reply status data -> status_2xx status = true ->
       ending r = Normal ("https://raw.githubusercontent.com/" ++ githubRepo CONFIG
                          ++ "/main/" ++ filePath)%string).
Proof.
  intros filePath url found r. subst r found url filePath.
  unfold uploadToGitHub, ending, final, events, versionToken.
  crunch h.
  all: repeat match goal with
              | E : match ?d with _ => _ end = _ |- _ =>
                  destruct d; cbn in E; try discriminate E
              end.
  all: repeat match goal with
              | E : Some _ = Some _ |- _ => injection E as E; subst
              | E : None = Some _ |- _ => discriminate E
              | E : Some _ = None |- _ => discriminate E
              end.
  all: try congruence.
  all: eexists _, _; (split; [reflexivity|]); (split; [reflexivity|]).
  all: (split; [try reflexivity|]); [..|intros status' data' E Hok;
       try discriminate E; injection E as Es Ed; subst;
       try congruence; reflexivity].
Qed.

End Properties.

Local Open Scope list_scope.

(** ** The claims about names and categories *)

(** C3 (amended).  The screenshot file name is the canonical name followed by
    [.png].  The canonical name has at most 50 characters, all of them
    lowercase letters, digits or hyphens, without two hyphens in a row and
    without a hyphen in front.  When the name was not cut at 50 characters it
    has no hyphen at its end either.  Whenever the canonical name has no
    hyphen at its end, cut or not, the transform applied to the canonical
    name gives the same file name again. *)
Theorem getScreenshotFilename_shape (workflowPath : string) :
  let name := canonicalName workflowPath in
  getScreenshotFilename workflowPath = (name ++ ".png")%string /\
  String.length name <= 50 /\
  forall_chars name_char name = true /\
  no_double_hyphen name = true /\
  starts_with_hyphen name = false /\
  (String.length (untruncatedName workflowPath) <= 50 ->
   ends_with_hyphen name = false) /\
  (ends_with_hyphen name = false ->
   getScreenshotFilename name = getScreenshotFilename workflowPath).
Proof.
  intros name. destruct (canonicalName_canonical workflowPath) as (H1 & H2 & H3).
  repeat split; auto.
  - apply substring_length.
  - intros H. unfold name. rewrite canonicalName_cut, substring_all by assumption.
    apply untruncated_canonical.
  - intros H. unfold getScreenshotFilename. f_equal. fold name.
    apply canonicalName_fixed.
    + apply canonicalName_canonical.
    + exact H.
    + apply substring_length.
Qed.

(** C10. [getCategory] is decided by the directory segments alone: it
    returns the directory segment closest to the file that contains an
    underscore or is [devops], or the default category when no directory
    segment is of that kind; two paths with the same directory segments get
    the same category, whatever their file names are. *)
Theorem getCategory_closest_directory (workflowPath : string) :
  let dirs := dirSegments workflowPath in
  ((exists i, i < List.length dirs /\
              getCategory workflowPath = nth i dirs ""%string /\
              looksLikeCategory (nth i dirs ""%string) = true /\
              forall j, i < j < List.length dirs ->
                        looksLikeCategory (nth j dirs ""%string) = false)
   \/
   (getCategory workflowPath = defaultCategory /\
    forall j, j < List.length dirs ->
              looksLikeCategory (nth j dirs ""%string) = false))
  /\
  (forall other, dirSegments other = dirs -> getCategory other = getCategory workflowPath).
Proof.
  intros dirs. split.
  - rewrite getCategory_dirs. fold dirs.
    pose proof (scanParts_spec dirs (List.length dirs)) as H.
    destruct (scanParts dirs (List.length dirs)) as [dir|].
    + left. destruct H as (i & Hi & Hd & Hl & Hj). exists i. subst dir. auto.
    + right. auto.
  - intros other H. rewrite !getCategory_dirs. fold dirs. now rewrite H.
Qed.

(** ** The claims on sample runs *)

Example name_of_sample :
  getScreenshotFilename Sample.path = "notify-team.png"%string.
Proof. reflexivity. Qed.

Example category_of_sample : getCategory Sample.path = "Slack_and_Chat"%string.
Proof. reflexivity. Qed.

Example category_default : getCategory "Slack/x.json" = defaultCategory.
Proof. reflexivity. Qed.

(** C1 on a sample run: the capture fails after the engine returned "42". *)
Lemma processWorkflow_deletes_imported_witness :
  let ex := events (run Sample.capture_fails (banner Sample.path)
                      (Runs.check state0)) in
  let before := beforeImport Sample.path ex Sample.workflow in
  let imp := events (run Sample.capture_fails before
                       (importWorkflow Sample.stringify Sample.config
                          Sample.workflow (state0, JNull))) in
  exists o st' mid (s : State * jsval) post,
    let cleanup := run Sample.capture_fails ([] ++ before ++ imp ++ mid)
                     (deleteWorkflow Sample.config (JStr "42") s) in
    run Sample.capture_fails [] (Runs.item state0)
      = ((o, st'), before ++ imp ++ mid ++ events cleanup ++ post) /\
    requests DELETE (before ++ imp ++ mid) = [] /\
    requests DELETE post = [] /\
    match ending cleanup with
    | Normal _ => exists res, o = Normal res
    | Thrown e => o = Thrown e /\ post = []
    | Exited _ => False
    end /\
    (if has_text (JStr "42")
     then ending cleanup = Normal tt /\
          requests DELETE (events cleanup) = [deleteUrl Sample.config (JStr "42")]
     else ending cleanup = Thrown (Error_ cannot_convert) /\ events cleanup = []).
Proof.
  intros ex before imp.
  apply (processWorkflow_deletes_imported Sample.stringify Sample.base64
           Sample.config Sample.capture_fails [] state0 Sample.path
           ex Sample.workflow (JStr "42") imp);
    vm_compute; reflexivity.
Defined.

(** C2 (the script departs from the claim).  One file is discovered and its
    screenshot is already in the store: the run ends normally with
    [total = 1], [skipped = 1] and [processed = 0], so that neither
    [succeeded + failed + skipped = processed] nor [processed = total]
    holds at the end of the run. *)
Theorem skipped_item_is_not_processed :
  let r := run Sample.all_present [] (Runs.script_main state0) in
  ending r = Normal tt /\
  total (final r) = 1 /\ skipped (final r) = 1 /\
  succeeded (final r) = 0 /\ failed (final r) = 0 /\
  processed (final r) = 0 /\
  counted (final r) <> processed (final r) /\
  processed (final r) <> total (final r).
Proof. vm_compute. repeat split; discriminate. Qed.

(** C3 as it is stated fails: the transform is not idempotent (the
    extension of its own output is turned into a hyphen and a new extension
    is appended), its output can have 54 characters and holds a dot, and a
    name that is cut at 50 characters can end with a hyphen, which the
    transform takes away when it is applied to that name. *)
Lemma getScreenshotFilename_counterexample :
  getScreenshotFilename (getScreenshotFilename "a.json") <> getScreenshotFilename "a.json" /\
  50 < String.length (getScreenshotFilename (Sample.a49 ++ "a.json")%string) /\
  forall_chars name_char (getScreenshotFilename "a.json") = false /\
  ends_with_hyphen (canonicalName (Sample.a49 ++ " b.json")%string) = true /\
  getScreenshotFilename (canonicalName (Sample.a49 ++ " b.json")%string)
  <> getScreenshotFilename (Sample.a49 ++ " b.json")%string.
Proof. repeat split; vm_compute; congruence || lia. Qed.

(** C3 (amended) on the sample path, and on a name that is cut. *)
Lemma getScreenshotFilename_shape_witness :
  ends_with_hyphen (canonicalName Sample.path) = false /\
  String.length (canonicalName Sample.long) < String.length (untruncatedName Sample.long) /\
  getScreenshotFilename (canonicalName Sample.long)
  = getScreenshotFilename Sample.long.
Proof.
  split; [|split].
  - apply (getScreenshotFilename_shape Sample.path). vm_compute. lia.
  - vm_compute. lia.
  - apply (getScreenshotFilename_shape Sample.long). reflexivity.
Defined.

(** C4 on a sample run: the store has the screenshot. *)
Lemma processWorkflow_skips_existing_witness :
  let ex := events (run Sample.all_present (banner Sample.path)
                      (Runs.check state0)) in
  let r := run Sample.all_present [] (Runs.item state0) in
  r = ((Normal None, inc_skipped state0),
       banner Sample.path ++ ex
       ++ [Ev (Log Warn "  Skipping: Screenshot already exists") tt]) /\
  requests POST (events r) = [] /\
  requests PUT (events r) = [] /\
  requests DELETE (events r) = [] /\
  screenshots (events r) = [].
Proof.
  intros ex.
  apply (processWorkflow_skips_existing Sample.stringify Sample.base64
           Sample.config Sample.all_present [] state0 Sample.path ex).
  vm_compute; reflexivity.
Defined.

(** C5 as it is stated fails: when no workflow file is discovered the run
    ends normally with all counters at zero, and nothing is written to the
    results file. *)
Lemma report_not_written_without_files :
  let r := run Sample.no_files [] (Runs.script_main state0) in
  ending r = Normal tt /\ final r = state0 /\ report_writes (events r) = [].
Proof. vm_compute. repeat split. Qed.

(** C5 (amended) on a sample run in which the only item fails. *)
Lemma report_written_after_launch_witness :
  let r := run Sample.capture_fails [] (Runs.script_main state0) in
  issued (events r) = [JStr "42"] /\
  exists timestamp results,
    report_writes (events r) = [report timestamp (final r) results].
Proof.
  split; [reflexivity|].
  apply (proj1 (report_written_after_launch Sample.stringify Sample.base64
                  Sample.config Sample.capture_fails []) state0);
    vm_compute; reflexivity.
Defined.

(** C6 (the script departs from the claim).  Two files are discovered and
    the engine names the workflow of the first by an object with a field
    [toString].  The capture throws, the error is caught, the item is
    counted as failed and its error is recorded; then the cleanup of the
    item throws, in the [try] block of [deleteWorkflow] and again in its
    [catch] block, before a request is sent.  [processWorkflow] does not
    return: the item is not counted as processed, the second file is never
    announced, no results file is written, [main] throws after closing the
    browser and the script leaves with status 1. *)
Theorem cleanup_error_aborts_run :
  let item := run Sample.odd_identifier [] (Runs.item state0) in
  let r := run Sample.odd_identifier [] (Runs.script_main state0) in
  let whole := run Sample.odd_identifier []
                 (script Sample.stringify Sample.base64 Sample.config state0) in
  ending item = Thrown (Error_ cannot_convert) /\
  issued (events item) = [Sample.no_text] /\
  requests DELETE (events item) = [] /\
  ending r = Thrown (Error_ cannot_convert) /\
  started (events r) = [announce Sample.path] /\
  total (final r) = 2 /\ failed (final r) = 1 /\
  succeeded (final r) = 0 /\ skipped (final r) = 0 /\
  processed (final r) = 0 /\
  errors (final r) = [(Path.basename1 Sample.path, cannot_convert)] /\
  report_writes (events r) = [] /\
  closings (events r) = 1 /\
  ending whole = Exited 1.
Proof. vm_compute. repeat split. Qed.

(** C7 on a sample run: the store answers 200. *)
Lemma screenshotExists_spec_witness :
  ending (run Sample.all_present [] (Runs.check state0)) = Normal true.
Proof.
  destruct (screenshotExists_spec Sample.config State Sample.all_present []
              state0 (getCategory Sample.path)
              (getScreenshotFilename Sample.path))
    as (b & evs & R & _ & H).
  destruct (H eq_refl) as [_ Hb].
  unfold Runs.check. rewrite R. unfold ending. cbn [fst].
  f_equal. apply Hb. exists (JObj []). reflexivity.
Defined.

(** C8 as it is stated fails: the engine answers 200 with the body [{}];
    the message of the error holds the body but not the status. *)
Lemma missing_identifier_message_lacks_status :
  let r := run Sample.anonymous []
             (importWorkflow Sample.stringify Sample.config Sample.workflow tt) in
  replies (events r) = [Reply 200 (JObj [])] /\
  exists msg,
    ending r = Thrown (Error_ msg) /\
    Str.includes (Sample.stringify (JObj [])) msg = true /\
    Str.includes (Str.of_Z 200) msg = false.
Proof. vm_compute. split; [reflexivity|]. eexists. repeat split. Qed.

(** C8 (amended) on the same run. *)
Lemma importWorkflow_diagnoses_witness :
  ending (run Sample.anonymous []
            (importWorkflow Sample.stringify Sample.config Sample.workflow tt))
  = Thrown (Error_ (missingIdMessage Sample.stringify (JObj []))).
Proof.
  apply (proj1 (proj2 (importWorkflow_diagnoses Sample.stringify Sample.config
                         unit Sample.anonymous [] tt Sample.workflow 200 (JObj [])
                         eq_refl))).
  - reflexivity.
  - discriminate.
  - discriminate.
  - reflexivity.
Defined.

(** C9 on a sample run: nothing at the destination, the PUT is accepted. *)
Lemma uploadToGitHub_create_or_update_witness :
  ending (run Sample.fresh []
            (uploadToGitHub Sample.base64 Sample.config "Slack_and_Chat"
               "notify-team.png" [] tt))
  = Normal "https://raw.githubusercontent.com/acme/shots/main/screenshots/Slack_and_Chat/notify-team.png"%string.
Proof.
  destruct (uploadToGitHub_create_or_update Sample.base64 Sample.config unit
              Sample.fresh [] tt "Slack_and_Chat"%string
              "notify-team.png"%string [])
    as (payload & sent & E & _ & _ & H).
  apply (H 201%Z (JObj [])); [|reflexivity].
  apply (f_equal replies) in E. vm_compute in E. congruence.
Defined.

(** C10 on two files of one directory. *)
Lemma getCategory_closest_directory_witness :
  getCategory "AI_agents/my_flow.json" = getCategory "AI_agents/other.json".
Proof.
  apply (getCategory_closest_directory "AI_agents/other.json"). reflexivity.
Defined.

(** * More of the script

    Properties of the functions of the script beyond the claims above, and
    of the browser code followed step by step. *)

(** The functions of the script are not unfolded by simplification: a run
    is executed by the lemmas about them. *)
Arguments closings : simpl never.
Arguments importWorkflow : simpl never.
Arguments screenshotExists : simpl never.
Arguments deleteWorkflow : simpl never.
Arguments takeScreenshot : simpl never.
Arguments uploadToGitHub : simpl never.
Arguments processWorkflow_try : simpl never.
Arguments main_loop : simpl never.
Arguments getWorkflowFiles : simpl never.
Arguments log_errors : simpl never.
Arguments main_try : simpl never.

Lemma prefix_app s t : String.prefix s (s ++ t) = true.
Proof.
  induction s as [|c s IH].
  - now destruct t.
  - change (String c s ++ t)%string with (String c (s ++ t)).
    cbn [String.prefix]. destruct (ascii_dec c c); [exact IH|congruence].
Qed.

Lemma closings_app e1 e2 : closings (e1 ++ e2) = closings e1 + closings e2.
Proof. unfold closings. now rewrite filter_app, length_app. Qed.

Lemma closings_cons e l :
  closings (e :: l) =
  (match ev_call e with CloseBrowser => 1 | _ => 0 end) + closings l.
Proof. unfold closings. cbn. now destruct (ev_call e). Qed.

Lemma main_calls_no_closing l : main_calls l = [] -> closings l = 0.
Proof.
  induction l as [|[c a] l IH]; [reflexivity|].
  rewrite main_calls_cons, closings_cons. cbn [ev_call].
  destruct (main_call c) eqn:E; [intros H; discriminate H|].
  intros H. rewrite (IH H). now destruct c.
Qed.

Lemma requests_sent m evs : requests m evs = sent m evs.
Proof.
  induction evs as [|[c a] evs IH]; [reflexivity|].
  rewrite requests_cons, IH. destruct c; try reflexivity.
  cbn. now destruct (method_eqb m m0).
Qed.

Lemma screenshots_visited evs : screenshots evs = visited evs.
Proof.
  induction evs as [|[c a] evs IH]; [reflexivity|].
  rewrite screenshots_cons, IH. now destruct c.
Qed.

Lemma sent_app m e1 e2 : sent m (e1 ++ e2) = sent m e1 ++ sent m e2.
Proof. now rewrite <- !requests_sent, requests_app. Qed.

Lemma visited_app e1 e2 : visited (e1 ++ e2) = visited e1 ++ visited e2.
Proof. now rewrite <- !screenshots_visited, screenshots_app. Qed.

Lemma saved_app e1 e2 : saved (e1 ++ e2) = saved e1 ++ saved e2.
Proof.
  induction e1 as [|[c a] e1 IH]; [reflexivity|].
  destruct c; cbn; try exact IH. destruct data; cbn; now rewrite ?IH.
Qed.

Lemma made_app e1 e2 : made (e1 ++ e2) = made e1 ++ made e2.
Proof.
  induction e1 as [|[c a] e1 IH]; [reflexivity|].
  destruct c; cbn; now rewrite ?IH.
Qed.

Lemma images_app e1 e2 : images (e1 ++ e2) = images e1 ++ images e2.
Proof.
  induction e1 as [|[c a] e1 IH]; [reflexivity|].
  destruct c; cbn; try exact IH. destruct a; cbn; now rewrite ?IH.
Qed.

Ltac open_facts X r :=
  unfold ending, final, events in X; cbn zeta in X;
  destruct r as [[? ?] ?] eqn:?;
  cbn [fst snd] in X;
  repeat match goal with
         | Y : _ /\ _ |- _ => destruct Y
         | Y : exists _, _ |- _ => destruct Y
         | Y : _ \/ _ |- _ => destruct Y
         end;
  subst;
  repeat match goal with
         | Y : match _ with _ => _ end |- _ => progress cbv beta iota in Y
         | Y : _ /\ _ |- _ => destruct Y
         | Y : False |- _ => destruct Y
         end;
  subst;
  repeat match goal with
         | Y : Normal _ = Normal _ |- _ => injection Y as Y; subst
         end.

(* what the events of a run show: worked out once, event by event *)
Ltac traffic :=
  rewrite ?requests_sent, ?screenshots_visited;
  match goal with
  | |- context [sent POST ?t] =>
      pattern (sent POST t), (sent PUT t), (sent DELETE t), (visited t),
              (saved t), (made t), (images t);
      match goal with
      | |- ?F _ _ _ _ _ _ _ =>
          let Q := fresh "Claim" in
          set (Q := F);
          repeat (progress
            (cbn [sent visited saved made images method_eqb app];
             rewrite ?sent_app, ?visited_app, ?saved_app, ?made_app, ?images_app));
          repeat match goal with
                 | H : sent _ _ = _ |- _ => try rewrite H; clear H
                 | H : visited _ = _ |- _ => try rewrite H; clear H
                 | H : saved _ = _ |- _ => try rewrite H; clear H
                 | H : made _ = _ |- _ => try rewrite H; clear H
                 | H : images _ = _ |- _ => try rewrite H; clear H
                 end;
          cbn [app]; rewrite ?app_nil_r;
          subst Q; cbv beta
      end
  end.

Ltac tally :=
  count_requests; rewrite ?length_app; cbn [List.length]; try lia; try reflexivity.

Ltac quiet :=
  repeat match goal with
         | H : main_calls ?l = [] |- _ =>
             let A := fresh "A" in
             pose proof (main_calls_no_closing l H) as A;
             let B := fresh "B" in let C := fresh "C" in let D := fresh "D" in
             destruct (main_calls_none l H) as (B & C & D); clear H
         end;
  repeat (progress
    (rewrite ?closings_app, ?closings_cons,
             ?launched_app, ?launched_cons, ?login_failed_app, ?login_failed_cons,
             ?report_writes_app, ?report_writes_cons;
     cbn [ev_call app orb];
     repeat match goal with
            | H : closings _ = _ |- _ => rewrite H
            | H : launched _ = _ |- _ => rewrite H
            | H : login_failed _ = _ |- _ => rewrite H
            | H : report_writes _ = _ |- _ => rewrite H
            end;
     cbn [app orb Nat.add])).

(** ** Where a screenshot goes *)

Lemma split_segments s : Forall (fun seg => no_sep seg = true) (Str.split Path.sep s).
Proof.
  induction s as [|c r IH]; cbn [Str.split].
  - repeat constructor.
  - destruct (Ascii.eqb c Path.sep) eqn:E.
    + constructor; [reflexivity|exact IH].
    + destruct (Str.split Path.sep r) as [|seg segs].
      * repeat constructor. unfold no_sep. cbn. now rewrite E.
      * inversion IH as [|? ? Hseg Hsegs]; subst.
        constructor; [|exact Hsegs].
        unfold no_sep in *. cbn. now rewrite E, Hseg.
Qed.

Lemma Forall_removelast {A} (P : A -> Prop) (l : list A) :
  Forall P l -> Forall P (removelast l).
Proof.
  induction 1 as [|x l Hx Hl IH]; [constructor|].
  cbn. destruct l; [constructor|]. constructor; assumption.
Qed.

Lemma split_app_sep a b :
  no_sep a = true ->
  Str.split Path.sep (a ++ String Path.sep b) = a :: Str.split Path.sep b.
Proof.
  unfold no_sep. induction a as [|c a IH]; intros H.
  - reflexivity.
  - cbn in H. apply andb_true_iff in H as [Hc Ha].
    change (String c a ++ String Path.sep b)%string
      with (String c (a ++ String Path.sep b)).
    cbn [Str.split]. apply negb_true_iff in Hc. rewrite Hc, (IH Ha). reflexivity.
Qed.

Lemma forall_chars_app P s t :
  forall_chars P (s ++ t) = forall_chars P s && forall_chars P t.
Proof.
  induction s as [|c s IH]; [reflexivity|].
  change (String c s ++ t)%string with (String c (s ++ t)).
  cbn [forall_chars]. now rewrite IH, andb_assoc.
Qed.

Lemma endsWith_app s t : Str.endsWith t (s ++ t) = true.
Proof.
  induction s as [|c s IH].
  - change (EmptyString ++ t)%string with t.
    destruct t; cbn [Str.endsWith]; rewrite String.eqb_refl; reflexivity.
  - change (String c s ++ t)%string with (String c (s ++ t)).
    cbn [Str.endsWith]. rewrite IH. apply orb_true_r.
Qed.

Lemma getCategory_segment workflowPath :
  looksLikeCategory (getCategory workflowPath) = true /\
  no_sep (getCategory workflowPath) = true.
Proof.
  rewrite getCategory_dirs.
  pose proof (scanParts_spec (dirSegments workflowPath)
                (List.length (dirSegments workflowPath))) as H.
  destruct (scanParts _ _) as [dir|]; [|split; reflexivity].
  destruct H as (i & Hi & -> & Hl & _). split; [exact Hl|].
  pose proof (Forall_removelast _ _ (split_segments workflowPath)) as F.
  fold (dirSegments workflowPath) in F.
  rewrite Forall_forall in F. apply F. now apply nth_In.
Qed.

Lemma getScreenshotFilename_segment workflowPath :
  no_sep (getScreenshotFilename workflowPath) = true.
Proof.
  unfold getScreenshotFilename, no_sep. rewrite forall_chars_app.
  apply andb_true_iff. split; [|reflexivity].
  apply forall_chars_impl with (P := name_char).
  - intros c Hc. now rewrite (name_char_not_sep c Hc).
  - apply canonicalName_canonical.
Qed.

(** X1. The destination of a screenshot has exactly three segments: the
    [screenshots] directory, the category and the file.  The category
    always looks like a category (so it is neither empty nor a dot segment)
    and the file ends with [.png]. *)
Theorem destination_segments (workflowPath : string) :
  Str.split Path.sep (destination workflowPath) =
    ["screenshots"%string; getCategory workflowPath;
     getScreenshotFilename workflowPath] /\
  looksLikeCategory (getCategory workflowPath) = true /\
  Str.endsWith ".png" (getScreenshotFilename workflowPath) = true.
Proof.
  destruct (getCategory_segment workflowPath) as [Hl Hc].
  split; [|split; [exact Hl|apply endsWith_app]].
  unfold destination.
  change ("screenshots/" ++ getCategory workflowPath ++ "/"
          ++ getScreenshotFilename workflowPath)%string
    with ("screenshots" ++ String Path.sep
            (getCategory workflowPath ++ String Path.sep
               (getScreenshotFilename workflowPath)))%string.
  rewrite split_app_sep by reflexivity.
  rewrite split_app_sep by exact Hc.
  rewrite split_no_sep; [reflexivity|].
  apply getScreenshotFilename_segment.
Qed.

(** ** The import, call by call *)

Section Engine.

Variable JSON_stringify : jsval -> string.
Variable toBase64 : Buffer -> string.
Variable CONFIG : Config.

(** X3. The request of [importWorkflow]: one POST to the workflows of the
    engine whose body holds the name, the nodes, the connections and the
    settings of the document (an empty object when it has none) and its
    static data when it has some, and no other field; a document that is
    [null] is refused before any request. *)
Theorem importWorkflow_request (S : Type) (h : handler) past (s : S) json :
  let request := Http POST (workflowsUrl CONFIG) (JObj (cleanWorkflowOf json)) in
  let r := run h past (importWorkflow JSON_stringify CONFIG json s) in
  match json with
  | JUndefined | JNull =>
      r = ((Thrown (Error_ ("Failed to import workflow: " ++ cannot_read json "name")), s),
           [])
  | _ => events r = [Ev request (h past request)] /\ final r = s
  end.
Proof.
  intros request r.
  pose proof (importWorkflow_detail JSON_stringify CONFIG S h past s json) as X. cbn zeta in X.
  fold request in X. fold r in X.
  destruct json; first [exact X | split; apply X].
Qed.

(** X4. The reply to that request decides how [importWorkflow] ends: a
    transport failure and a status from 500 on fail with the error of the
    request, a status from 400 on with the rejection, an accepted reply
    gives [id] or else [data.id] of its body, and fails when neither is
    there. *)
Theorem importWorkflow_outcome (S : Type) (h : handler) past (s : S) fields :
  let json := JObj fields in
  let request := Http POST (workflowsUrl CONFIG) (JObj (cleanWorkflowOf json)) in
  ending (run h past (importWorkflow JSON_stringify CONFIG json s))
  = importOutcome JSON_stringify (h past request).
Proof.
  intros json request.
  exact (proj2 (proj2 (importWorkflow_detail JSON_stringify CONFIG S h past s json))).
Qed.

(** X5. Every error of [importWorkflow] is a plain error whose message starts
    with the same words, and an identifier that it returns is never
    falsy. *)
Theorem importWorkflow_wraps_failures (S : Type) (h : handler) past (s : S) json :
  match ending (run h past (importWorkflow JSON_stringify CONFIG json s)) with
  | Normal id => truthy id = true
  | Thrown e =>
      String.prefix "Failed to import workflow: " (message e) = true /\
      response e = None
  | Exited _ => False
  end.
Proof.
  pose proof (importWorkflow_detail JSON_stringify CONFIG S h past s json) as X. cbn zeta in X.
  assert (G : forall rep,
    match importOutcome JSON_stringify rep with
    | Normal id => truthy id = true
    | Thrown e =>
        String.prefix "Failed to import workflow: " (message e) = true /\
        response e = None
    | Exited _ => False
    end).
  { intros [status data|msg]; unfold importOutcome, rejectedMessage, missingIdMessage.
    - destruct (Z.leb 500 status); [split; [apply prefix_app|reflexivity]|].
      destruct (Z.leb 400 status); [split; [apply (prefix_app "Failed to import workflow: ")|reflexivity]|].
      destruct data; try (split; [apply prefix_app|reflexivity]).
      all: destruct (truthy _) eqn:E; [exact E|].
      all: split; [apply (prefix_app "Failed to import workflow: ")|reflexivity].
    - split; [apply prefix_app|reflexivity]. }
  destruct json; try (rewrite X; split; [apply prefix_app|reflexivity]).
  all: destruct X as (_ & _ & ->); apply G.
Qed.

End Engine.

(** ** Deletion, upload, discovery and configuration *)

Section Store.

Variable JSON_stringify : jsval -> string.
Variable toBase64 : Buffer -> string.
Variable CONFIG : Config.

(** X6. [deleteWorkflow] leaves the state as it was.  For an identifier
    with a text it sends one DELETE for the workflow and always returns: a
    transport failure and a status outside 2xx are turned into one warning
    that carries the message of the error.  For an identifier without a
    text it throws the error of the conversion, from its [catch] block, and
    nothing is sent or logged. *)
Theorem deleteWorkflow_outcome (S : Type) (h : handler) past (s : S) id :
  let request := Http DELETE (deleteUrl CONFIG id) JUndefined in
  let answered := h past request in
  run h past (deleteWorkflow CONFIG id s) =
  if has_text id
  then
    ((Normal tt, s),
     Ev request answered ::
     match failure status_2xx answered with
     | None => []
     | Some msg =>
         [Ev (Log Warn ("Failed to delete workflow " ++ to_string id ++ ": " ++ msg)%string) tt]
     end)
  else ((Thrown (Error_ cannot_convert), s), []).
Proof.
  intros request answered. subst request answered.
  unfold deleteWorkflow, template, failure.
  destruct (has_text id); crunch h; reflexivity.
Qed.

(** X7. [uploadToGitHub] asks the store once for the destination and sends
    one PUT to it, whatever the first reply was.  The reply to the PUT alone
    decides the ending: the public URL of the destination when it is
    accepted, and otherwise an error whose message is the message of the
    request error after the words of the upload failure. *)
Theorem uploadToGitHub_outcome (S : Type) (h : handler) past (s : S) category filename image :
  let r := run h past (uploadToGitHub toBase64 CONFIG category filename image s) in
  let filePath := ("screenshots/" ++ category ++ "/" ++ filename)%string in
  final r = s /\
  requests GET (events r) = [contentsUrl CONFIG filePath] /\
  requests PUT (events r) = [contentsUrl CONFIG filePath] /\
  requests POST (events r) = [] /\
  exists found stored,
    replies (events r) = [found; stored] /\
    ending r = match failure status_2xx stored with
               | None => Normal (publicUrl CONFIG filePath)
               | Some msg => Thrown (Error_ ("GitHub upload failed: " ++ msg))
               end.
Proof.
  intros r filePath. subst r filePath. unfold uploadToGitHub, ending, final, events, failure.
  crunch h.
  all: repeat split; eexists _, _; split; try reflexivity.
  all: lazy beta iota;
       repeat match goal with H : status_2xx _ = _ |- _ => rewrite H end; reflexivity.
Qed.

Lemma isWorkflowFile_run (S : Type) (h : handler) past (s : S) file :
  run h past (isWorkflowFile file s) =
  ((Normal (match h past (ReadJson file) with
            | inr content => accepts content
            | inl _ => false
            end), s),
   [Ev (ReadJson file) (h past (ReadJson file))]).
Proof.
  unfold isWorkflowFile. crunch h; reflexivity.
Qed.

Lemma filterFiles_run (S : Type) (h : handler) files :
  forall past (s : S),
  exists reads,
    run h past (filterFiles files s) = ((Normal (flat_map accepted reads), s), reads) /\
    map ev_call reads = map ReadJson files.
Proof.
  induction files as [|file rest IH]; intros past s.
  - exists []. split; reflexivity.
  - cbn [filterFiles]. rewrite run_bind, isWorkflowFile_run.
    rewrite run_bind.
    destruct (IH (past ++ [Ev (ReadJson file) (h past (ReadJson file))]) s) as (reads & -> & E).
    exists (Ev (ReadJson file) (h past (ReadJson file)) :: reads).
    cbn. rewrite app_nil_r, E. split; [|reflexivity].
    destruct (h past (ReadJson file)) as [e|content]; [reflexivity|].
    destruct (accepts content); reflexivity.
Qed.

(** X2. [getWorkflowFiles] searches the workflows directory once and reads
    every file that was found, once and in the order of the search; it
    returns, in that order, the files whose document could be read and has a
    truthy [nodes] and a truthy [name], and only the failure of the search
    itself is thrown. *)
Theorem getWorkflowFiles_keeps_workflows (S : Type) (h : handler) past (s : S) :
  let r := run h past (getWorkflowFiles CONFIG s) in
  match h past (globbing CONFIG) with
  | inl e => r = ((Thrown e, s), [Ev (globbing CONFIG) (inl e)])
  | inr files =>
      exists reads,
        r = ((Normal (flat_map accepted reads), s),
             Ev (globbing CONFIG) (inr files) :: reads) /\
        map ev_call reads = map ReadJson files
  end.
Proof.
  intros r. subst r. unfold getWorkflowFiles, globbing.
  rewrite run_bind. cbn.
  destruct (h past _) as [e|files] eqn:E; cbn.
  - reflexivity.
  - match goal with |- context [run h ?p (filterFiles files s)] =>
      destruct (filterFiles_run S h files p s) as (reads & -> & Hc)
    end.
    exists reads. cbn. rewrite ?app_nil_r. split; [reflexivity|exact Hc].
Qed.

(** X14. Without the key of the engine, the token of the store or a
    repository of the store, [main] leaves with exit status 1 after log
    lines only: nothing is searched, launched or requested, and the counters
    are untouched. *)
Theorem main_requires_configuration (h : handler) past st :
  configured CONFIG = false ->
  let r := run h past (main JSON_stringify toBase64 CONFIG st) in
  ending r = Exited 1 /\ final r = st /\
  forallb is_log (map ev_call (events r)) = true.
Proof.
  unfold configured, main, ending, final, events. intros Hc.
  destruct (env_truthy (n8nApiKey CONFIG)); cbn [negb andb] in *.
  2: { crunch h. repeat split. }
  destruct (env_truthy (githubToken CONFIG)); cbn [negb andb] in *.
  2: { crunch h. repeat split. }
  apply negb_false_iff in Hc. rewrite Hc.
  crunch h. repeat split.
Qed.

End Store.

(** ** One item, step by step *)

Section Item.

Variable JSON_stringify : jsval -> string.
Variable toBase64 : Buffer -> string.
Variable CONFIG : Config.

Lemma importWorkflow_traffic (S : Type) (h : handler) past (s : S) json :
  let r := run h past (importWorkflow JSON_stringify CONFIG json s) in
  (forall c, ending r <> Exited c) /\
  (forall id, ending r = Normal id ->
     truthy id = true /\ sent POST (events r) = [workflowsUrl CONFIG]) /\
  final r = s /\
  List.length (sent POST (events r)) <= 1 /\
  sent PUT (events r) = [] /\ sent DELETE (events r) = [] /\
  visited (events r) = [] /\
  saved (events r) = [] /\ made (events r) = [] /\ images (events r) = [].
Proof.
  intros r. hide r. unfold importWorkflow.
  destruct json; crunch h.
  all: unhide; cbn.
  all: repeat split; auto; try congruence.
  all: repeat match goal with
              | H : Normal _ = Normal _ |- _ => injection H as <-
              end; cbn; try reflexivity.
  all: match goal with
       | H : negb ?b = false |- _ => destruct b; [reflexivity|discriminate H]
       end.
Qed.

Lemma screenshotExists_traffic (S : Type) (h : handler) past (s : S) category filename :
  let r := run h past (screenshotExists CONFIG category filename s) in
  (exists b, ending r = Normal b) /\ final r = s /\
  sent POST (events r) = [] /\ sent PUT (events r) = [] /\
  sent DELETE (events r) = [] /\ visited (events r) = [] /\
  saved (events r) = [] /\ made (events r) = [] /\ images (events r) = [].
Proof.
  intros r. hide r. unfold screenshotExists.
  crunch h; unhide; cbn; repeat split; eauto.
Qed.

Lemma deleteWorkflow_traffic (S : Type) (h : handler) past (s : S) id :
  let r := run h past (deleteWorkflow CONFIG id s) in
  final r = s /\
  sent POST (events r) = [] /\ sent PUT (events r) = [] /\
  visited (events r) = [] /\
  saved (events r) = [] /\ made (events r) = [] /\ images (events r) = [] /\
  ((has_text id = true /\ ending r = Normal tt /\
    sent DELETE (events r) = [deleteUrl CONFIG id])
   \/
   (has_text id = false /\ ending r = Thrown (Error_ cannot_convert) /\
    sent DELETE (events r) = [])).
Proof.
  intros r. hide r. unfold deleteWorkflow, template.
  destruct (has_text id); crunch h; unhide; cbn; repeat split; auto.
Qed.

Lemma takeScreenshot_traffic (S : Type) (h : handler) past (s : S) id :
  let r := run h past (takeScreenshot id s) in
  (forall c, ending r <> Exited c) /\
  (forall image, ending r = Normal image ->
     images (events r) = [image] /\ has_text id = true) /\
  final r = s /\
  sent POST (events r) = [] /\ sent PUT (events r) = [] /\
  sent DELETE (events r) = [] /\ visited (events r) = [id] /\
  saved (events r) = [] /\ made (events r) = [].
Proof.
  intros r. hide r. unfold takeScreenshot.
  destruct (has_text id); crunch h; unhide; cbn; repeat split; congruence.
Qed.

Lemma uploadToGitHub_traffic (S : Type) (h : handler) past (s : S) category filename image :
  let r := run h past (uploadToGitHub toBase64 CONFIG category filename image s) in
  let filePath := ("screenshots/" ++ category ++ "/" ++ filename)%string in
  (forall c, ending r <> Exited c) /\
  (forall url, ending r = Normal url -> url = publicUrl CONFIG filePath) /\
  final r = s /\
  sent POST (events r) = [] /\
  sent PUT (events r) = [contentsUrl CONFIG filePath] /\
  sent DELETE (events r) = [] /\ visited (events r) = [] /\
  saved (events r) = [] /\ made (events r) = [] /\ images (events r) = [].
Proof.
  intros r filePath. subst filePath. hide r. unfold uploadToGitHub.
  crunch h.
  all: unhide; cbn; repeat split; congruence.
Qed.

Ltac recall h :=
  match goal with
  | |- context [run h ?p (screenshotExists ?C ?c ?f ?s)] =>
      let X := fresh "X" in
      pose proof (screenshotExists_traffic _ h p s c f) as X;
      open_facts X (run h p (screenshotExists C c f s))
  | |- context [run h ?p (importWorkflow ?J ?C ?j ?s)] =>
      let X := fresh "X" in
      pose proof (importWorkflow_traffic _ h p s j) as X;
      open_facts X (run h p (importWorkflow J C j s))
  | |- context [run h ?p (takeScreenshot ?i ?s)] =>
      let X := fresh "X" in
      pose proof (takeScreenshot_traffic _ h p s i) as X;
      open_facts X (run h p (takeScreenshot i s))
  | |- context [run h ?p (uploadToGitHub ?B ?C ?c ?f ?i ?s)] =>
      let X := fresh "X" in
      pose proof (uploadToGitHub_traffic _ h p s c f i) as X;
      open_facts X (run h p (uploadToGitHub B C c f i s))
  | |- context [run h ?p (deleteWorkflow ?C ?i ?s)] =>
      let X := fresh "X" in
      pose proof (deleteWorkflow_traffic _ h p s i) as X;
      open_facts X (run h p (deleteWorkflow C i s))
  end.

Ltac exec_item h :=
  calm; flat;
  repeat (first [told h | asked h | recall h | push | branch h]; calm; flat).

Lemma processWorkflow_detail (h : handler) past st workflowPath :
  let r := run h past (processWorkflow JSON_stringify toBase64 CONFIG workflowPath st) in
  (List.length (requests POST (events r)) <= 1 /\
   List.length (screenshots (events r)) <= 1 /\
   List.length (requests PUT (events r)) <= 1 /\
   List.length (requests DELETE (events r)) <= 1) /\
  (forall sh, ending r = Normal (Some sh) ->
     sh = mkShot (Path.basename1 workflowPath) (getCategory workflowPath)
                 (getScreenshotFilename workflowPath)
                 (publicUrl CONFIG (destination workflowPath)) /\
     requests POST (events r) = [workflowsUrl CONFIG] /\
     requests PUT (events r) = [contentsUrl CONFIG (destination workflowPath)] /\
     exists id, truthy id = true /\
                screenshots (events r) = [id] /\
                requests DELETE (events r) = [deleteUrl CONFIG id]) /\
  (let localDir := Path.join (screenshotsDir CONFIG) (getCategory workflowPath) in
   let localPath := Path.join localDir (getScreenshotFilename workflowPath) in
   (saved (events r) = [] \/
    saved (events r) = map (fun image => (localPath, image)) (images (events r))) /\
   (made (events r) = [] \/ made (events r) = [localDir]) /\
   List.length (requests PUT (events r)) <= List.length (saved (events r))).
Proof.
  intros r. hide r.
  unfold processWorkflow, processWorkflow_try, processWorkflow_catch,
    processWorkflow_finally, log_progress.
  exec_item h.
  all: try impossible.
  all: unhide; unfold destination.
  all: repeat match goal with
              | H : forall _, Normal ?x = Normal _ -> _ |- _ =>
                  specialize (H x eq_refl)
              | H : forall _, Thrown _ = Normal _ -> _ |- _ => clear H
              | H : _ /\ _ |- _ => destruct H
              end; subst.
  all: traffic.
  all: split; [repeat split; cbn [List.length]; lia|].
  all: split;
       [|split; [|split]; cbn [List.length map]; try lia;
         first [left; reflexivity | right; reflexivity]].
  all: intros sh E; try discriminate E; injection E as <-.
  all: try congruence.
  all: split; [reflexivity|]; split; [reflexivity|]; split; [reflexivity|].
  all: eexists; split; [eassumption|]; split; reflexivity.
Qed.

(** X8. No step of an item is tried twice: at most one import, one capture,
    one upload and one deletion per file. *)
Theorem processWorkflow_traffic (h : handler) past st workflowPath :
  let r := run h past (processWorkflow JSON_stringify toBase64 CONFIG workflowPath st) in
  List.length (requests POST (events r)) <= 1 /\
  List.length (screenshots (events r)) <= 1 /\
  List.length (requests PUT (events r)) <= 1 /\
  List.length (requests DELETE (events r)) <= 1.
Proof. exact (proj1 (processWorkflow_detail h past st workflowPath)). Qed.

(** X9. An item that gives a result made exactly one import, one capture of
    the workflow that the engine named, one upload to the destination of the
    file and one deletion of that workflow; its result holds the name, the
    category and the file name of the item and the public URL of the
    destination. *)
Theorem processWorkflow_success (h : handler) past st workflowPath sh :
  let r := run h past (processWorkflow JSON_stringify toBase64 CONFIG workflowPath st) in
  ending r = Normal (Some sh) ->
  sh = mkShot (Path.basename1 workflowPath) (getCategory workflowPath)
              (getScreenshotFilename workflowPath)
              (publicUrl CONFIG (destination workflowPath)) /\
  requests POST (events r) = [workflowsUrl CONFIG] /\
  requests PUT (events r) = [contentsUrl CONFIG (destination workflowPath)] /\
  exists id, truthy id = true /\
             screenshots (events r) = [id] /\
             requests DELETE (events r) = [deleteUrl CONFIG id].
Proof. exact (proj1 (proj2 (processWorkflow_detail h past st workflowPath)) sh). Qed.

(** The counters of one item. *)
Lemma processWorkflow_counts (h : handler) past st workflowPath :
  let r := run h past (processWorkflow JSON_stringify toBase64 CONFIG workflowPath st) in
  total (final r) = total st /\
  match ending r with
  | Normal result =>
      processed (final r) + skipped (final r) = S (processed st + skipped st) /\
      counted (final r) = S (counted st) /\
      succeeded (final r) + failed (final r) + processed st =
        succeeded st + failed st + processed (final r) /\
      List.length (errors (final r)) + failed st =
        List.length (errors st) + failed (final r) /\
      succeeded (final r) = match result with
                            | Some _ => S (succeeded st)
                            | None => succeeded st
                            end
  | Thrown e =>
      e = Error_ cannot_convert /\
      (exists id, In id (issued (events r)) /\ has_text id = false) /\
      (exists msg, final r = push_error (Path.basename1 workflowPath) msg
                               (inc_failed st))
  | Exited _ => False
  end.
Proof.
  intros r. subst r.
  destruct (processWorkflow_cases JSON_stringify toBase64 CONFIG h past st workflowPath)
    as ([(res & E & [[-> ->]|[(sh & -> & ->)|(msg & -> & ->)]])
        |(E & (msg & F) & I)] & _).
  all: rewrite E; try rewrite F; unfold counted; cbn; rewrite ?length_app; cbn.
  all: repeat split; try lia; try assumption.
  eexists. reflexivity.
Qed.

(** X11. What one item does to the counters: [total] stays and the item
    never leaves the process.  When it returns, exactly one of [processed]
    and [skipped] has grown by one, and so has exactly one of [succeeded],
    [failed] and [skipped]; [succeeded] and [failed] together have grown as
    [processed] has, [errors] as [failed] has, and [succeeded] has grown
    exactly when the item gives a result.  An item throws only the error of
    the conversion of an identifier without text that the engine issued; it
    was counted as failed then, with its error, and as nothing else. *)
Theorem processWorkflow_tally (h : handler) past st workflowPath :
  let r := run h past (processWorkflow JSON_stringify toBase64 CONFIG workflowPath st) in
  total (final r) = total st /\
  match ending r with
  | Normal result =>
      processed (final r) + skipped (final r) = S (processed st + skipped st) /\
      counted (final r) = S (counted st) /\
      succeeded (final r) + failed (final r) + processed st =
        succeeded st + failed st + processed (final r) /\
      List.length (errors (final r)) + failed st =
        List.length (errors st) + failed (final r) /\
      succeeded (final r) = match result with
                            | Some _ => S (succeeded st)
                            | None => succeeded st
                            end
  | Thrown e =>
      e = Error_ cannot_convert /\
      (exists id, In id (issued (events r)) /\ has_text id = false) /\
      (exists msg, final r = push_error (Path.basename1 workflowPath) msg
                               (inc_failed st))
  | Exited _ => False
  end.
Proof. exact (processWorkflow_counts h past st workflowPath). Qed.

End Item.

(** ** The loop and the whole run *)

Section Run.

Variable JSON_stringify : jsval -> string.
Variable toBase64 : Buffer -> string.
Variable CONFIG : Config.

Lemma main_loop_sum (h : handler) workflowFiles :
  forall past results st,
    let r := run h past (main_loop JSON_stringify toBase64 CONFIG workflowFiles results st) in
    (List.length (requests POST (events r)) <= List.length workflowFiles /\
     List.length (screenshots (events r)) <= List.length workflowFiles /\
     List.length (requests PUT (events r)) <= List.length workflowFiles /\
     List.length (requests DELETE (events r)) <= List.length workflowFiles) /\
    List.length (errors (final r)) + failed st =
      List.length (errors st) + failed (final r) /\
    match ending r with
    | Normal results' =>
        List.length results' + succeeded st = List.length results + succeeded (final r) /\
        succeeded (final r) + failed (final r) + processed st =
          succeeded st + failed st + processed (final r) /\
        processed (final r) + skipped (final r) =
          processed st + skipped st + List.length workflowFiles
    | Thrown e =>
        e = Error_ cannot_convert /\
        succeeded (final r) + failed (final r) + processed st =
          S (succeeded st + failed st + processed (final r)) /\
        processed (final r) + skipped (final r) <
          processed st + skipped st + List.length workflowFiles
    | Exited _ => False
    end.
Proof.
  induction workflowFiles as [|workflowPath rest IH]; intros past results st r.
  - subst r. change (main_loop JSON_stringify toBase64 CONFIG [] results st)
      with (@ret State _ results st).
    unfold requests, screenshots. cbn. repeat split; lia.
  - subst r.
    change (main_loop JSON_stringify toBase64 CONFIG (workflowPath :: rest) results st)
      with (bind (processWorkflow JSON_stringify toBase64 CONFIG workflowPath)
              (fun result =>
                 bind (match rest with
                       | [] => ret tt
                       | _ :: _ => sleep (delayBetweenWorkflows CONFIG)
                       end)
                   (fun _ => main_loop JSON_stringify toBase64 CONFIG rest
                               match result with
                               | Some r => results ++ [r]
                               | None => results
                               end)) st).
    rewrite run_bind.
    pose proof (processWorkflow_counts JSON_stringify toBase64 CONFIG h past st workflowPath) as X.
    pose proof (proj1 (processWorkflow_detail JSON_stringify toBase64 CONFIG h past st workflowPath)) as Y.
    unfold ending, final, events in *. cbn zeta in X, Y.
    destruct (run h past (processWorkflow JSON_stringify toBase64 CONFIG workflowPath st)) as [[o s1] e1].
    cbn [fst snd] in X, Y. destruct X as (_ & X).
    destruct o as [res|e|c]; [|destruct X as (-> & _ & (msg & ->))|contradiction].
    2: { cbn [fst snd List.length].
         split; [repeat split; lia|]. cbn. rewrite length_app. cbn.
         repeat split; lia. }
    destruct X as (Xp & _ & Xs & Xe & Xr).
    rewrite run_bind.
    set (results' := match res with Some r => results ++ [r] | None => results end).
    assert (Hstep : exists e2,
      run h (past ++ e1)
        (match rest with [] => ret tt | _ :: _ => sleep (delayBetweenWorkflows CONFIG) end s1)
      = ((Normal tt, s1), e2) /\
      requests POST e2 = [] /\ screenshots e2 = [] /\
      requests PUT e2 = [] /\ requests DELETE e2 = []).
    { destruct rest; cbn.
      - eexists. repeat split.
      - destruct (h (past ++ e1) (Sleep (delayBetweenWorkflows CONFIG))).
        eexists. repeat split. }
    destruct Hstep as (e2 & -> & T1 & T2 & T3 & T4).
    specialize (IH ((past ++ e1) ++ e2) results' s1). cbn zeta in IH.
    destruct (run h ((past ++ e1) ++ e2) (main_loop JSON_stringify toBase64 CONFIG rest results' s1)) as [[o3 s3] e3].
    cbn [fst snd] in *.
    destruct IH as (Htr & He & Hend).
    rewrite !requests_app, !screenshots_app, T1, T2, T3, T4, !length_app.
    cbn [List.length app].
    split; [lia|]. split; [lia|].
    assert (L : List.length results' + succeeded st = List.length results + succeeded s1).
    { subst results'. destruct res; rewrite Xr, ?length_app; cbn; lia. }
    destruct o3 as [results3|e|c]; [|destruct Hend as (-> & Hend)|contradiction];
      repeat split; lia.
Qed.

(** X12. The loop over the files never leaves the process, and [errors]
    grows as [failed] does.  When the loop returns, [results] has one entry
    for every item that succeeded, [succeeded] and [failed] together have
    grown as [processed] has, and every file ended in [processed] or in
    [skipped].  The loop throws only the error of the conversion of an
    identifier without text: the item that threw was counted as failed and
    not as processed, and the files after it were not counted at all. *)
Theorem main_loop_tally (h : handler) workflowFiles past st :
  let r := run h past (main_loop JSON_stringify toBase64 CONFIG workflowFiles [] st) in
  List.length (errors (final r)) + failed st =
    List.length (errors st) + failed (final r) /\
  match ending r with
  | Normal results =>
      List.length results + succeeded st = succeeded (final r) /\
      succeeded (final r) + failed (final r) + processed st =
        succeeded st + failed st + processed (final r) /\
      processed (final r) + skipped (final r) =
        processed st + skipped st + List.length workflowFiles
  | Thrown e =>
      e = Error_ cannot_convert /\
      succeeded (final r) + failed (final r) + processed st =
        S (succeeded st + failed st + processed (final r)) /\
      processed (final r) + skipped (final r) <
        processed st + skipped st + List.length workflowFiles
  | Exited _ => False
  end.
Proof.
  intros r.
  exact (proj2 (main_loop_sum h workflowFiles past [] st)).
Qed.

(** X13. The loop never tries a file again: there are at most as many
    imports, captures, uploads and deletions as there are files. *)
Theorem main_loop_attempts (h : handler) workflowFiles past results st :
  let r := run h past (main_loop JSON_stringify toBase64 CONFIG workflowFiles results st) in
  List.length (requests POST (events r)) <= List.length workflowFiles /\
  List.length (screenshots (events r)) <= List.length workflowFiles /\
  List.length (requests PUT (events r)) <= List.length workflowFiles /\
  List.length (requests DELETE (events r)) <= List.length workflowFiles.
Proof.
  exact (proj1 (main_loop_sum h workflowFiles past results st)).
Qed.

Ltac recall_loop h :=
  match goal with
  | |- context [run h ?p (log_errors ?e ?s)] =>
      let X := fresh "X" in
      pose proof (log_errors_shape _ h e p s) as X;
      open_facts X (run h p (log_errors e s))
  | |- context [run h ?p (main_loop ?J ?B ?C ?f ?r ?s)] =>
      let X := fresh "X" in
      pose proof (conj (main_loop_shape J B C h f p r s)
                       (main_loop_sum h f p r s)) as X;
      open_facts X (run h p (main_loop J B C f r s))
  end.

Ltac exec_loop h :=
  calm; flat;
  repeat (first [asked h | recall_loop h | push | branch h]; calm; flat).

Lemma main_try_sum (h : handler) past st files :
  let r := run h past (main_try JSON_stringify toBase64 CONFIG files st) in
  closings (events r) = 0 /\
  (report_writes (events r) = [] \/
   exists timestamp results,
     report_writes (events r) = [report timestamp (final r) results] /\
     total (final r) = total st /\
     List.length results + succeeded st = succeeded (final r) /\
     succeeded (final r) + failed (final r) + processed st =
       succeeded st + failed st + processed (final r) /\
     processed (final r) + skipped (final r) =
       processed st + skipped st + List.length files /\
     List.length (errors (final r)) + failed st =
       List.length (errors st) + failed (final r)) /\
  (login_failed (events r) = true ->
   started (events r) = [] /\ report_writes (events r) = []).
Proof.
  intros r. hide r. unfold main_try.
  exec_loop h.
  all: unhide.
  all: try discriminate.
  all: (split; [quiet; cbn; reflexivity|]).
  all: assert (Hs := I); repeat match goal with
                                | H : started _ = _ |- _ => revert H
                                end;
       quiet; intros.
  all: (split; [|first [ intros K; discriminate K
                       | intros _; split; [tally|reflexivity] ]]).
  all: try (left; reflexivity).
  all: right; eexists _, _; split; [reflexivity|].
  all: repeat match goal with H : errors _ = _ |- _ => rewrite H end.
  all: cbn [List.length] in *; repeat split; lia.
Qed.

Ltac recall_top h :=
  match goal with
  | |- context [run h ?p (getWorkflowFiles ?C ?s)] =>
      let X := fresh "X" in
      pose proof (getWorkflowFiles_shape C _ h p s) as X;
      open_facts X (run h p (getWorkflowFiles C s))
  | |- context [run h ?p (main_try ?J ?B ?C ?f ?s)] =>
      let X := fresh "X" in
      pose proof (conj (main_try_shape J B C h p s f)
                       (main_try_sum h p s f)) as X;
      open_facts X (run h p (main_try J B C f s))
  end.

Ltac exec_main h :=
  calm; flat;
  repeat (first [told h | asked h | recall_top h | push | branch h]; calm; flat).

Lemma main_detail (h : handler) past st :
  let r := run h past (main JSON_stringify toBase64 CONFIG st) in
  (ending r = Exited 1 \/ forall c, ending r <> Exited c) /\
  closings (events r) = (if launched (events r) then 1 else 0) /\
  (report_writes (events r) = [] \/
   exists timestamp results,
     report_writes (events r) = [report timestamp (final r) results] /\
     List.length results + succeeded st = succeeded (final r) /\
     succeeded (final r) + failed (final r) + processed st =
       succeeded st + failed st + processed (final r) /\
     processed (final r) + skipped (final r) =
       processed st + skipped st + total (final r) /\
     List.length (errors (final r)) + failed st =
       List.length (errors st) + failed (final r)) /\
  (launched (events r) && negb (login_failed (events r)) = false ->
   started (events r) = [] /\ report_writes (events r) = []).
Proof.
  intros r. hide r. unfold main.
  exec_main h.
  all: unhide.
  all: try impossible.
  all: (split; [first [left; reflexivity | right; congruence]|]).
  all: assert (Hs := I); repeat match goal with
                                | H : started _ = _ |- _ => revert H
                                end;
       quiet; rewrite ?orb_false_r; intros.
  all: (split; [cbn; reflexivity|]).
  all: (split;
        [|first [ intros _; split; [solve [tally]|reflexivity]
                | cbn [andb]; intros HF; apply negb_false_iff in HF;
                  match goal with
                  | K : login_failed ?l = true -> _ |- _ =>
                      destruct (K HF) as (Hst & Hw)
                  end;
                  first [ congruence
                        | rewrite ?Hw; split; [tally|reflexivity] ] ]]).
  all: try (left; reflexivity).
  all: right; eexists _, _; split; [reflexivity|].
  all: cbn [total set_total processed succeeded failed skipped errors] in *.
  all: repeat split; congruence.
Qed.

(** X16. The results file of a run from the initial state adds up: it is
    written at most once, and when it is written, [total] is the sum of
    [succeeded], [failed] and [skipped], [processed] is the sum of
    [succeeded] and [failed], there is one screenshot entry for every
    success and one error entry for every failure. *)
Theorem report_adds_up (h : handler) past :
  let r := run h past (main JSON_stringify toBase64 CONFIG state0) in
  report_writes (events r) = [] \/
  exists timestamp results,
    report_writes (events r) = [report timestamp (final r) results] /\
    total (final r) = succeeded (final r) + failed (final r) + skipped (final r) /\
    processed (final r) = succeeded (final r) + failed (final r) /\
    List.length results = succeeded (final r) /\
    List.length (errors (final r)) = failed (final r).
Proof.
  intros r. subst r.
  destruct (proj1 (proj2 (proj2 (main_detail h past state0))))
    as [W|(timestamp & results & W & A & B & C & D)]; [left; exact W|right].
  cbn [state0 succeeded failed processed skipped errors List.length] in A, B, C, D.
  exists timestamp, results. repeat split; [exact W|lia..].
Qed.

(** X15. [main] closes the browser exactly once when it was launched, also
    when the login or the run throws, and never otherwise. *)
Theorem browser_closed_once (h : handler) past st :
  let r := run h past (main JSON_stringify toBase64 CONFIG st) in
  closings (events r) = if launched (events r) then 1 else 0.
Proof. exact (proj1 (proj2 (main_detail h past st))). Qed.

(** X17. Without a browser that was launched and a login that went through,
    no file is processed and no results file is written. *)
Theorem no_session_no_processing (h : handler) past st :
  let r := run h past (main JSON_stringify toBase64 CONFIG st) in
  launched (events r) && negb (login_failed (events r)) = false ->
  started (events r) = [] /\ report_writes (events r) = [].
Proof. exact (proj2 (proj2 (proj2 (main_detail h past st)))). Qed.

(** X18. The script never ends by an exception: an error that [main] throws
    is logged as fatal and printed, and the process leaves with status 1;
    otherwise the script ends as [main] does, normally or with status 1. *)
Theorem script_exit_status (h : handler) past st :
  let m := run h past (main JSON_stringify toBase64 CONFIG st) in
  let r := run h past (script JSON_stringify toBase64 CONFIG st) in
  r = match ending m with
      | Thrown e =>
          ((Exited 1, final m),
           events m ++ [Ev (Log Error ("Fatal error: " ++ message e)%string) tt;
                        Ev (Log Out ("Error: " ++ message e)%string) tt])
      | _ => m
      end /\
  (ending r = Normal tt \/ ending r = Exited 1).
Proof.
  intros m r.
  pose proof (proj1 (main_detail h past st)) as X. fold m in X.
  subst r. unfold script. rewrite run_try_catch. fold m.
  unfold ending, final, events in *.
  destruct m as [[[[]|e|c] s1] e1]; cbn [fst snd] in *.
  - split; [reflexivity|left; reflexivity].
  - cbn. repeat match goal with |- context [h ?p (Log ?l ?t)] => destruct (h p (Log l t)) end.
    cbn. split; [reflexivity|right; reflexivity].
  - split; [reflexivity|right].
    destruct X as [X|X]; [exact X|now destruct (X c)].
Qed.

End Run.

(** ** The pages of the browser *)

Module BrowserFacts.

Import Browser.

Lemma exec_sbind {A B : Type} (w : browser) (p : steps A) (f : A -> steps B) :
  forall past,
    exec w past (sbind p f) =
    let (a, t1) := exec w past p in
    let (b, t2) := exec w (past ++ t1) (f a) in
    (b, t1 ++ t2).
Proof.
  induction p as [a|c k IH]; intros past; cbn.
  - rewrite app_nil_r. now destruct (exec w past (f a)).
  - rewrite IH.
    destruct (exec w (past ++ [Did c (w past c)]) (k (w past c))) as [a t1].
    rewrite <- app_assoc. cbn.
    now destruct (exec w _ (f a)).
Qed.

Lemma exec_bind {A B : Type} (w : browser) (m : task A) (f : A -> task B) past :
  exec w past (bind m f) =
  let (o, t1) := exec w past m in
  match o with
  | Normal a => let (b, t2) := exec w (past ++ t1) (f a) in (b, t1 ++ t2)
  | Thrown e => (Thrown e, t1)
  | Exited c => (Exited c, t1)
  end.
Proof.
  unfold bind. rewrite exec_sbind.
  destruct (exec w past m) as [[a|e|c] t1]; cbn; now rewrite ?app_nil_r.
Qed.

Ltac trace_cases IH :=
  cbn;
  repeat match goal with
         | |- context [match ?x with _ => _ end] => destruct x
         end;
  cbn; rewrite ?IH; reflexivity.

Lemma opened_app t1 t2 : opened (t1 ++ t2) = opened t1 + opened t2.
Proof. induction t1 as [|[c r] t1 IH]; [reflexivity|]. trace_cases IH. Qed.

Lemma closes_app t1 t2 : closes (t1 ++ t2) = closes t1 + closes t2.
Proof. induction t1 as [|[c r] t1 IH]; [reflexivity|]. trace_cases IH. Qed.

Lemma waits_app t1 t2 : waits (t1 ++ t2) = waits t1 ++ waits t2.
Proof. induction t1 as [|[c r] t1 IH]; [reflexivity|]. trace_cases IH. Qed.

Lemma appeared_app t1 t2 : appeared (t1 ++ t2) = appeared t1 ++ appeared t2.
Proof. induction t1 as [|[c r] t1 IH]; [reflexivity|]. trace_cases IH. Qed.

Lemma captured_app t1 t2 : captured (t1 ++ t2) = captured t1 ++ captured t2.
Proof. induction t1 as [|[c r] t1 IH]; [reflexivity|]. trace_cases IH. Qed.

Lemma warnings_app t1 t2 : warnings (t1 ++ t2) = warnings t1 ++ warnings t2.
Proof. induction t1 as [|[c r] t1 IH]; [reflexivity|]. trace_cases IH. Qed.

Lemma files_app t1 t2 : files (t1 ++ t2) = files t1 ++ files t2.
Proof. induction t1 as [|[c r] t1 IH]; [reflexivity|]. trace_cases IH. Qed.

Lemma visits_app t1 t2 : visits (t1 ++ t2) = visits t1 ++ visits t2.
Proof. induction t1 as [|[c r] t1 IH]; [reflexivity|]. trace_cases IH. Qed.

Lemma close_failed_app t1 t2 : close_failed (t1 ++ t2) = close_failed t1 || close_failed t2.
Proof. induction t1 as [|[c r] t1 IH]; [reflexivity|]. trace_cases IH. Qed.

Lemma capture_tried_app t1 t2 : capture_tried (t1 ++ t2) = capture_tried t1 || capture_tried t2.
Proof. induction t1 as [|[c r] t1 IH]; [reflexivity|]. trace_cases IH. Qed.

Lemma fit_failed_app t1 t2 : fit_failed (t1 ++ t2) = fit_failed t1 || fit_failed t2.
Proof. induction t1 as [|[c r] t1 IH]; [reflexivity|]. trace_cases IH. Qed.

Lemma no_button_app t1 t2 : no_button (t1 ++ t2) = no_button t1 || no_button t2.
Proof. induction t1 as [|[c r] t1 IH]; [reflexivity|]. trace_cases IH. Qed.

Lemma buttons_listed_app t1 t2 : buttons_listed (t1 ++ t2) = buttons_listed t1 || buttons_listed t2.
Proof. induction t1 as [|[c r] t1 IH]; [reflexivity|]. trace_cases IH. Qed.

Lemma navigation_awaited_app t1 t2 : navigation_awaited (t1 ++ t2) = navigation_awaited t1 || navigation_awaited t2.
Proof. induction t1 as [|[c r] t1 IH]; [reflexivity|]. trace_cases IH. Qed.

Lemma closes_none t : closes t = 0 -> close_failed t = false.
Proof.
  induction t as [|[c r] t IH]; [reflexivity|].
  destruct c; cbn; try exact IH. intros H. discriminate H.
Qed.

Lemma last_app_cons {A} (l : list A) x l' d : last (l ++ x :: l') d = last (x :: l') d.
Proof.
  induction l as [|y l IH]; [reflexivity|].
  rewrite <- IH. now destruct l.
Qed.

Lemma last_cons_cons {A} (a b : A) l d : last (a :: b :: l) d = last (b :: l) d.
Proof. reflexivity. Qed.

Lemma last_cons_app {A} (a : A) l x l' d :
  last (a :: l ++ x :: l') d = last (x :: l') d.
Proof. rewrite <- (last_app_cons (a :: l) x l' d). reflexivity. Qed.

End BrowserFacts.

(* the answer of the browser to a call *)
Ltac replied w :=
  first
    [ match goal with
      | |- context [match w ?p ?c with _ => _ end] => destruct (w p c) eqn:?
      end
    | match goal with
      | |- context [w ?p (Browser.Say ?l ?m)] => destruct (w p (Browser.Say l m))
      | |- context [w ?p (Browser.Pause ?ms)] => destruct (w p (Browser.Pause ms))
      end ].

Ltac debugging :=
  first
    [ match goal with
      | H : Browser.debug ?s = _ |- context [Browser.debug ?s] => rewrite H
      end
    | progress unfold Browser.when_debug ].

(* what a trace shows, part by part *)
Ltac pages :=
  repeat (progress
    (cbn [Browser.opened Browser.closes Browser.waits Browser.appeared Browser.captured Browser.warnings Browser.close_failed Browser.capture_tried Browser.fit_failed Browser.no_button Browser.buttons_listed Browser.navigation_awaited
          Browser.files Browser.visits app orb Nat.add];
     rewrite ?BrowserFacts.opened_app, ?BrowserFacts.closes_app, ?BrowserFacts.waits_app, ?BrowserFacts.appeared_app, ?BrowserFacts.captured_app, ?BrowserFacts.warnings_app, ?BrowserFacts.close_failed_app, ?BrowserFacts.capture_tried_app, ?BrowserFacts.fit_failed_app, ?BrowserFacts.no_button_app, ?BrowserFacts.buttons_listed_app, ?BrowserFacts.navigation_awaited_app,
             ?BrowserFacts.files_app, ?BrowserFacts.visits_app;
     repeat match goal with
            | H : Browser.files _ = _ |- _ => rewrite H
            | H : Browser.visits _ = _ |- _ => rewrite H
            | H : Browser.opened _ = _ |- _ => rewrite H
            | H : Browser.closes _ = _ |- _ => rewrite H
            | H : Browser.waits _ = _ |- _ => rewrite H
            | H : Browser.appeared _ = _ |- _ => rewrite H
            | H : Browser.captured _ = _ |- _ => rewrite H
            | H : Browser.warnings _ = _ |- _ => rewrite H
            | H : Browser.close_failed _ = _ |- _ => rewrite H
            | H : Browser.capture_tried _ = _ |- _ => rewrite H
            | H : Browser.fit_failed _ = _ |- _ => rewrite H
            | H : Browser.no_button _ = _ |- _ => rewrite H
            | H : Browser.buttons_listed _ = _ |- _ => rewrite H
            | H : Browser.navigation_awaited _ = _ |- _ => rewrite H
            end)).

(* the observations of a trace are computed once each *)
Ltac regroup :=
  match goal with
  | |- context [Browser.opened ?t] =>
      pattern (Browser.opened t), (Browser.closes t), (Browser.actions t),
              (Browser.waits t), (Browser.appeared t), (Browser.captured t),
              (Browser.capture_tried t), (Browser.fit_failed t),
              (Browser.close_failed t);
      match goal with
      | |- ?F _ _ _ _ _ _ _ _ _ => let Q := fresh "Claim" in set (Q := F)
      end
  end.

Ltac regrouped :=
  match goal with
  | Q := _ |- ?F _ _ _ _ _ _ _ _ _ => constr_eq Q F; subst Q
  end;
  cbv beta.

(* what the probing loop found *)
Ltac settle :=
  repeat match goal with
         | H : False |- _ => contradiction
         | H : match ?o with _ => _ end |- _ => cbv beta iota in H
         | H : _ /\ _ |- _ => destruct H
         end;
  repeat match goal with
         | E : Browser.waits ?l = _, H : context [Browser.waits ?l] |- _ =>
             tryif constr_eq E H then fail else rewrite E in H
         end.

Ltac reveal :=
  match goal with
  | P := _ |- ?Q _ => constr_eq P Q; subst P
  end;
  cbv beta; cbn [fst snd].

Section PageFacts.

Variable CONFIG : Config.
Variable SETTINGS : Browser.Settings.

(** The probing loop, on any list of selectors. *)
Lemma findSelector_probes (w : Browser.browser) selectors :
  forall past,
    let r := Browser.exec w past (Browser.findSelector SETTINGS selectors) in
    (exists n,
       Browser.waits (snd r) = map (fun s => (s, 5000%Z)) (firstn n selectors) /\
       match fst r with
       | Normal (Some selector) =>
           Browser.appeared (snd r) = [selector] /\
           last (Browser.waits (snd r)) (""%string, 0%Z) = (selector, 5000%Z)
       | Normal None =>
           Browser.appeared (snd r) = [] /\ n = List.length selectors
       | _ => False
       end) /\
    Browser.opened (snd r) = 0 /\ Browser.closes (snd r) = 0 /\
    Browser.captured (snd r) = [] /\ Browser.capture_tried (snd r) = false /\
    Browser.fit_failed (snd r) = false /\ Browser.close_failed (snd r) = false /\
    Browser.files (snd r) = [] /\ Browser.visits (snd r) = [].
Proof.
  induction selectors as [|selector rest IH]; intros past r; hide r.
  - cbn. reveal. split; [exists 0|]; repeat split.
  - cbn [Browser.findSelector]. unfold Browser.bind at 1.
    rewrite BrowserFacts.exec_sbind.
    assert (T : exists found t,
      Browser.exec w past
        (Browser.try_catch
           (Browser.bind
              (Browser.or_throw (Browser.perform (Browser.WaitForSelector selector 5000)))
              (fun _ =>
                 Browser.bind
                   (Browser.when_debug SETTINGS
                      (Browser.log Info ("  Found selector: " ++ selector)%string))
                   (fun _ => Browser.ret true)))
           (fun _ => Browser.ret false)) = (Normal found, t) /\
      Browser.waits t = [(selector, 5000%Z)] /\
      Browser.appeared t = (if found then [selector] else []) /\
      Browser.opened t = 0 /\ Browser.closes t = 0 /\
      Browser.captured t = [] /\ Browser.capture_tried t = false /\
      Browser.fit_failed t = false /\ Browser.close_failed t = false /\
      Browser.files t = [] /\ Browser.visits t = []).
    { unfold Browser.when_debug. cbn.
      destruct (w past _) as [e|[]]; cbn.
      - exists false. eexists. repeat split.
      - destruct (Browser.debug SETTINGS); cbn.
        + match goal with |- context [w ?p ?c] => destruct (w p c) end.
          exists true. eexists. repeat split.
        + exists true. eexists. repeat split. }
    destruct T as (found & t & -> & Hw & Ha & Ho & Hc & Hi & Ht & Hf & Hx & Hfi & Hvi).
    destruct found.
    + cbn. rewrite app_nil_r. reveal.
      split; [exists 1; rewrite Hw, Ha; repeat split|repeat split; assumption].
    + specialize (IH (past ++ t)). cbn zeta in IH.
      destruct (Browser.exec w (past ++ t) (Browser.findSelector SETTINGS rest))
        as [o t2].
      reveal. cbn [fst snd] in *.
      destruct IH as ((n & Hw2 & Ho2) & Hop & Hcl & Hcap & Htr & Hfit & Hclf & Hfil & Hvis).
      pages. split; [|repeat split].
      exists (S n). cbn [firstn map]. split; [reflexivity|].
      destruct o as [[sel|]|e|c]; try contradiction.
      * destruct Ho2 as [-> Hl]. split; [reflexivity|].
        destruct (Browser.waits t2) as [|x l]; [discriminate Hl|].
        rewrite <- Hw2. exact Hl.
      * destruct Ho2 as [-> ->]. split; reflexivity.
Qed.

Arguments Browser.findSelector : simpl never.

Ltac probed w :=
  match goal with
  | |- context [Browser.exec w ?p (Browser.bind (Browser.findSelector ?S ?l) ?f)] =>
      rewrite (BrowserFacts.exec_bind w (Browser.findSelector S l) f p)
  | |- context [Browser.exec w ?p (Browser.sbind _ _)] =>
      rewrite !BrowserFacts.exec_sbind
  | |- context [Browser.exec w ?p (Browser.findSelector ?S ?l)] =>
      let X := fresh "X" in
      pose proof (findSelector_probes w l p) as X; cbn zeta in X;
      destruct (Browser.exec w p (Browser.findSelector S l)) as [? ?];
      cbn [fst snd] in X;
      destruct X as ((? & ? & ?) & ? & ? & ? & ? & ? & ? & ? & ?)
  end.

Ltac drive w :=
  cbn; repeat (first [replied w | debugging | probed w | branch w]; cbn).

Lemma takeScreenshot_detail (w : Browser.browser) past id :
  let r := Browser.exec w past (Browser.takeScreenshot CONFIG SETTINGS id) in
  match w past Browser.NewPage with
  | inl e => r = (Thrown e, [Browser.Did Browser.NewPage (inl e)])
  | inr _ =>
      (Browser.opened (snd r) = 1 /\ Browser.closes (snd r) = 1 /\
       last (Browser.actions (snd r)) Browser.NewPage = Browser.ClosePage) /\
      ((exists n, Browser.waits (snd r) =
                  map (fun s => (s, 5000%Z)) (firstn n Browser.selectors)) /\
       (Browser.appeared (snd r) = [] \/
        exists selector,
          Browser.appeared (snd r) = [selector] /\
          last (Browser.waits (snd r)) (""%string, 0%Z) = (selector, 5000%Z)) /\
       Browser.capture_tried (snd r) =
         match Browser.appeared (snd r) with [] => false | _ :: _ => true end) /\
      match fst r with
      | Normal image =>
          Browser.captured (snd r) = [image] /\ Browser.close_failed (snd r) = false
      | Thrown _ =>
          Browser.captured (snd r) = [] \/ Browser.close_failed (snd r) = true
      | Exited _ => False
      end /\
      (Browser.waits (snd r) = map (fun s => (s, 5000%Z)) Browser.selectors ->
       Browser.appeared (snd r) = [] ->
       Browser.debug SETTINGS = false ->
       Browser.close_failed (snd r) = false ->
       fst r = Thrown Browser.noCanvas)
  end.
Proof.
  intros r. hide r.
  unfold Browser.takeScreenshot, Browser.template.
  destruct (has_text id) eqn:T; destruct (Browser.debug SETTINGS) eqn:D.
  all: drive w.
  all: reveal.
  all: try reflexivity.
  all: settle.
  all: regroup; pages.
  all: unfold Browser.actions; cbn [map Browser.did_action];
       rewrite ?map_app; cbn [map Browser.did_action];
       rewrite <- ?app_assoc; cbn [app].
  all: regrouped; rewrite ?app_nil_r.
  all: rewrite ?BrowserFacts.last_cons_cons, ?BrowserFacts.last_cons_app,
         ?BrowserFacts.last_app_cons;
       rewrite ?BrowserFacts.last_cons_cons; cbn [last].
  all: repeat match goal with |- _ /\ _ => split end.
  all: try reflexivity.
  all: try (exists 0; reflexivity).
  all: try (intros; discriminate).
  all: try (eexists; reflexivity).
  all: try (left; reflexivity).
  all: try (right; reflexivity).
  all: try (right; eexists; split; [reflexivity|assumption]).
  all: try (cbn; intros; congruence).
Qed.

(** X19. [takeScreenshot] closes the page it opened, once and as the last
    thing it does, whatever happened on the page; when no page could be
    opened nothing else is done. *)
Theorem takeScreenshot_closes_page (w : Browser.browser) past id :
  let r := Browser.exec w past (Browser.takeScreenshot CONFIG SETTINGS id) in
  match w past Browser.NewPage with
  | inl e => r = (Thrown e, [Browser.Did Browser.NewPage (inl e)])
  | inr _ =>
      Browser.opened (snd r) = 1 /\ Browser.closes (snd r) = 1 /\
      last (Browser.actions (snd r)) Browser.NewPage = Browser.ClosePage
  end.
Proof.
  intros r. pose proof (takeScreenshot_detail w past id) as X. cbn zeta in X. fold r in X.
  destruct (w past Browser.NewPage); [exact X|exact (proj1 X)].
Qed.

(** X20. The selectors are waited for in their order, five seconds each, up
    to the first that appears; the workflow is captured exactly when one
    appeared, whatever the click on the fit button did. *)
Theorem takeScreenshot_probes_in_order (w : Browser.browser) past id :
  let r := Browser.exec w past (Browser.takeScreenshot CONFIG SETTINGS id) in
  (exists n, Browser.waits (snd r) =
             map (fun s => (s, 5000%Z)) (firstn n Browser.selectors)) /\
  (Browser.appeared (snd r) = [] \/
   exists selector,
     Browser.appeared (snd r) = [selector] /\
     last (Browser.waits (snd r)) (""%string, 0%Z) = (selector, 5000%Z)) /\
  Browser.capture_tried (snd r) =
    match Browser.appeared (snd r) with [] => false | _ :: _ => true end.
Proof.
  intros r. pose proof (takeScreenshot_detail w past id) as X. cbn zeta in X. fold r in X.
  destruct (w past Browser.NewPage).
  - rewrite X. cbn. split; [exists 0; reflexivity|]. split; [left|]; reflexivity.
  - exact (proj1 (proj2 X)).
Qed.

(** X21. What [takeScreenshot] returns is the one image that the page gave;
    an image that was captured is lost only when closing the page fails. *)
Theorem takeScreenshot_result (w : Browser.browser) past id :
  let r := Browser.exec w past (Browser.takeScreenshot CONFIG SETTINGS id) in
  match fst r with
  | Normal image =>
      Browser.captured (snd r) = [image] /\ Browser.close_failed (snd r) = false
  | Thrown _ =>
      Browser.captured (snd r) = [] \/ Browser.close_failed (snd r) = true
  | Exited _ => False
  end.
Proof.
  intros r. pose proof (takeScreenshot_detail w past id) as X. cbn zeta in X. fold r in X.
  destruct (w past Browser.NewPage).
  - rewrite X. cbn. left. reflexivity.
  - exact (proj1 (proj2 (proj2 X))).
Qed.

(** X22. When all the selectors were waited for and none appeared,
    [takeScreenshot] fails with the missing-canvas error (outside debug
    mode, and unless closing the page fails). *)
Theorem takeScreenshot_no_canvas (w : Browser.browser) past id :
  let r := Browser.exec w past (Browser.takeScreenshot CONFIG SETTINGS id) in
  Browser.waits (snd r) = map (fun s => (s, 5000%Z)) Browser.selectors ->
  Browser.appeared (snd r) = [] ->
  Browser.debug SETTINGS = false ->
  Browser.close_failed (snd r) = false ->
  fst r = Thrown Browser.noCanvas.
Proof.
  intros r. pose proof (takeScreenshot_detail w past id) as X. cbn zeta in X. fold r in X.
  destruct (w past Browser.NewPage).
  - rewrite X. cbn. intros K. discriminate K.
  - exact (proj2 (proj2 (proj2 X))).
Qed.

(** The files that [takeScreenshot] writes: none outside debug mode, and
    in debug mode the content of the page, once it is loaded, and an image
    of the page when no selector appeared, before the error of the missing
    canvas is thrown. *)
Lemma takeScreenshot_files (w : Browser.browser) past id :
  let r := Browser.exec w past (Browser.takeScreenshot CONFIG SETTINGS id) in
  let page := ("debug-page-" ++ to_string id ++ ".html")%string in
  let shot := ("debug-screenshot-" ++ to_string id ++ ".png")%string in
  (Browser.debug SETTINGS = false -> Browser.files (snd r) = []) /\
  exists htmls images,
    Browser.files (snd r) =
      map (fun html => (page, Browser.Html html)) htmls ++
      map (fun image => (shot, Browser.Image image)) images /\
    List.length htmls <= 1 /\ List.length images <= 1 /\
    (images <> [] -> Browser.appeared (snd r) = [] /\ Browser.captured (snd r) = []).
Proof.
  intros r page shot. subst page shot. hide r.
  unfold Browser.takeScreenshot, Browser.template.
  destruct (has_text id) eqn:T; destruct (Browser.debug SETTINGS) eqn:D.
  all: drive w.
  all: reveal.
  all: settle.
  all: pages.
  all: (split; [first [reflexivity | intros K; discriminate K]|]).
  all: first
         [ exists [], []; cbn; split; [reflexivity|]; split; [lia|]; split; [lia|];
           intros K; exfalso; apply K; reflexivity
         | eexists [_], []; cbn; split; [reflexivity|]; split; [lia|]; split; [lia|];
           intros K; exfalso; apply K; reflexivity
         | eexists [_], [_]; cbn; split; [reflexivity|]; split; [lia|]; split; [lia|];
           intros _; split; reflexivity
         | eexists [], [_]; cbn; split; [reflexivity|]; split; [lia|]; split; [lia|];
           intros _; split; reflexivity ].
Qed.

(** For an identifier without text the page is sent nowhere: at most it
    is opened, sized and closed again, and the function throws. *)
Lemma takeScreenshot_without_text (w : Browser.browser) past id :
  has_text id = false ->
  let r := Browser.exec w past (Browser.takeScreenshot CONFIG SETTINGS id) in
  (exists e, fst r = Thrown e) /\
  Browser.visits (snd r) = [] /\ Browser.waits (snd r) = [] /\
  Browser.captured (snd r) = [] /\ Browser.files (snd r) = [].
Proof.
  intros T r. hide r.
  unfold Browser.takeScreenshot, Browser.template. rewrite T.
  drive w.
  all: reveal.
  all: (split; [eexists; reflexivity|]).
  all: repeat split.
Qed.

Lemma log_buttons_quiet (w : Browser.browser) buttons :
  forall past,
    let r := Browser.exec w past (Browser.log_buttons buttons) in
    fst r = Normal tt /\
    Browser.opened (snd r) = 0 /\ Browser.closes (snd r) = 0 /\
    Browser.close_failed (snd r) = false /\
    Browser.warnings (snd r) = [] /\
    Browser.navigation_awaited (snd r) = false /\
    Browser.no_button (snd r) = false /\ Browser.buttons_listed (snd r) = false.
Proof.
  induction buttons as [|btn rest IH]; intros past; cbn.
  - repeat split.
  - match goal with |- context [w ?p ?c] => destruct (w p c) end.
    match goal with
    | |- context [Browser.exec w ?p (Browser.log_buttons rest)] =>
        specialize (IH p); cbn zeta in IH;
        destruct (Browser.exec w p (Browser.log_buttons rest)) as [o t]
    end.
    cbn [fst snd] in *. destruct IH as (-> & ? & ? & ? & ? & ? & ? & ?).
    cbn. repeat split; assumption.
Qed.

Arguments Browser.log_buttons : simpl never.

Ltac listed w :=
  match goal with
  | |- context [Browser.exec w ?p (Browser.bind (Browser.log_buttons ?b) ?f)] =>
      rewrite (BrowserFacts.exec_bind w (Browser.log_buttons b) f p)
  | |- context [Browser.exec w ?p (Browser.sbind _ _)] =>
      rewrite !BrowserFacts.exec_sbind
  | |- context [Browser.exec w ?p (Browser.log_buttons ?b)] =>
      let X := fresh "X" in
      pose proof (log_buttons_quiet w b p) as X; cbn zeta in X;
      destruct (Browser.exec w p (Browser.log_buttons b)) as [? ?];
      cbn [fst snd] in X;
      destruct X as (-> & ? & ? & ? & ? & ? & ? & ?)
  end.

Ltac sign_in w :=
  cbn; repeat (first [replied w | debugging | listed w | branch w]; cbn).

Lemma loginToN8n_detail (w : Browser.browser) past :
  let r := Browser.exec w past (Browser.loginToN8n CONFIG SETTINGS) in
  (Browser.opened (snd r) = 0 /\ Browser.closes (snd r) = 0) /\
  (env_truthy (n8nEmail CONFIG) && env_truthy (n8nPassword CONFIG) = true ->
   match fst r with
   | Normal _ =>
       Browser.warnings (snd r) = [] /\ Browser.navigation_awaited (snd r) = true
   | Thrown e =>
       Browser.warnings (snd r) = ["Login attempt failed: " ++ message e]%string /\
       last (Browser.actions (snd r)) Browser.NewPage =
         Browser.Say Warn ("Login attempt failed: " ++ message e)
   | Exited _ => False
   end) /\
  (if Browser.no_button (snd r)
   then Browser.navigation_awaited (snd r) = false /\
        if Browser.buttons_listed (snd r)
        then fst r = Thrown Browser.noSignIn
        else exists e, fst r = Thrown e
   else True).
Proof.
  intros r. hide r.
  unfold Browser.loginToN8n.
  destruct (env_truthy (n8nEmail CONFIG) && env_truthy (n8nPassword CONFIG)).
  2: destruct (env_truthy (Browser.n8nBasicAuthUser SETTINGS)
               && env_truthy (Browser.n8nBasicAuthPassword SETTINGS)).
  2, 3: sign_in w; reveal; pages; repeat split; congruence.
  destruct (Browser.debug SETTINGS) eqn:D.
  all: sign_in w.
  all: reveal.
  all: repeat match goal with
              | H : negb ?b = _ |- _ => destruct b; try discriminate H; clear H
              end.
  all: pages.
  all: unfold Browser.actions; cbn [map Browser.did_action];
       rewrite ?map_app; cbn [map Browser.did_action];
       rewrite <- ?app_assoc; cbn [app];
       rewrite ?BrowserFacts.last_cons_cons, ?BrowserFacts.last_cons_app,
         ?BrowserFacts.last_app_cons;
       rewrite ?BrowserFacts.last_cons_cons; cbn [last].
  all: repeat match goal with |- _ /\ _ => split end.
  all: try reflexivity.
  all: try (intros _; split; reflexivity).
  all: try (eexists; reflexivity).
  all: try exact I.
Qed.

(** X23. With an e-mail address and a password configured, a login that fails
    is reported by one warning that carries the message of the error, as the
    last thing [loginToN8n] does, and the error is thrown again; a login that
    succeeds has waited for the navigation and warns of nothing. *)
Theorem loginToN8n_failure_is_logged (w : Browser.browser) past :
  let r := Browser.exec w past (Browser.loginToN8n CONFIG SETTINGS) in
  env_truthy (n8nEmail CONFIG) && env_truthy (n8nPassword CONFIG) = true ->
  match fst r with
  | Normal _ =>
      Browser.warnings (snd r) = [] /\ Browser.navigation_awaited (snd r) = true
  | Thrown e =>
      Browser.warnings (snd r) = ["Login attempt failed: " ++ message e]%string /\
      last (Browser.actions (snd r)) Browser.NewPage =
        Browser.Say Warn ("Login attempt failed: " ++ message e)
  | Exited _ => False
  end.
Proof. exact (proj1 (proj2 (loginToN8n_detail w past))). Qed.

(** X24. When the page has no sign-in button to click, [loginToN8n] fails
    without waiting for a navigation; the error is the missing-button error
    as soon as the buttons of the page could be listed. *)
Theorem loginToN8n_needs_button (w : Browser.browser) past :
  let r := Browser.exec w past (Browser.loginToN8n CONFIG SETTINGS) in
  if Browser.no_button (snd r)
  then Browser.navigation_awaited (snd r) = false /\
       if Browser.buttons_listed (snd r)
       then fst r = Thrown Browser.noSignIn
       else exists e, fst r = Thrown e
  else True.
Proof. exact (proj2 (proj2 (loginToN8n_detail w past))). Qed.

Arguments Browser.loginToN8n : simpl never.

(** X25. The login page of [main] is closed when the login went through, and
    left open when it failed: every page that was opened is either closed or
    the failure of its login was warned of. *)
Theorem main_login_pages (w : Browser.browser) past :
  let r := Browser.exec w past (Browser.main_login CONFIG SETTINGS) in
  Browser.opened (snd r) =
    Browser.closes (snd r) + List.length (Browser.warnings (snd r)) /\
  Browser.closes (snd r) = match fst r with
                           | Normal _ => Browser.opened (snd r)
                           | _ => if Browser.close_failed (snd r) then 1 else 0
                           end.
Proof.
  intros r. hide r. unfold Browser.main_login.
  destruct (env_truthy (n8nEmail CONFIG) && env_truthy (n8nPassword CONFIG)) eqn:E.
  2: { cbn. reveal. split; reflexivity. }
  cbn. destruct (w past Browser.NewPage) as [e|[]] eqn:N; cbn.
  { reveal. split; reflexivity. }
  match goal with
  | |- context [Browser.exec w ?p (Browser.bind (Browser.loginToN8n ?C ?S) ?f)] =>
      rewrite (BrowserFacts.exec_bind w (Browser.loginToN8n C S) f p);
      pose proof (loginToN8n_detail w p) as X; cbn zeta in X;
      destruct (Browser.exec w p (Browser.loginToN8n C S)) as [o t]
  end.
  cbn [fst snd] in X. destruct X as ((Ho & Hc) & X & _). specialize (X E).
  pose proof (BrowserFacts.closes_none t Hc) as Hf.
  destruct o as [[]|e|c]; [| |contradiction].
  - destruct X as (Hw & _). cbn.
    destruct (w _ Browser.ClosePage) as [e|[]]; cbn.
    + reveal. pages. cbn. split; reflexivity.
    + destruct (w _ (Browser.Say Out _)). cbn. reveal. pages. cbn. split; reflexivity.
  - destruct X as (Hw & _). cbn. reveal. pages. cbn. split; reflexivity.
Qed.

End PageFacts.

(** ** The files of an item *)

Section Files.

Variable JSON_stringify : jsval -> string.
Variable toBase64 : Buffer -> string.
Variable CONFIG : Config.
Variable SETTINGS : Browser.Settings.

(** X10. The files that one item writes.  [processWorkflow] itself (lines
    489-503) writes the image that the browser gave to the local file of
    the category and name of the item, before it uploads it: every upload
    follows such a write, and only the directory of the category is ever
    made.  Inside the capture, [takeScreenshot] writes no file outside
    debug mode; in debug mode it writes at most the content of the page to
    [debug-page-<id>.html] (lines 336-341) and then at most one image to
    [debug-screenshot-<id>.png] (lines 368-372), the latter only when no
    selector appeared and no image of the workflow is captured. *)
Theorem processWorkflow_saves_locally (h : handler) past st workflowPath
    (w : Browser.browser) before id :
  let r := run h past (processWorkflow JSON_stringify toBase64 CONFIG workflowPath st) in
  let localDir := Path.join (screenshotsDir CONFIG) (getCategory workflowPath) in
  let localPath := Path.join localDir (getScreenshotFilename workflowPath) in
  let capture := Browser.exec w before (Browser.takeScreenshot CONFIG SETTINGS id) in
  let page := ("debug-page-" ++ to_string id ++ ".html")%string in
  let shot := ("debug-screenshot-" ++ to_string id ++ ".png")%string in
  (saved (events r) = [] \/
   saved (events r) = map (fun image => (localPath, image)) (images (events r))) /\
  (made (events r) = [] \/ made (events r) = [localDir]) /\
  List.length (requests PUT (events r)) <= List.length (saved (events r)) /\
  (Browser.debug SETTINGS = false -> Browser.files (snd capture) = []) /\
  exists htmls shots,
    Browser.files (snd capture) =
      map (fun html => (page, Browser.Html html)) htmls ++
      map (fun image => (shot, Browser.Image image)) shots /\
    List.length htmls <= 1 /\ List.length shots <= 1 /\
    (shots <> [] ->
     Browser.appeared (snd capture) = [] /\ Browser.captured (snd capture) = []).
Proof.
  intros r localDir localPath capture page shot.
  pose proof (proj2 (proj2 (processWorkflow_detail JSON_stringify toBase64 CONFIG
                              h past st workflowPath))) as (A & B & C).
  pose proof (takeScreenshot_files CONFIG SETTINGS w before id) as (E & F).
  split; [exact A|]. split; [exact B|]. split; [exact C|]. split; [exact E|exact F].
Qed.

End Files.

(** ** On sample runs *)

(** The key of the engine is missing. *)
Lemma main_requires_configuration_witness :
  let r := run Sample.fresh []
             (main Sample.stringify Sample.base64 Scenes.unconfigured state0) in
  ending r = Exited 1 /\ final r = state0 /\
  forallb is_log (map ev_call (events r)) = true.
Proof.
  apply (main_requires_configuration Sample.stringify Sample.base64
           Scenes.unconfigured Sample.fresh [] state0).
  reflexivity.
Defined.

(** The sample file goes through. *)
Lemma processWorkflow_success_witness :
  let r := run Sample.fresh [] (Runs.item state0) in
  requests POST (events r) = [workflowsUrl Sample.config] /\
  requests PUT (events r) = [contentsUrl Sample.config (destination Sample.path)] /\
  exists id, truthy id = true /\
             screenshots (events r) = [id] /\
             requests DELETE (events r) = [deleteUrl Sample.config id].
Proof.
  apply (processWorkflow_success Sample.stringify Sample.base64 Sample.config
           Sample.fresh [] state0 Sample.path
           (mkShot "Notify team.json" "Slack_and_Chat" "notify-team.png"
              "https://raw.githubusercontent.com/acme/shots/main/screenshots/Slack_and_Chat/notify-team.png")).
  vm_compute. reflexivity.
Defined.

(** The run of the sample file that goes through: the results file is
    written. *)
Lemma report_adds_up_witness :
  let r := run Sample.fresh [] (Runs.script_main state0) in
  exists timestamp results,
    report_writes (events r) = [report timestamp (final r) results] /\
    total (final r) = succeeded (final r) + failed (final r) + skipped (final r) /\
    processed (final r) = succeeded (final r) + failed (final r) /\
    List.length results = succeeded (final r) /\
    List.length (errors (final r)) = failed (final r).
Proof.
  intros r.
  destruct (report_adds_up Sample.stringify Sample.base64 Sample.config
              Sample.fresh []) as [W|W].
  - vm_compute in W. discriminate W.
  - exact W.
Defined.

(** The browser cannot be launched. *)
Lemma no_session_no_processing_witness :
  let r := run Scenes.no_browser [] (Runs.script_main state0) in
  started (events r) = [] /\ report_writes (events r) = [].
Proof.
  apply (no_session_no_processing Sample.stringify Sample.base64 Sample.config
           Scenes.no_browser [] state0).
  vm_compute. reflexivity.
Defined.

(** No selector appears on the page. *)
Lemma takeScreenshot_no_canvas_witness :
  fst (Browser.exec Scenes.blank_page []
         (Browser.takeScreenshot Sample.config Scenes.settings (JStr "42")))
  = Thrown Browser.noCanvas.
Proof.
  apply (takeScreenshot_no_canvas Sample.config Scenes.settings Scenes.blank_page []
           (JStr "42")); vm_compute; reflexivity.
Defined.

(** The page has no sign-in button. *)
Lemma loginToN8n_failure_is_logged_witness :
  let r := Browser.exec Scenes.blank_page []
             (Browser.loginToN8n Scenes.with_account Scenes.settings) in
  match fst r with
  | Normal _ =>
      Browser.warnings (snd r) = [] /\ Browser.navigation_awaited (snd r) = true
  | Thrown e =>
      Browser.warnings (snd r) = ["Login attempt failed: " ++ message e]%string /\
      last (Browser.actions (snd r)) Browser.NewPage =
        Browser.Say Warn ("Login attempt failed: " ++ message e)
  | Exited _ => False
  end.
Proof.
  apply (loginToN8n_failure_is_logged Scenes.with_account Scenes.settings
           Scenes.blank_page []).
  reflexivity.
Defined.

(** [path.join] at the defaults of the script: the pattern of the search
    for workflow files and the local file of a screenshot. *)
Example join_at_defaults :
  Path.join (workflowsDir Sample.config) "**/*.json" = "**/*.json" /\
  Path.join (Path.join (screenshotsDir Sample.config) (getCategory Sample.path))
            (getScreenshotFilename Sample.path)
    = "screenshots/Slack_and_Chat/notify-team.png".
Proof. split; reflexivity. Qed.

(** In debug mode a page without canvas leaves two files behind. *)
Example debug_files_of_blank_page :
  let r := Browser.exec Scenes.blank_page []
             (Browser.takeScreenshot Sample.config Scenes.debugging (JStr "42")) in
  fst r = Thrown Browser.noCanvas /\
  Browser.files (snd r) = [("debug-page-42.html", Browser.Html "");
                           ("debug-screenshot-42.png", Browser.Image [])].
Proof. split; reflexivity. Qed.
